(** * movietime_mcp: the Fandango scraper, embedded and verified

    The development follows [src/movietime_mcp/scraper.py].  Python values
    that travel through the scraper (decoded JSON payloads and the dicts the
    scraper builds) are trees of type [json]; a Python [str] is a [string]
    whose characters are the code points U+0000 to U+00FF; exceptions are
    explicit ([result]); the network, the clock, the HTML parser and the JSON
    decoder are variables of the section that holds the scraper.  Logging is
    not modelled. *)

From Stdlib Require Import List String Ascii ZArith Lia Bool DecimalString.
From Stdlib Require Import Floats.SpecFloat.
Import ListNotations.
Local Open Scope string_scope.
Set Warnings "-register-all".

(** ** Exceptions and the error monad *)

Inductive exn : Type :=
| AttributeError
| TypeError
| KeyError
| IndexError
| ValueError
| HTTPStatusError (status_code : Z) (reason_phrase : string)
| RequestError (message : string)
| OtherError (message : string).

Inductive result (A : Type) : Type :=
| Ok (a : A)
| Raise (e : exn).
Arguments Ok {A} a.
Arguments Raise {A} e.

Definition bind {A B : Type} (c : result A) (k : A -> result B) : result B :=
  match c with
  | Ok a => k a
  | Raise e => Raise e
  end.

Notation "x <- c ;; k" := (bind c (fun x => k))
  (at level 61, c at next level, right associativity).

Fixpoint mapM {A B : Type} (f : A -> result B) (l : list A) : result (list B) :=
  match l with
  | [] => Ok []
  | a :: l' => b <- f a ;; bs <- mapM f l' ;; Ok (b :: bs)
  end.

(** ** Python strings *)

Definition code (c : ascii) : nat := nat_of_ascii c.

Definition in_range (lo hi : nat) (c : ascii) : bool :=
  (lo <=? code c)%nat && (code c <=? hi)%nat.

(** [str.isspace] (and the [\s] of [re]) on the code points below 256. *)
Definition isspace (c : ascii) : bool :=
  in_range 9 13 c || in_range 28 32 c || (code c =? 133)%nat || (code c =? 160)%nat.

(** [\d] of [re] (and [str.isdecimal]) on the code points below 256. *)
Definition isdigit (c : ascii) : bool := in_range 48 57 c.

(** [str.lower] on one code point below 256: A-Z, and the accented capitals
    U+00C0 to U+00DE but for the multiplication sign U+00D7. *)
Definition lower_char (c : ascii) : ascii :=
  if in_range 65 90 c || (in_range 192 222 c && negb (code c =? 215)%nat)
  then ascii_of_nat (code c + 32)
  else c.

Fixpoint lower (s : string) : string :=
  match s with
  | EmptyString => EmptyString
  | String c s' => String (lower_char c) (lower s')
  end.

Fixpoint lstrip_by (p : ascii -> bool) (s : string) : string :=
  match s with
  | EmptyString => EmptyString
  | String c s' => if p c then lstrip_by p s' else s
  end.

Fixpoint rstrip_by (p : ascii -> bool) (s : string) : string :=
  match s with
  | EmptyString => EmptyString
  | String c s' =>
      match rstrip_by p s' with
      | EmptyString => if p c then EmptyString else String c EmptyString
      | r => String c r
      end
  end.

(** [s.strip()] *)
Definition strip (s : string) : string := rstrip_by isspace (lstrip_by isspace s).

(** [s.rstrip(chars)] *)
Fixpoint mem_char (c : ascii) (chars : string) : bool :=
  match chars with
  | EmptyString => false
  | String d chars' => Ascii.eqb c d || mem_char c chars'
  end.

Definition rstrip_chars (chars s : string) : string :=
  rstrip_by (fun c => mem_char c chars) s.

(** [s.startswith(p)] *)
Definition startswith (p s : string) : bool := prefix p s.

(** [s.endswith(suf)] *)
Fixpoint endswith (suf s : string) : bool :=
  String.eqb s suf ||
  match s with
  | EmptyString => false
  | String _ s' => endswith suf s'
  end.

(** [sub in s] *)
Fixpoint contains (sub s : string) : bool :=
  prefix sub s ||
  match s with
  | EmptyString => false
  | String _ s' => contains sub s'
  end.

Fixpoint drop (n : nat) (s : string) : string :=
  match n, s with
  | O, _ => s
  | S n', EmptyString => EmptyString
  | S n', String _ s' => drop n' s'
  end.

Fixpoint take (n : nat) (s : string) : string :=
  match n, s with
  | O, _ => EmptyString
  | S n', EmptyString => EmptyString
  | S n', String c s' => String c (take n' s')
  end.

(** The first occurrence of a separator: [Some (before, after)], or [None]
    when [sep] does not occur.  [s.split(sep, 1)] is [[before; after]] in the
    first case and [[s]] in the second. *)
Fixpoint cut (sep s : string) : option (string * string) :=
  if prefix sep s then Some (EmptyString, drop (String.length sep) s)
  else
    match s with
    | EmptyString => None
    | String c s' =>
        match cut sep s' with
        | Some (a, b) => Some (String c a, b)
        | None => None
        end
    end.

Definition split1 (sep s : string) : list string :=
  match cut sep s with
  | Some (a, b) => [a; b]
  | None => [s]
  end.

(** [sep.join(parts)] for parts that are strings *)
Fixpoint join (sep : string) (parts : list string) : string :=
  match parts with
  | [] => EmptyString
  | [p] => p
  | p :: rest => p ++ sep ++ join sep rest
  end.

(** The characters of a string, as Python iterates over it. *)
Fixpoint chars (s : string) : list string :=
  match s with
  | EmptyString => []
  | String c s' => String c EmptyString :: chars s'
  end.

(** [str(n)] for an int *)
Definition str_of_int (n : Z) : string := NilZero.string_of_int (Z.to_int n).

(** The decimal value of a string of digits ([int(s)]), most significant
    digit first. *)
Fixpoint int_of_digits (acc : Z) (s : string) : Z :=
  match s with
  | EmptyString => acc
  | String c s' => int_of_digits (10 * acc + (Z.of_nat (code c) - 48))%Z s'
  end.

Definition dquote : ascii := ascii_of_nat 34.

(** ** Python values

    What [resp.json()] and [json.loads] return, and what the scraper builds:
    [None], [bool], [int], [float] (a binary64, as a [spec_float]), [str],
    [list] and [dict] with string keys.  A dict keeps its insertion order; its
    keys are distinct, and a lookup reads the first binding of a key. *)

Inductive json : Type :=
| JNull
| JBool (b : bool)
| JInt (n : Z)
| JFloat (f : spec_float)
| JStr (s : string)
| JArr (items : list json)
| JObj (fields : list (string * json)).

Definition dict : Type := list (string * json).

Fixpoint dict_get (k : string) (d : dict) : option json :=
  match d with
  | [] => None
  | (k', v) :: d' => if String.eqb k k' then Some v else dict_get k d'
  end.

(** [d[k] = v]: an existing key keeps its place, a new key goes last. *)
Fixpoint dict_set (k : string) (v : json) (d : dict) : dict :=
  match d with
  | [] => [(k, v)]
  | (k', v') :: d' =>
      if String.eqb k k' then (k', v) :: d' else (k', v') :: dict_set k v d'
  end.

(** [d.get(k, default)] on a dict *)
Definition get_or (d : dict) (k : string) (default : json) : json :=
  match dict_get k d with
  | Some v => v
  | None => default
  end.

(** [x.get(k, default)] on any value: only a dict has [get]. *)
Definition py_get (x : json) (k : string) (default : json) : result json :=
  match x with
  | JObj d => Ok (get_or d k default)
  | _ => Raise AttributeError
  end.

Definition is_zero (f : spec_float) : bool :=
  match f with
  | S754_zero _ => true
  | _ => false
  end.

(** [bool(x)] *)
Definition truthy (x : json) : bool :=
  match x with
  | JNull => false
  | JBool b => b
  | JInt n => negb (n =? 0)%Z
  | JFloat f => negb (is_zero f)
  | JStr s => negb (String.eqb s EmptyString)
  | JArr l => match l with [] => false | _ => true end
  | JObj d => match d with [] => false | _ => true end
  end.

(** [x or y] *)
Definition py_or (x y : json) : json := if truthy x then x else y.

(** [x == s] and [x != s] for a string constant [s] *)
Definition eq_str (x : json) (s : string) : bool :=
  match x with
  | JStr t => String.eqb t s
  | _ => false
  end.

Definition is_dict (x : json) : bool :=
  match x with
  | JObj _ => true
  | _ => false
  end.

Definition is_list (x : json) : bool :=
  match x with
  | JArr _ => true
  | _ => false
  end.

Definition is_none (x : json) : bool :=
  match x with
  | JNull => true
  | _ => false
  end.

(** [for x in v]: a list gives its items, a dict its keys, a string its
    characters; nothing else is iterable. *)
Definition py_iter (v : json) : result (list json) :=
  match v with
  | JArr l => Ok l
  | JObj d => Ok (map (fun kv => JStr (fst kv)) d)
  | JStr s => Ok (map JStr (chars s))
  | _ => Raise TypeError
  end.

(** [len(l)] of a list the scraper has built *)
Definition py_len (l : list json) : json := JInt (Z.of_nat (List.length l)).

(** *** [str()] and f-string interpolation

    [repr] of a float and of a string are the interpreter's; they are the two
    variables here.  [str(x)] is [x] for a string and [repr(x)] otherwise. *)

Section Repr.
Variable float_repr : spec_float -> string.
Variable str_repr : string -> string.

Fixpoint py_repr (x : json) : string :=
  match x with
  | JNull => "None"
  | JBool true => "True"
  | JBool false => "False"
  | JInt n => str_of_int n
  | JFloat f => float_repr f
  | JStr s => str_repr s
  | JArr l => "[" ++ join ", " (map py_repr l) ++ "]"
  | JObj d =>
      "{" ++ join ", "
               (map (fun kv : string * json => let (k, v) := kv in
                               str_repr k ++ ": " ++ py_repr v) d) ++ "}"
  end.

Definition py_str (x : json) : string :=
  match x with
  | JStr s => s
  | _ => py_repr x
  end.
End Repr.

(** *** [round(x, 2)]

    For a float, CPython rounds the exact binary value to two decimals, ties
    to even, and returns the double nearest to that decimal ([double_round] in
    [floatobject.c]); NaN, the infinities and the zeros round to themselves.
    An int rounds to itself, a bool to the int it is, and no other value has
    [__round__]. *)

Definition prec : Z := 53.
Definition emax : Z := 1024.

(** [a / b] rounded to the nearest integer, ties to even ([0 <= a], [0 < b]) *)
Definition div_half_even (a b : Z) : Z :=
  let q := (a / b)%Z in
  let r := (a mod b)%Z in
  match (2 * r ?= b)%Z with
  | Lt => q
  | Gt => (q + 1)%Z
  | Eq => if Z.even q then q else (q + 1)%Z
  end.

(** The integer nearest to [100 * m * 2^e], ties to even. *)
Definition hundredths (m : positive) (e : Z) : Z :=
  if (0 <=? e)%Z then (Zpos m * 2 ^ e * 100)%Z
  else div_half_even (Zpos m * 100) (2 ^ (- e)).

(** The double nearest to [n / 100], with the sign [s]. *)
Definition double_of_hundredths (s : bool) (n : Z) : spec_float :=
  match n with
  | Zpos p => SFdiv prec emax (S754_finite s p 0) (S754_finite false 100 0)
  | _ => S754_zero s
  end.

Definition round2_float (x : spec_float) : spec_float :=
  match x with
  | S754_finite s m e => double_of_hundredths s (hundredths m e)
  | _ => x
  end.

Definition py_round2 (x : json) : result json :=
  match x with
  | JInt n => Ok (JInt n)
  | JBool b => Ok (JInt (if b then 1 else 0))
  | JFloat f => Ok (JFloat (round2_float f))
  | _ => Raise TypeError
  end.

(** The float a decimal literal [num / 10^digits] denotes: the nearest double. *)
Definition float_of_decimal (num : positive) (digits : nat) : spec_float :=
  SFdiv prec emax (S754_finite false num 0)
        (S754_finite false (Pos.pow 10 (Pos.of_nat digits)) 0).

(** ** Regular expressions

    The fragment of Python's [re] that the scraper's patterns (and the pattern
    [datetime.strptime] builds) are written in: one-character classes,
    sequence, ordered alternative, the greedy star of a class, capturing
    groups, [^] and [$].  The matcher backtracks as [re] does: alternatives
    are tried left to right and a star gives characters back one at a time,
    so the first way to match is the one [re] reports. *)

Inductive regex : Type :=
| REps
| RChar (p : ascii -> bool)
| RSeq (r1 r2 : regex)
| RAlt (r1 r2 : regex)
| RStar (p : ascii -> bool)
| RGroup (r : regex)
| RBol
| REol.

Definition newline : ascii := ascii_of_nat 10.

(** [$] (no MULTILINE): the end of the subject, or just before a newline that
    ends it. *)
Definition at_eol (s : string) : bool :=
  match s with
  | EmptyString => true
  | String c EmptyString => Ascii.eqb c newline
  | _ => false
  end.

Section Matcher.
Context {A : Type}.
(** The length of the whole subject: [^] holds where nothing is consumed. *)
Variable subject_len : nat.

(** [star p s k]: the longest run of [p] at the head of [s] first, then
    shorter ones; [k] gets the run and the rest. *)
Fixpoint star (p : ascii -> bool) (s : string) (k : string -> string -> option A)
  : option A :=
  match s with
  | String c s' =>
      if p c then
        match star p s' (fun t rest => k (String c t) rest) with
        | Some a => Some a
        | None => k EmptyString s
        end
      else k EmptyString s
  | EmptyString => k EmptyString s
  end.

(** [rmatch r s caps k]: match [r] at the head of [s]; on success hand the
    text matched, the rest of the subject and the groups closed so far to
    [k]; when [k] fails, try the next way to match. *)
Fixpoint rmatch (r : regex) (s : string) (caps : list string)
         (k : string -> string -> list string -> option A) : option A :=
  match r with
  | REps => k EmptyString s caps
  | RChar p =>
      match s with
      | String c s' => if p c then k (String c EmptyString) s' caps else None
      | EmptyString => None
      end
  | RSeq r1 r2 =>
      rmatch r1 s caps
             (fun t1 s1 caps1 =>
                rmatch r2 s1 caps1 (fun t2 s2 caps2 => k (t1 ++ t2) s2 caps2))
  | RAlt r1 r2 =>
      match rmatch r1 s caps k with
      | Some a => Some a
      | None => rmatch r2 s caps k
      end
  | RStar p => star p s (fun t rest => k t rest caps)
  | RGroup r1 => rmatch r1 s caps (fun t s1 caps1 => k t s1 (caps1 ++ [t])%list)
  | RBol => if (String.length s =? subject_len)%nat then k EmptyString s caps else None
  | REol => if at_eol s then k EmptyString s caps else None
  end.
End Matcher.

(** A match: the text it spans, and its groups in order. *)
Record rmatch_result : Type := MkMatch { matched : string; groups : list string }.

(** [m.end() - m.start()] *)
Definition span (m : rmatch_result) : nat := String.length (matched m).

Definition match_at (subject_len : nat) (r : regex) (s : string)
  : option rmatch_result :=
  rmatch subject_len r s [] (fun t rest caps => Some (MkMatch t caps)).

(** [re.match(r, s)] *)
Definition re_match (r : regex) (s : string) : option rmatch_result :=
  match_at (String.length s) r s.

(** [re.search(r, s)]: the leftmost position with a match. *)
Fixpoint search_from (subject_len : nat) (r : regex) (s : string)
  : option rmatch_result :=
  match match_at subject_len r s with
  | Some m => Some m
  | None =>
      match s with
      | EmptyString => None
      | String _ s' => search_from subject_len r s'
      end
  end.

Definition re_search (r : regex) (s : string) : option rmatch_result :=
  search_from (String.length s) r s.

(** [m.group(1)] *)
Definition group1 (m : rmatch_result) : string := hd EmptyString (groups m).

(** [re.sub(r, "", s)] for a pattern that matches no empty string: every
    match, found left to right past the match before it, is deleted.  [skip]
    counts the characters of the current match still to delete. *)
Fixpoint delete_from (subject_len : nat) (r : regex) (s : string) (skip : nat)
  : string :=
  match s with
  | EmptyString => EmptyString
  | String c s' =>
      match skip with
      | S n => delete_from subject_len r s' n
      | O =>
          match match_at subject_len r s with
          | Some (MkMatch (String _ t) _) =>
              delete_from subject_len r s' (String.length t)
          | _ => String c (delete_from subject_len r s' 0)
          end
      end
  end.

Definition re_delete (r : regex) (s : string) : string :=
  delete_from (String.length s) r s 0.

(** Pattern syntax. *)
Definition chr (c : ascii) : regex := RChar (Ascii.eqb c).
Definition ichr (c : ascii) : regex :=
  RChar (fun x => Ascii.eqb (lower_char x) (lower_char c)).

(** A literal, and a literal under IGNORECASE. *)
Fixpoint lit (s : string) : regex :=
  match s with
  | EmptyString => REps
  | String c s' => RSeq (chr c) (lit s')
  end.

Fixpoint ilit (s : string) : regex :=
  match s with
  | EmptyString => REps
  | String c s' => RSeq (ichr c) (ilit s')
  end.

(** [r{n}] *)
Fixpoint rep (n : nat) (r : regex) : regex :=
  match n with
  | O => REps
  | S n' => RSeq r (rep n' r)
  end.

(** [r?], [p+], [\d], [\s*], [.] *)
Definition opt (r : regex) : regex := RAlt r REps.
Definition plus (p : ascii -> bool) : regex := RSeq (RChar p) (RStar p).
Definition digit : regex := RChar isdigit.
Definition spaces : regex := RStar isspace.
Definition not_newline (c : ascii) : bool := negb (Ascii.eqb c newline).
Definition range (lo hi : string) : regex :=
  match lo, hi with
  | String a _, String b _ => RChar (in_range (code a) (code b))
  | _, _ => REps
  end.
Definition seq (rs : list regex) : regex := fold_right RSeq REps rs.

(** ** [datetime.strptime(s, "%Y-%m-%d")]

    CPython's [_strptime] turns the format into the pattern
    [(\d\d\d\d)-(1[0-2]|0[1-9]|[1-9])-(3[0-1]|[1-2]\d|0[1-9]|[1-9]| [1-9])],
    matches it at the head of the input, refuses input that goes on after
    the match, and builds the date, which refuses a year 0 and a day the
    month does not have.  Every refusal is a [ValueError]. *)

Definition year_regex : regex := RGroup (rep 4 digit).

Definition month_regex : regex :=
  RGroup (RAlt (RSeq (chr "1") (range "0" "2"))
         (RAlt (RSeq (chr "0") (range "1" "9"))
               (range "1" "9"))).

Definition day_regex : regex :=
  RGroup (RAlt (RSeq (chr "3") (range "0" "1"))
         (RAlt (RSeq (range "1" "2") digit)
         (RAlt (RSeq (chr "0") (range "1" "9"))
         (RAlt (range "1" "9")
               (RSeq (chr " ") (range "1" "9")))))).

Definition ymd_regex : regex :=
  seq [year_regex; chr "-"; month_regex; chr "-"; day_regex].

(** [int(s)] for the groups of the pattern: digits, after blanks. *)
Definition int_of_str (s : string) : Z := int_of_digits 0 (strip s).

Definition is_leap (y : Z) : bool :=
  ((y mod 4 =? 0) && (negb (y mod 100 =? 0) || (y mod 400 =? 0)))%Z.

Definition days_in_month (y m : Z) : Z :=
  match m with
  | 2 => if is_leap y then 29 else 28
  | 4 | 6 | 9 | 11 => 30
  | _ => 31
  end%Z.

(** [datetime.date(y, m, d)] accepts the triple. *)
Definition valid_date (y m d : Z) : bool :=
  ((1 <=? y) && (y <=? 9999) && (1 <=? m) && (m <=? 12)
   && (1 <=? d) && (d <=? days_in_month y m))%Z.

Definition strptime_ymd (s : string) : result (Z * Z * Z) :=
  match re_match ymd_regex s with
  | None => Raise ValueError
  | Some m =>
      if negb (String.length s =? span m)%nat then Raise ValueError
      else
        match groups m with
        | [y; mo; d] =>
            let '(y, mo, d) := (int_of_str y, int_of_str mo, int_of_str d) in
            if valid_date y mo d then Ok (y, mo, d) else Raise ValueError
        | _ => Raise ValueError
        end
  end.

(** ** The HTML document, as BeautifulSoup shows it to the scraper

    Of an element the scraper reads its text ([get_text(strip=True)]), its
    attributes ([get]) and, for a script, its [string]. *)

Record tag : Type := MkTag {
  tag_text : string;
  tag_attrs : list (string * string);
  tag_string : option string
}.

Fixpoint attr_get (k : string) (attrs : list (string * string)) : json :=
  match attrs with
  | [] => JNull
  | (k', v) :: attrs' => if String.eqb k k' then JStr v else attr_get k attrs'
  end.

(** [x[k]] *)
Definition py_index (x : json) (k : string) : result json :=
  match x with
  | JObj d =>
      match dict_get k d with
      | Some v => Ok v
      | None => Raise KeyError
      end
  | _ => Raise TypeError
  end.

(** ** The scraper *)

Definition FANDANGO_BASE : string := "https://www.fandango.com".
Definition FANDANGO_API : string := FANDANGO_BASE ++ "/napi/theaterswithshowtimes".

(** [^\d{5}(-\d{4})?$] *)
Definition zip_regex : regex :=
  seq [RBol; rep 5 digit; opt (RGroup (RSeq (chr "-") (rep 4 digit))); REol].

(** [\s*Movie Showtimes.*$] under IGNORECASE, and [\s*\|.*$] *)
Definition showtimes_suffix_regex : regex :=
  seq [spaces; ilit "Movie Showtimes"; RStar not_newline; REol].
Definition bar_suffix_regex : regex :=
  seq [spaces; chr "|"; RStar not_newline; REol].

(** The three postal-code patterns: a quoted key, [\s*:\s*], a quote and
    the group [(\d{5})]; the patterns for the keys zipCode and zip also ask
    for the closing quote, the one for postalCode does not. *)
Definition key_regex (key : string) : regex :=
  seq [chr dquote; lit key; chr dquote; spaces; chr ":"; spaces; chr dquote;
       RGroup (rep 5 digit)].
Definition postal_code_regex : regex := key_regex "postalCode".
Definition zip_code_regex : regex := RSeq (key_regex "zipCode") (chr dquote).
Definition zip_key_regex : regex := RSeq (key_regex "zip") (chr dquote).

(** [/([a-z0-9-]+)/theater-page] under IGNORECASE *)
Definition slug_char (c : ascii) : bool :=
  in_range 97 122 (lower_char c) || in_range 48 57 c || Ascii.eqb c "-".
Definition slug_regex : regex :=
  seq [chr "/"; RGroup (plus slug_char); ilit "/theater-page"].

Section Scraper.
Set Default Proof Using "Type".

(** [date.today().isoformat()] *)
Variable today : string.
(** [repr] of a float and of a string, for f-strings *)
Variable float_repr : spec_float -> string.
Variable str_repr : string -> string.
(** What the remote site answers to [client.get] followed by
    [raise_for_status] and [resp.json()] or [resp.text]. *)
Variable http_get_json : string -> dict -> result json.
Variable http_get_html : string -> result string.
(** [BeautifulSoup(html, "html.parser").select(selector)], in document
    order, and [json.loads]. *)
Variable soup_select : string -> string -> list tag.
Variable json_loads : string -> result json.

Definition fmt (x : json) : string := py_str float_repr str_repr x.

(** [soup.select_one(selector)] *)
Definition select_one (html selector : string) : option tag :=
  hd_error (soup_select html selector).

(** *** Helper utilities (lines 52-115) *)

Definition _today_str : string := today.

Definition _validate_date (dt : option string) : result string :=
  match dt with
  | None => Ok _today_str
  | Some s =>
      if String.eqb s EmptyString then Ok _today_str
      else
        match strptime_ymd s with
        | Ok _ => Ok s
        | Raise ValueError => Ok _today_str
        | Raise e => Raise e
        end
  end.

Definition _parse_location (location : string) : result dict :=
  let location := strip location in
  match re_match zip_regex location with
  | Some _ => Ok [("zipCode", JStr location)]
  | None =>
      if contains "," location then
        let parts := map strip (split1 "," location) in
        match parts with
        | p0 :: p1 :: _ => Ok [("city", JStr p0); ("state", JStr p1)]
        | _ => Raise IndexError
        end
      else Ok [("city", JStr location); ("state", JStr EmptyString)]
  end.

Definition _fetch_json (url : string) (params : dict) : result json :=
  http_get_json url params.

Definition _fetch_html (url : string) : result string :=
  http_get_html url.

(** *** Showtime simplification (lines 122-212) *)

Definition _simplify_showtime (st : json) : result json :=
  td <- py_get st "ticketingDate" JNull ;;
  time <- (if is_dict td
           then td' <- py_get st "ticketingDate" (JObj []) ;;
                py_get td' "localTime" (JStr EmptyString)
           else py_get st "dateTime" (JStr EmptyString)) ;;
  format <- py_get st "formatStr" (JStr EmptyString) ;;
  jump <- py_get st "ticketingJumpPageURL" JNull ;;
  ticket_url <- (if truthy jump
                 then u <- py_index st "ticketingJumpPageURL" ;;
                      Ok (JStr (FANDANGO_BASE ++ fmt u))
                 else Ok JNull) ;;
  sold <- py_get st "isSoldOut" (JBool false) ;;
  Ok (JObj [("time", time); ("format", format);
            ("ticket_url", ticket_url); ("is_sold_out", sold)]).

Definition _simplify_variant (variant : json) : result json :=
  ags <- py_get variant "amenityGroups" (JArr []) ;;
  ags <- py_iter ags ;;
  showtimes <- mapM (fun ag =>
                       sts <- py_get ag "showtimes" (JArr []) ;;
                       sts <- py_iter sts ;;
                       mapM _simplify_showtime sts) ags ;;
  format <- py_get variant "filmFormatHeader" (JStr "Standard") ;;
  Ok (JObj [("format", format); ("showtimes", JArr (List.concat showtimes))]).

(** One turn of the inner loop of [_simplify_movie] (lines 157-160): the
    label appended to [all_times], and the showtime afterwards.  [label] is
    the object [st["time"]] itself, so when it is a list [label += ...]
    extends that list in place, in the showtime too; [+=] builds a new
    string for a string and fails for everything else. *)
Definition label_showtime (v st : json) : result (json * json) :=
  label <- py_index st "time" ;;
  format <- py_index v "format" ;;
  if truthy format && negb (eq_str format "Standard") then
    format <- py_index v "format" ;;
    let suffix := " (" ++ fmt format ++ ")" in
    match label, st with
    | JStr t, _ => Ok (JStr (t ++ suffix), st)
    | JArr l, JObj d =>
        let l' := JArr (l ++ map JStr (chars suffix))%list in
        Ok (l', JObj (dict_set "time" l' d))
    | _, _ => Raise TypeError
    end
  else Ok (label, st).

(** The inner loop for one variant: its labels, and the variant afterwards. *)
Definition label_variant (v : json) : result (list json * json) :=
  sts <- py_index v "showtimes" ;;
  sts <- py_iter sts ;;
  labelled <- mapM (label_showtime v) sts ;;
  match v with
  | JObj d =>
      Ok (map fst labelled,
          JObj (dict_set "showtimes" (JArr (map snd labelled)) d))
  | _ => Raise TypeError
  end.

Definition poster_size (movie : json) (size : string) : result json :=
  poster <- py_get movie "poster" (JObj []) ;;
  sizes <- py_get poster "size" (JObj []) ;;
  py_get sizes size JNull.

(** [f"{FANDANGO_BASE}{x[key]}" if x.get(key) else None] *)
Definition site_url (x : json) (key : string) : result json :=
  u <- py_get x key JNull ;;
  if truthy u
  then u <- py_index x key ;; Ok (JStr (FANDANGO_BASE ++ fmt u))
  else Ok JNull.

Definition _simplify_movie (movie : json) : result json :=
  vs <- py_get movie "variants" (JArr []) ;;
  vs <- py_iter vs ;;
  variants <- mapM _simplify_variant vs ;;
  labelled <- mapM label_variant variants ;;
  let all_times := List.concat (map fst labelled) in
  let variants := map snd labelled in
  id <- py_get movie "id" JNull ;;
  title <- py_get movie "title" (JStr "Unknown") ;;
  rating <- py_get movie "rating" JNull ;;
  runtime <- py_get movie "runtime" JNull ;;
  genres <- py_get movie "genres" (JArr []) ;;
  release_date <- py_get movie "releaseDate" JNull ;;
  p200 <- poster_size movie "200" ;;
  poster <- (if truthy p200 then Ok p200 else poster_size movie "full") ;;
  url <- site_url movie "mopURI" ;;
  Ok (JObj [("id", id); ("title", title); ("rating", rating);
            ("runtime_min", runtime); ("genres", genres);
            ("release_date", release_date); ("poster", poster);
            ("fandango_url", url); ("showtimes", JArr all_times);
            ("variants", JArr variants)]).

Definition _simplify_theater (theater : json) : result json :=
  ms <- py_get theater "movies" (JArr []) ;;
  ms <- py_iter ms ;;
  movies <- mapM _simplify_movie ms ;;
  id <- py_get theater "id" JNull ;;
  name <- py_get theater "name" (JStr "Unknown Theater") ;;
  address <- py_get theater "fullAddress" (JStr EmptyString) ;;
  city <- py_get theater "city" JNull ;;
  state <- py_get theater "state" JNull ;;
  zip <- py_get theater "zip" JNull ;;
  dist <- py_get theater "distance" JNull ;;
  distance_miles <- (if negb (is_none dist)
                     then d <- py_index theater "distance" ;; py_round2 d
                     else Ok JNull) ;;
  phone <- py_get theater "phone" JNull ;;
  chain <- py_get theater "chainName" JNull ;;
  amenities <- py_get theater "amenitiesString" (JStr EmptyString) ;;
  geo <- py_get theater "geo" (JObj []) ;;
  latitude <- py_get geo "latitude" JNull ;;
  geo <- py_get theater "geo" (JObj []) ;;
  longitude <- py_get geo "longitude" JNull ;;
  url <- site_url theater "theaterPageUrl" ;;
  map_url <- py_get theater "mapURI" JNull ;;
  display_date <- py_get theater "displayDate" JNull ;;
  date <- (if truthy display_date then Ok display_date
           else py_get theater "date" JNull) ;;
  Ok (JObj [("id", id); ("name", name); ("address", address);
            ("city", city); ("state", state); ("zip", zip);
            ("distance_miles", distance_miles); ("phone", phone);
            ("chain", chain); ("amenities", amenities);
            ("latitude", latitude); ("longitude", longitude);
            ("fandango_url", url); ("map_url", map_url); ("date", date);
            ("movie_count", py_len movies); ("movies", JArr movies)]).

(** *** Public API (lines 219-432) *)

(** [not data or not data.get("theaters")] *)
Definition no_theaters (data : json) : result bool :=
  if negb (truthy data) then Ok true
  else ts <- py_get data "theaters" JNull ;; Ok (negb (truthy ts)).

Definition http_error (code : Z) (reason : string) : json :=
  JStr ("HTTP " ++ str_of_int code ++ ": " ++ reason).

Definition request_error (message : string) : json :=
  JStr ("Request failed: " ++ message).

Definition get_showtimes (location : string) (date : option string) (page : Z)
  : result json :=
  dt <- _validate_date date ;;
  loc <- _parse_location location ;;
  let params :=
    dict_set "page" (JStr (str_of_int page)) (dict_set "date" (JStr dt) loc) in
  match _fetch_json FANDANGO_API params with
  | Raise (HTTPStatusError code reason) =>
      Ok (JObj [("error", http_error code reason)])
  | Raise (RequestError message) =>
      Ok (JObj [("error", request_error message)])
  | Raise e => Raise e
  | Ok data =>
      empty <- no_theaters data ;;
      if empty then
        Ok (JObj [("location", JStr location); ("date", JStr dt);
                  ("theater_count", JInt 0); ("theaters", JArr []);
                  ("message",
                   JStr "No theaters or showtimes found for this location and date.")])
      else
        ts <- py_index data "theaters" ;;
        ts <- py_iter ts ;;
        theaters <- mapM _simplify_theater ts ;;
        pagination <- py_get data "pagination" (JObj []) ;;
        total_pages <- py_get pagination "totalPages" (JInt 1) ;;
        Ok (JObj [("location", JStr location); ("date", JStr dt);
                  ("page", JInt page); ("total_pages", total_pages);
                  ("theater_count", py_len theaters);
                  ("theaters", JArr theaters)])
  end.

(** [x.lower()]: only a string has [lower]. *)
Definition py_lower (x : json) : result string :=
  match x with
  | JStr s => Ok (lower s)
  | _ => Raise AttributeError
  end.

(** [x[0]] *)
Definition py_first (x : json) : result json :=
  match x with
  | JArr (a :: _) => Ok a
  | JArr [] => Raise IndexError
  | JStr (String c _) => Ok (JStr (String c EmptyString))
  | JStr EmptyString => Raise IndexError
  | JObj _ => Raise KeyError
  | _ => Raise TypeError
  end.

(** The loop of lines 384-387: [Some] is its [return]. *)
Fixpoint match_theater (target_slug : string) (theaters : list json)
  : result (option json) :=
  match theaters with
  | [] => Ok None
  | theater :: rest =>
      u <- py_get theater "theaterPageUrl" JNull ;;
      t_slug <- py_lower (py_or u (JStr EmptyString)) ;;
      if negb (String.eqb target_slug EmptyString) && contains target_slug t_slug
      then r <- _simplify_theater theater ;; Ok (Some r)
      else match_theater target_slug rest
  end.

Definition target_slug_of (theater_url : string) : string :=
  match re_search slug_regex theater_url with
  | Some m => lower (group1 m)
  | None => EmptyString
  end.

(** The parameters of line 373. *)
Definition zip_params (zip_code dt : string) : dict :=
  [("zipCode", JStr zip_code); ("date", JStr dt); ("page", JStr "1")].

Definition _fetch_theater_via_api (zip_code dt theater_url : string)
  : result (option json) :=
  match _fetch_json FANDANGO_API (zip_params zip_code dt) with
  | Raise _ => Ok None
  | Ok data =>
      empty <- no_theaters data ;;
      if empty then Ok None
      else
        let target_slug := target_slug_of theater_url in
        ts <- py_index data "theaters" ;;
        ts <- py_iter ts ;;
        found <- match_theater target_slug ts ;;
        match found with
        | Some r => Ok (Some r)
        | None =>
            ts <- py_index data "theaters" ;;
            if truthy ts then
              ts <- py_index data "theaters" ;;
              first <- py_first ts ;;
              r <- _simplify_theater first ;;
              Ok (Some r)
            else Ok None
        end
  end.

(** Lines 339-344: the theater name, cleaned of the title's suffixes. *)
Definition clean_name (text : string) : string :=
  let name := strip (re_delete showtimes_suffix_regex text) in
  let name := strip (re_delete bar_suffix_regex name) in
  if String.eqb name EmptyString then text else name.

(** Lines 349-353: the first of the three patterns found in the page. *)
Definition find_zip (html : string) : option rmatch_result :=
  match re_search postal_code_regex html with
  | Some m => Some m
  | None =>
      match re_search zip_code_regex html with
      | Some m => Some m
      | None => re_search zip_key_regex html
      end
  end.

Definition dynamic_message : json :=
  JStr ("Showtimes are loaded dynamically. Use get_showtimes with "
        ++ "the theater's ZIP code to find showtimes.").

(** Lines 332-345: the record built from the page itself. *)
Definition theater_record (html url dt : string) : dict :=
  let result := [("url", JStr url); ("date", JStr dt)] in
  let title_el :=
    match select_one html "h1.subnav__title, .theaterDetailHeader__name" with
    | Some el => Some el
    | None => select_one html "title"
    end in
  match title_el with
  | Some el => dict_set "name" (JStr (clean_name (tag_text el))) result
  | None => result
  end.

Definition _parse_theater_page (html url dt : string) : result json :=
  let result := theater_record html url dt in
  let fallback := Ok (JObj (dict_set "message" dynamic_message result)) in
  match find_zip html with
  | Some m =>
      api_data <- _fetch_theater_via_api (group1 m) dt url ;;
      match api_data with
      | Some d => if truthy d then Ok d else fallback
      | None => fallback
      end
  | None => fallback
  end.

(** Lines 302-310: the theater identifier as a path. *)
Definition theater_path (theater_id : string) : string :=
  let slug := rstrip_chars "/" (strip theater_id) in
  let slug := if startswith "http" slug
              then last (split1 "fandango.com" slug) EmptyString
              else slug in
  let slug := if negb (startswith "/" slug) then "/" ++ slug else slug in
  if negb (endswith "/theater-page" slug) then slug ++ "/theater-page"
  else slug.

Definition theater_url_of (theater_id dt : string) : string :=
  FANDANGO_BASE ++ theater_path theater_id ++ "?date=" ++ dt.

Definition get_theater_showtimes (theater_id : string) (date : option string)
  : result json :=
  dt <- _validate_date date ;;
  let theater_url := theater_url_of theater_id dt in
  match _fetch_html theater_url with
  | Raise (HTTPStatusError code reason) =>
      Ok (JObj [("error", http_error code reason)])
  | Raise (RequestError message) =>
      Ok (JObj [("error", request_error message)])
  | Raise e => Raise e
  | Ok html => _parse_theater_page html theater_url dt
  end.

(** Lines 415-421: the movie identifier as a path. *)
Definition movie_path (movie_url : string) : string :=
  let slug := rstrip_chars "/" (strip movie_url) in
  let slug := if startswith "http" slug
              then last (split1 "fandango.com" slug) EmptyString
              else slug in
  let slug := if negb (startswith "/" slug) then "/" ++ slug else slug in
  if negb (contains "/movie-overview" slug) && negb (contains "/movie-times" slug)
  then slug ++ "/movie-overview"
  else slug.

(** *** The movie page (lines 435-545) *)

Definition text_json (el : tag) : json := JStr (tag_text el).

(** [if el: result[key] = el.get_text(strip=True)] *)
Definition set_text (html selector key : string) (res : dict) : dict :=
  match select_one html selector with
  | Some el => dict_set key (text_json el) res
  | None => res
  end.

(** [if els: result[key] = [e.get_text(strip=True) for e in els]] *)
Definition set_texts (html selector key : string) (res : dict) : dict :=
  match soup_select html selector with
  | [] => res
  | els => dict_set key (JArr (map text_json els)) res
  end.

(** Lines 440-502: the passes over the page's own elements. *)
Definition selector_pass (html url : string) : dict :=
  let res := [("url", JStr url)] in
  let res :=
    match select_one html
            ("h1.subnav__title, .movie-details__title, "
             ++ ".hero-text__title, .mop-detail-header__title, title") with
    | Some el => dict_set "title" (text_json el) res
    | None =>
        match select_one html "title" with
        | Some el => dict_set "title" (text_json el) res
        | None => dict_set "title" (JStr "Unknown") res
        end
    end in
  let res :=
    set_text html (".movie-details__rating, .mop-detail-header__badge, "
                   ++ ".hero-text__rating, .mop-ratings-row__badge")
             "rating" res in
  let res :=
    set_text html (".movie-details__runtime, .mop-detail-header__meta, "
                   ++ ".hero-text__runtime")
             "runtime" res in
  let res :=
    set_text html (".movie-details__synopsis, .mop-detail-header__synopsis, "
                   ++ "#movie-detail-synopsis, .js-mop-synopsis")
             "synopsis" res in
  let res :=
    set_texts html (".movie-details__cast a, .mop-detail-header__cast a, "
                    ++ ".movie-cast__actor-name")
              "cast" res in
  let res :=
    set_text html ".movie-details__director, .movie-cast__director"
             "director" res in
  let res :=
    set_texts html ".movie-details__genre a, .mop-detail-header__genre a"
              "genres" res in
  match select_one html (".movie-details__poster img, .hero-image img, "
                         ++ ".mop-detail-header__poster img") with
  | Some el =>
      dict_set "poster"
               (py_or (attr_get "src" (tag_attrs el))
                      (attr_get "data-src" (tag_attrs el)))
               res
  | None => res
  end.

(** [if ld.get(key): result[out] = ld[key]] *)
Definition override (ld : dict) (key out : string) (res : dict) : dict :=
  if truthy (get_or ld key JNull)
  then dict_set out (get_or ld key JNull) res
  else res.

(** [sep.join(items)]: every item has to be a string. *)
Fixpoint strings_of (items : list json) : result (list string) :=
  match items with
  | [] => Ok []
  | JStr s :: rest => ss <- strings_of rest ;; Ok (s :: ss)
  | _ :: _ => Raise TypeError
  end.

(** [x.get("name", "") for x in items if isinstance(x, dict)] *)
Fixpoint names_of (items : list json) : list json :=
  match items with
  | [] => []
  | JObj d :: rest => get_or d "name" (JStr EmptyString) :: names_of rest
  | _ :: rest => names_of rest
  end.

(** Lines 527-534 *)
Definition override_director (ld res : dict) : result dict :=
  let directors := get_or ld "director" JNull in
  if truthy directors then
    match directors with
    | JArr l =>
        names <- strings_of (names_of l) ;;
        Ok (dict_set "director" (JStr (join ", " names)) res)
    | JObj d => Ok (dict_set "director" (get_or d "name" JNull) res)
    | _ => Ok res
    end
  else Ok res.

(** Lines 535-540 *)
Definition override_cast (ld res : dict) : result dict :=
  let actor := get_or ld "actor" JNull in
  if truthy actor then
    actors <- py_iter actor ;;
    Ok (dict_set "cast" (JArr (names_of actors)) res)
  else Ok res.

(** Lines 511-540, the body run for a block typed as a Movie.  The dict
    [res] is updated in place, so an exception leaves the updates made
    before it: the state comes back with the outcome. *)
Definition apply_movie (ld res : dict) : dict * result unit :=
  let res :=
    dict_set "title" (get_or ld "name" (get_or res "title" JNull)) res in
  let res := override ld "description" "synopsis" res in
  let res := override ld "duration" "runtime" res in
  let res := override ld "contentRating" "rating" res in
  let res :=
    let genre := get_or ld "genre" JNull in
    if truthy genre
    then dict_set "genres" (if is_list genre then genre else JArr [genre]) res
    else res in
  let res := override ld "image" "poster" res in
  let res := override ld "datePublished" "release_date" res in
  match override_director ld res with
  | Raise e => (res, Raise e)
  | Ok res =>
      match override_cast ld res with
      | Raise e => (res, Raise e)
      | Ok res => (res, Ok tt)
      end
  end.

(** [json.loads(script.string)] *)
Definition load_script (script : tag) : result json :=
  match tag_string script with
  | Some s => json_loads s
  | None => Raise TypeError
  end.

(** The [try] of lines 507-543 for one script: the state afterwards, and
    whether the loop stops ([break]) or goes on to the next script (the
    condition of line 510 failed, or [except Exception: continue]). *)
Definition ld_step (script : tag) (res : dict) : dict * bool :=
  match load_script script with
  | Raise _ => (res, false)
  | Ok (JObj ld) =>
      if eq_str (get_or ld "@type" JNull) "Movie" then
        match apply_movie ld res with
        | (res, Ok _) => (res, true)
        | (res, Raise _) => (res, false)
        end
      else (res, false)
  | Ok _ => (res, false)
  end.

Fixpoint ld_loop (scripts : list tag) (res : dict) : dict :=
  match scripts with
  | [] => res
  | script :: rest =>
      let (res, stop) := ld_step script res in
      if stop then res else ld_loop rest res
  end.

Definition ld_selector : string :=
  "script[type=" ++ String dquote "application/ld+json" ++ String dquote "]".

Definition _parse_movie_page (html url : string) : json :=
  JObj (ld_loop (soup_select html ld_selector) (selector_pass html url)).

Definition get_movie_details (movie_url : string) : result json :=
  let url := FANDANGO_BASE ++ movie_path movie_url in
  match _fetch_html url with
  | Raise (HTTPStatusError code reason) =>
      Ok (JObj [("error", http_error code reason); ("url", JStr url)])
  | Raise (RequestError message) =>
      Ok (JObj [("error", request_error message); ("url", JStr url)])
  | Raise e => Raise e
  | Ok html => Ok (_parse_movie_page html url)
  end.

(** *** The claims' own words, as definitions

    What the specification says of a ZIP code, of an ISO date, of the time
    part of a showtime and of a label, written without the scraper's code,
    to state the theorems against. *)

Fixpoint all_digits (s : string) : bool :=
  match s with
  | EmptyString => true
  | String c s' => isdigit c && all_digits s'
  end.

(** Five digits, then nothing, or a hyphen and four digits. *)
Definition zip_form (s : string) : bool :=
  (5 <=? String.length s)%nat && all_digits (take 5 s) &&
  let rest := drop 5 s in
  (String.eqb rest EmptyString
   || (prefix "-" rest && (String.length rest =? 5)%nat && all_digits (drop 1 rest))).

Fixpoint last_char (s : string) : option ascii :=
  match s with
  | EmptyString => None
  | String c EmptyString => Some c
  | String _ s' => last_char s'
  end.

Definition first_char (s : string) : option ascii :=
  match s with
  | EmptyString => None
  | String c _ => Some c
  end.

(** No white space at either end. *)
Definition trimmed (s : string) : Prop :=
  (forall c, first_char s = Some c -> isspace c = false) /\
  (forall c, last_char s = Some c -> isspace c = false).

Fixpoint all_chars (p : ascii -> bool) (s : string) : bool :=
  match s with
  | EmptyString => true
  | String c s' => p c && all_chars p s'
  end.

(** [strptime] accepts the string. *)
Definition accepts (s : string) : bool :=
  match strptime_ymd s with
  | Ok _ => true
  | Raise _ => false
  end.

(** The strict reading of YYYY-MM-DD: four digits, a hyphen, two digits, a
    hyphen, two digits, and nothing else, naming a day of the calendar. *)
Definition strict_iso (s : string) : bool :=
  match s with
  | String y1 (String y2 (String y3 (String y4 (String h1
    (String m1 (String m2 (String h2 (String d1 (String d2 EmptyString))))))))) =>
      isdigit y1 && isdigit y2 && isdigit y3 && isdigit y4
      && Ascii.eqb h1 "-" && isdigit m1 && isdigit m2
      && Ascii.eqb h2 "-" && isdigit d1 && isdigit d2
      && valid_date
           (int_of_digits 0 (String y1 (String y2 (String y3 (String y4 EmptyString)))))
           (int_of_digits 0 (String m1 (String m2 EmptyString)))
           (int_of_digits 0 (String d1 (String d2 EmptyString)))
  | _ => false
  end.

(** The time part of a raw showtime as the claim words it: the nested
    ticketingDate.localTime when present, else dateTime, else empty. *)
Definition claimed_time (st : dict) : json :=
  match dict_get "ticketingDate" st with
  | Some (JObj td) =>
      match dict_get "localTime" td with
      | Some t => t
      | None => get_or st "dateTime" (JStr EmptyString)
      end
  | _ => get_or st "dateTime" (JStr EmptyString)
  end.

(** The time part as the code takes it: when ticketingDate is an object,
    its localTime or the empty string; dateTime is read only otherwise. *)
Definition time_part (st : dict) : json :=
  match dict_get "ticketingDate" st with
  | Some (JObj td) => get_or td "localTime" (JStr EmptyString)
  | _ => get_or st "dateTime" (JStr EmptyString)
  end.

Definition items (x : json) : list json :=
  match x with
  | JArr l => l
  | _ => []
  end.

Definition fields (x : json) : dict :=
  match x with
  | JObj d => d
  | _ => []
  end.

Definition str_of (x : json) : string :=
  match x with
  | JStr s => s
  | _ => EmptyString
  end.

Definition is_str (x : json) : bool :=
  match x with
  | JStr _ => true
  | _ => false
  end.

(** The raw showtimes of a variant: those of every amenity group, in
    encounter order; the variant's format label; the raw variants. *)
Definition raw_showtimes (variant : json) : list json :=
  flat_map (fun ag => items (get_or (fields ag) "showtimes" (JArr [])))
           (items (get_or (fields variant) "amenityGroups" (JArr []))).

Definition variant_format (variant : json) : json :=
  get_or (fields variant) "filmFormatHeader" (JStr "Standard").

Definition raw_variants (movie : json) : list json :=
  items (get_or (fields movie) "variants" (JArr [])).

(** The label: the time alone, or the time and the format in brackets
    when the format is non-empty and not Standard. *)
Definition label_of (format : json) (time : string) : string :=
  if truthy format && negb (eq_str format "Standard")
  then time ++ " (" ++ fmt format ++ ")"
  else time.

Definition labels_with (time : dict -> json) (movie : json) : list json :=
  flat_map (fun v =>
              map (fun st => JStr (label_of (variant_format v)
                                            (str_of (time (fields st)))))
                  (raw_showtimes v))
           (raw_variants movie).

(** Every time part of the movie is a string. *)
Definition string_times (movie : json) : bool :=
  forallb (fun v => forallb (fun st => is_str (time_part (fields st)))
                            (raw_showtimes v))
          (raw_variants movie).

(** The simplified showtime of a raw showtime object. *)
Definition simplified_showtime (st : dict) : json :=
  JObj [("time", time_part st);
        ("format", get_or st "formatStr" (JStr EmptyString));
        ("ticket_url",
         if truthy (get_or st "ticketingJumpPageURL" JNull)
         then JStr (FANDANGO_BASE ++ fmt (get_or st "ticketingJumpPageURL" JNull))
         else JNull);
        ("is_sold_out", get_or st "isSoldOut" (JBool false))].

(** The simplified variant of a raw variant. *)
Definition simplified_variant (v : json) : json :=
  JObj [("format", variant_format v);
        ("showtimes",
         JArr (map (fun st => simplified_showtime (fields st))
                   (raw_showtimes v)))].

(** The date a request goes out with, and the parameters of the location
    query (line 242), as the theorems on [_validate_date] and
    [_parse_location] give them. *)
Definition request_date (date : option string) : string :=
  match date with
  | None => today
  | Some s => if accepts s then s else today
  end.

Definition location_params (location : string) : dict :=
  if zip_form (strip location)
  then [("zipCode", JStr (strip location))]
  else match cut "," (strip location) with
       | Some (city, state) =>
           [("city", JStr (strip city)); ("state", JStr (strip state))]
       | None =>
           [("city", JStr (strip location)); ("state", JStr EmptyString)]
       end.

Definition showtimes_params (location : string) (date : option string) (page : Z)
  : dict :=
  dict_set "page" (JStr (str_of_int page))
           (dict_set "date" (JStr (request_date date)) (location_params location)).

Definition no_results (location dt : string) : json :=
  JObj [("location", JStr location); ("date", JStr dt);
        ("theater_count", JInt 0); ("theaters", JArr []);
        ("message",
         JStr "No theaters or showtimes found for this location and date.")].

(** The detail URL of a listed theater as the loop reads it (line 385), a
    well-formed entry of the list, the test of line 386, and the theater
    the lookup settles on: the first that passes the test, or else the
    first of the list. *)
Definition page_url (theater : json) : json :=
  py_or (get_or (fields theater) "theaterPageUrl" JNull) (JStr EmptyString).

Definition listed_theater (theater : json) : bool :=
  is_dict theater && is_str (page_url theater).

Definition slug_matches (target : string) (theater : json) : bool :=
  negb (String.eqb target EmptyString)
  && contains target (lower (str_of (page_url theater))).

Definition selected (target : string) (theaters : list json) : json :=
  match find (slug_matches target) theaters with
  | Some theater => theater
  | None => hd JNull theaters
  end.

(** The claim's wording of the test: the slug of the listed theater's
    detail URL (what stands before /theater-page, in lower case) contains
    the requested slug; and the theater that wording settles on. *)
Definition detail_slug (theater : json) : string :=
  target_slug_of (str_of (page_url theater)).

Definition slug_claimed (target : string) (theater : json) : bool :=
  negb (String.eqb target EmptyString) && contains target (detail_slug theater).

Definition claimed_selected (target : string) (theaters : list json) : json :=
  match find (slug_claimed target) theaters with
  | Some theater => theater
  | None => hd JNull theaters
  end.

(** A script the loop passes over without touching the result: loading it
    fails, or what loads is not an object typed Movie. *)
Definition passed_over (script : tag) : bool :=
  match load_script script with
  | Raise _ => true
  | Ok (JObj ld) => negb (eq_str (get_or ld "@type" JNull) "Movie")
  | Ok _ => true
  end.

(** The people of a block are usable: the names of a list of directors are
    strings, and the actors can be iterated over. *)
Definition director_ok (ld : dict) : bool :=
  match get_or ld "director" JNull with
  | JArr l => forallb is_str (names_of l)
  | _ => true
  end.

Definition actor_ok (ld : dict) : bool :=
  match get_or ld "actor" JNull with
  | JInt n => (n =? 0)%Z
  | JFloat f => is_zero f
  | JBool b => negb b
  | _ => true
  end.

(** The fields a block overrides when it has a non-empty value for them:
    the key of the block, the key of the result. *)
Definition overridden : list (string * string) :=
  [("description", "synopsis"); ("duration", "runtime");
   ("contentRating", "rating"); ("image", "poster");
   ("datePublished", "release_date")].

(** Names joined with a comma and a space, as the claim words it: each
    name after the first is put after what stands so far, a comma and a
    space. *)
Definition comma_joined (names : list string) : string :=
  match names with
  | [] => EmptyString
  | n :: rest => fold_left (fun so_far x => so_far ++ ", " ++ x) rest n
  end.

(** The addresses of the site a full URL can start with, and a path with
    one slash at its head and no more. *)
Definition site_hosts : list string :=
  ["https://www.fandango.com"; "http://www.fandango.com";
   "https://fandango.com"; "http://fandango.com"].

Definition single_leading_slash (path : string) : bool :=
  startswith "/" path && negb (startswith "//" path).

(** *** Concrete inputs

    Fixed sites, pages and payloads for the runs at the end of the file. *)

Definition demo_today : string := "2026-11-05".
Definition demo_float_repr (f : spec_float) : string := "<float>".
Definition demo_str_repr (s : string) : string := "'" ++ s ++ "'".
Definition no_select (html selector : string) : list tag := [].

(** A movie with a Standard showing that has a ticketing date and an IMAX
    showing that has only a flat date-time. *)
Definition demo_movie : json :=
  JObj [("title", JStr "Dune");
        ("variants",
         JArr [JObj [("filmFormatHeader", JStr "Standard");
                     ("amenityGroups",
                      JArr [JObj [("showtimes",
                                   JArr [JObj [("ticketingDate",
                                                JObj [("localTime", JStr "7:00p")])]])]])];
               JObj [("filmFormatHeader", JStr "IMAX");
                     ("amenityGroups",
                      JArr [JObj [("showtimes",
                                   JArr [JObj [("dateTime", JStr "9:30p")]])]])]])].

(** A showtime whose ticketing date is an object without a local time, and
    which has a flat date-time: the claim's wording takes the date-time, the
    code the empty string. *)
Definition stale_movie : json :=
  JObj [("variants",
         JArr [JObj [("amenityGroups",
                      JArr [JObj [("showtimes",
                                   JArr [JObj [("ticketingDate", JObj []);
                                               ("dateTime", JStr "19:00")]])]])]])].

(** A site that answers every location query with an empty list. *)
Definition empty_site (url : string) (params : dict) : result json :=
  Ok (JObj [("theaters", JArr [])]).

(** A theater page that carries its postal code, on a site whose location
    query fails with status 500: the failure of the second fetch does not
    show in the result. *)
Definition zip_page : string :=
  "{" ++ String dquote "postalCode" ++ String dquote ":"
      ++ String dquote "10001" ++ String dquote "}".

Definition page_site (url : string) : result string := Ok zip_page.

Definition failing_api (url : string) (params : dict) : result json :=
  Raise (HTTPStatusError 500 "Internal Server Error").

(** The movie page of the specification's example: the selectors find the
    title Y, a first block does not load, and the second is a Movie named X
    with two genres; it has two directors and a cast as well. *)
Definition movie_block : dict :=
  [("@type", JStr "Movie"); ("name", JStr "X");
   ("genre", JArr [JStr "Action"; JStr "Drama"]);
   ("director", JArr [JObj [("name", JStr "Lana")]; JObj [("name", JStr "Lilly")]]);
   ("actor", JArr [JObj [("name", JStr "Keanu")]; JStr "extra";
                   JObj [("name", JStr "Carrie-Anne")]])].

Definition broken_script : tag := MkTag EmptyString [] (Some "{broken").
Definition movie_script : tag := MkTag EmptyString [] (Some "movie block").

Definition movie_select (html selector : string) : list tag :=
  if String.eqb selector ld_selector then [broken_script; movie_script]
  else if String.eqb selector
                     ("h1.subnav__title, .movie-details__title, "
                      ++ ".hero-text__title, .mop-detail-header__title, title")
       then [MkTag "Y" [] None]
       else [].

Definition movie_loads (s : string) : result json :=
  if String.eqb s "movie block" then Ok (JObj movie_block) else Raise ValueError.

(** A page whose selectors find the cast B, and whose only block is a
    Movie with the actor A and a director without a name: the join of the
    directors raises, and the block's cast is never written. *)
Definition null_director_block : dict :=
  [("@type", JStr "Movie"); ("name", JStr "X");
   ("director", JArr [JObj [("name", JNull)]]);
   ("actor", JArr [JObj [("name", JStr "A")]])].

Definition null_director_script : tag := MkTag EmptyString [] (Some "null director").

Definition cast_select (html selector : string) : list tag :=
  if String.eqb selector ld_selector then [null_director_script]
  else if String.eqb selector
                     (".movie-details__cast a, .mop-detail-header__cast a, "
                      ++ ".movie-cast__actor-name")
       then [MkTag "B" [] None]
       else [].

Definition null_director_loads (s : string) : result json :=
  Ok (JObj null_director_block).

(** A site that lists two theaters for the postal code of the page; the
    second is the one asked for, its URL in another case. *)
Definition other_theater : json :=
  JObj [("name", JStr "Regal Union Square");
        ("theaterPageUrl", JStr "/regal-union-square-aaxyz/theater-page")].

Definition asked_theater : json :=
  JObj [("name", JStr "AMC Empire 25");
        ("theaterPageUrl", JStr "/AMC-Empire-25-aabcd/theater-page");
        ("distance", JFloat (float_of_decimal 314159 5))].

Definition listing_api (url : string) (params : dict) : result json :=
  Ok (JObj [("theaters", JArr [other_theater; asked_theater])]).

(** A site that lists the theater AMC Empire 25 before a theater whose
    slug holds the word page. *)
Definition page_cinema : json :=
  JObj [("name", JStr "Page Cinema");
        ("theaterPageUrl", JStr "/page-cinema-aaxyz/theater-page")].

Definition page_listing_api (url : string) (params : dict) : result json :=
  Ok (JObj [("theaters", JArr [asked_theater; page_cinema])]).

(** A movie with a single showing: one variant of the given format, one
    amenity group, one showtime. *)
Definition one_showing (format : json) (st : dict) : json :=
  JObj [("variants",
         JArr [JObj [("filmFormatHeader", format);
                     ("amenityGroups",
                      JArr [JObj [("showtimes", JArr [JObj st])]])]])].

(** The format gets a bracketed suffix. *)
Definition has_suffix (format : json) : bool :=
  truthy format && negb (eq_str format "Standard").

(** [movie.get("poster", {}).get("size", {}).get(size)] for a movie whose
    poster and size, when present, are objects. *)
Definition poster_of (movie : dict) (size : string) : json :=
  get_or (fields (get_or (fields (get_or movie "poster" (JObj [])))
                         "size" (JObj [])))
         size JNull.

(** *** Well-formed payloads

    What the simplifiers need in order to return: the containers they walk
    are lists of objects, the poster and geo entries are objects, the time
    parts are strings and the distance is a number or null. *)
Definition absent_or (p : json -> bool) (d : dict) (k : string) : bool :=
  match dict_get k d with
  | None => true
  | Some v => p v
  end.

Definition list_of (p : json -> bool) (x : json) : bool :=
  match x with
  | JArr l => forallb p l
  | _ => false
  end.

Definition wf_group (ag : json) : bool :=
  match ag with
  | JObj d => absent_or (list_of is_dict) d "showtimes"
  | _ => false
  end.

Definition wf_variant (v : json) : bool :=
  match v with
  | JObj d =>
      absent_or (list_of wf_group) d "amenityGroups"
      && forallb (fun st => is_str (time_part (fields st))) (raw_showtimes v)
  | _ => false
  end.

Definition wf_poster (p : json) : bool :=
  match p with
  | JObj d => absent_or is_dict d "size"
  | _ => false
  end.

Definition wf_movie (m : json) : bool :=
  match m with
  | JObj d => absent_or (list_of wf_variant) d "variants"
              && absent_or wf_poster d "poster"
  | _ => false
  end.

Definition number_or_null (x : json) : bool :=
  match x with
  | JNull | JBool _ | JInt _ | JFloat _ => true
  | _ => false
  end.

Definition wf_theater (t : json) : bool :=
  match t with
  | JObj d => absent_or (list_of wf_movie) d "movies"
              && absent_or is_dict d "geo"
              && absent_or number_or_null d "distance"
  | _ => false
  end.

(** One or two decimal digits, and the number a string of digits writes. *)
Definition short_number (s : string) : bool :=
  all_digits s && ((String.length s =? 1) || (String.length s =? 2))%nat.

Definition decimal (s : string) : Z := int_of_digits 0 s.

(** *** What a pattern denotes

    [denotes r t caps caps']: the text [t] is matched by [r], which takes
    the groups closed so far from [caps] to [caps']. *)
Fixpoint denotes (r : regex) (t : string) (caps caps' : list string) : Prop :=
  match r with
  | REps | RBol | REol => t = EmptyString /\ caps' = caps
  | RChar p => exists c, t = String c EmptyString /\ p c = true /\ caps' = caps
  | RSeq r1 r2 =>
      exists t1 t2 mid,
        t = t1 ++ t2 /\ denotes r1 t1 caps mid /\ denotes r2 t2 mid caps'
  | RAlt r1 r2 => denotes r1 t caps caps' \/ denotes r2 t caps caps'
  | RStar p => all_chars p t = true /\ caps' = caps
  | RGroup r1 => exists mid, denotes r1 t caps mid /\ caps' = (mid ++ [t])%list
  end.

Fixpoint group_free (r : regex) : bool :=
  match r with
  | RGroup _ => false
  | RSeq r1 r2 | RAlt r1 r2 => group_free r1 && group_free r2
  | _ => true
  end.

(** A lower-case letter, a digit or a hyphen. *)
Definition lower_slug_char (c : ascii) : bool :=
  in_range 97 122 c || in_range 48 57 c || Ascii.eqb c "-".

(** The keys a Movie block can write to. *)
Definition block_keys : list string :=
  ["title"; "synopsis"; "runtime"; "rating"; "genres"; "poster";
   "release_date"; "director"; "cast"].

Definition block_key (k : string) : bool :=
  existsb (String.eqb k) block_keys.

(** Patterns that match the empty text only, and patterns every match of
    which ends where [$] holds. *)
Fixpoint empty_only (r : regex) : bool :=
  match r with
  | REps | RBol | REol => true
  | RSeq r1 r2 => empty_only r1 && empty_only r2
  | RGroup r1 => empty_only r1
  | _ => false
  end.

Fixpoint anchored (r : regex) : bool :=
  match r with
  | REol => true
  | RSeq r1 r2 => anchored r2 || (anchored r1 && empty_only r2)
  | RAlt r1 r2 => anchored r1 && anchored r2
  | RGroup r1 => anchored r1
  | _ => false
  end.

(** More fixed inputs: a site under maintenance, whose answer is a JSON
    string; a site whose answer does not decode; a page title; a page whose
    only structured-data block does not load; and a Movie block whose
    actors are a number. *)
Definition text_site (url : string) (params : dict) : result json :=
  Ok (JStr "maintenance").

Definition undecodable_site (url : string) (params : dict) : result json :=
  Raise ValueError.

Definition demo_title : string :=
  "AMC Empire 25 Movie Showtimes & Tickets | New York | Fandango".

Definition broken_select (html selector : string) : list tag :=
  if String.eqb selector ld_selector then [broken_script] else [].

Definition partial_block : dict :=
  [("@type", JStr "Movie"); ("name", JStr "X");
   ("description", JStr "A long way home."); ("actor", JInt 3)].

Definition partial_loads (s : string) : result json := Ok (JObj partial_block).

(** *** Rounding to two decimals, in the claim's words

    The finite float with mantissa [m] and exponent [e] has the exact value
    [m * 2^e]; [hundredfold] is a hundred times that, as a fraction.
    [nearest_even num den h]: the integer [h] is nearest to [num / den], and
    is the even one where two integers are equally near.  A distance [d]
    rounded to two decimals is [v]: a float is the double nearest to
    [h / 100] for the integer [h] nearest to a hundred times its value, an
    integer is itself, and null stays null. *)
Definition hundredfold (m : positive) (e : Z) : Z * Z :=
  (Zpos m * 100 * 2 ^ Z.max 0 e, 2 ^ Z.max 0 (- e))%Z.

Definition nearest_even (num den h : Z) : Prop :=
  (2 * Z.abs (num - h * den) <= den)%Z
  /\ ((2 * Z.abs (num - h * den) = den)%Z -> Z.even h = true).

Definition rounded_distance (d v : json) : Prop :=
  match d with
  | JNull => v = JNull
  | JInt n => v = JInt n
  | JBool b => v = JInt (if b then 1 else 0)
  | JFloat (S754_finite s m e) =>
      exists h,
        nearest_even (fst (hundredfold m e)) (snd (hundredfold m e)) h
        /\ v = JFloat (double_of_hundredths s h)
  | JFloat f => v = JFloat f
  | _ => False
  end.

(** ** Facts about the string and regex models *)

Lemma bind_ok {A B : Type} (c : result A) (k : A -> result B) (b : B) :
  bind c k = Ok b -> exists a, c = Ok a /\ k a = Ok b.
Proof.
  destruct c as [a|e]; simpl; [|discriminate].
  intros H. exists a. split; [reflexivity | exact H].
Qed.

Lemma rstrip_by_last (p : ascii -> bool) (s : string) (c : ascii) :
  last_char (rstrip_by p s) = Some c -> p c = false.
Proof.
  induction s as [|a s IH]; simpl; [discriminate|].
  destruct (rstrip_by p s) as [|b r] eqn:E.
  - destruct (p a) eqn:Pa; simpl; [discriminate|]. intros [= <-]. exact Pa.
  - intros H. apply IH. exact H.
Qed.

Lemma lstrip_by_first (p : ascii -> bool) (s : string) (c : ascii) :
  first_char (lstrip_by p s) = Some c -> p c = false.
Proof.
  induction s as [|a s IH]; simpl; [discriminate|].
  destruct (p a) eqn:Pa; [exact IH|].
  simpl. intros [= <-]. exact Pa.
Qed.

Lemma rstrip_by_first (p : ascii -> bool) (s : string) (c : ascii) :
  first_char (rstrip_by p s) = Some c -> first_char s = Some c.
Proof.
  destruct s as [|a s]; simpl; [discriminate|].
  destruct (rstrip_by p s); [destruct (p a)|]; simpl; congruence.
Qed.

Lemma strip_trimmed (s : string) : trimmed (strip s).
Proof.
  split; intros c H.
  - apply rstrip_by_first in H. apply lstrip_by_first in H. exact H.
  - apply rstrip_by_last in H. exact H.
Qed.

(** What [strip] removes is white space: the input is the result between
    two runs of white space. *)
Lemma lstrip_by_split (p : ascii -> bool) (s : string) :
  exists l, s = l ++ lstrip_by p s /\ all_chars p l = true.
Proof.
  induction s as [|a s [l [E H]]]; simpl.
  - exists EmptyString. split; reflexivity.
  - destruct (p a) eqn:Pa.
    + exists (String a l). simpl. rewrite Pa, H. split; [congruence | reflexivity].
    + exists EmptyString. split; reflexivity.
Qed.

Lemma rstrip_by_split (p : ascii -> bool) (s : string) :
  exists r, s = rstrip_by p s ++ r /\ all_chars p r = true.
Proof.
  induction s as [|a s [r [E H]]]; simpl.
  - exists EmptyString. split; reflexivity.
  - destruct (rstrip_by p s) as [|b t] eqn:Et.
    + destruct (p a) eqn:Pa.
      * exists (String a r). simpl in *. rewrite Pa, H. split; [congruence | reflexivity].
      * exists r. simpl in *. split; [congruence | exact H].
    + exists r. simpl in *. split; [congruence | exact H].
Qed.

Lemma strip_split (s : string) :
  exists l r, s = l ++ strip s ++ r
              /\ all_chars isspace l = true /\ all_chars isspace r = true.
Proof.
  destruct (lstrip_by_split isspace s) as [l [El Hl]].
  destruct (rstrip_by_split isspace (lstrip_by isspace s)) as [r [Er Hr]].
  exists l, r. unfold strip. rewrite <- Er. auto.
Qed.

Lemma last_char_drop (n : nat) : forall s c,
  last_char (drop n s) = Some c -> last_char s = Some c.
Proof.
  induction n as [|n IH]; intros s c; simpl; [trivial|].
  destruct s as [|a s]; simpl; [trivial|].
  intros H. apply IH in H. destruct s; [discriminate | exact H].
Qed.

(** On a stripped string (and on what is left of one) [$] means the end. *)
Lemma at_eol_strip (n : nat) (x : string) :
  at_eol (drop n (strip x)) = String.eqb (drop n (strip x)) EmptyString.
Proof.
  destruct (drop n (strip x)) as [|c t] eqn:E; [reflexivity|].
  destruct t as [|d t]; simpl; [|reflexivity].
  destruct (Ascii.eqb c newline) eqn:Ec; [|reflexivity].
  apply Ascii.eqb_eq in Ec. subst c.
  assert (H : last_char (drop n (strip x)) = Some newline) by (rewrite E; reflexivity).
  apply last_char_drop in H. apply rstrip_by_last in H. discriminate H.
Qed.

Lemma rmatch_rep_digit {A : Type} (n0 n : nat) :
  forall s caps (k : string -> string -> list string -> option A),
    rmatch n0 (rep n digit) s caps k =
    if (n <=? String.length s)%nat && all_digits (take n s)
    then k (take n s) (drop n s) caps else None.
Proof.
  induction n as [|n IH]; intros s caps k; simpl.
  - reflexivity.
  - destruct s as [|c s]; simpl; [reflexivity|].
    destruct (isdigit c); simpl; [apply IH|].
    rewrite andb_false_r. reflexivity.
Qed.

Lemma drop_drop (n m : nat) : forall s, drop n (drop m s) = drop (m + n) s.
Proof.
  induction m as [|m IH]; intros s; simpl; [reflexivity|].
  destruct s as [|c s]; [destruct n; reflexivity | apply IH].
Qed.

Lemma all_digits_take_length (n : nat) : forall s,
  (String.length s =? n)%nat = true -> take n s = s.
Proof.
  induction n as [|n IH]; intros [|c s]; simpl; try discriminate; try reflexivity.
  intros H. f_equal. apply IH. exact H.
Qed.

Lemma prefix_empty (t : string) : prefix EmptyString t = true.
Proof. destruct t; reflexivity. Qed.

Lemma drop_length_nil (n : nat) : forall t,
  drop n t = EmptyString -> (n <=? String.length t)%nat = true ->
  (String.length t =? n)%nat = true.
Proof.
  induction n as [|n IH]; intros [|c t]; simpl; try discriminate; try reflexivity.
  apply IH.
Qed.

Lemma length_drop_nil (n : nat) : forall t,
  (String.length t =? n)%nat = true -> drop n t = EmptyString.
Proof.
  induction n as [|n IH]; intros [|c t]; simpl; try discriminate; try reflexivity.
  apply IH.
Qed.

(** The ZIP pattern, on a stripped string, is the claim's ZIP form. *)
Lemma zip_regex_strip (x : string) :
  match re_match zip_regex (strip x) with Some _ => true | None => false end
  = zip_form (strip x).
Proof.
  unfold re_match, match_at, zip_regex, zip_form. cbn [seq fold_right rmatch].
  rewrite Nat.eqb_refl, rmatch_rep_digit.
  destruct ((5 <=? String.length (strip x))%nat && all_digits (take 5 (strip x)));
    [|reflexivity].
  cbn [andb]. unfold opt, chr. cbn [rmatch].
  pose proof (at_eol_strip 5 x) as H0.
  pose proof (at_eol_strip 10 x) as H1.
  rewrite <- (drop_drop 5 5) in H1.
  destruct (drop 5 (strip x)) as [|c t] eqn:Er; [reflexivity|].
  rewrite H0. cbn [String.eqb orb prefix].
  destruct (Ascii.ascii_dec "-" c) as [<-|N].
  - rewrite Ascii.eqb_refl, rmatch_rep_digit, prefix_empty. cbn [rmatch].
    change (drop 5 (String "-" t)) with (drop 4 t) in H1. rewrite H1.
    change (drop 1 (String "-" t)) with t.
    change (String.length (String "-" t) =? 5)%nat with (String.length t =? 4)%nat.
    cbn [andb].
    destruct (String.length t =? 4)%nat eqn:E4.
    + rewrite (all_digits_take_length 4 t E4), (length_drop_nil 4 t E4).
      apply Nat.eqb_eq in E4. rewrite E4. cbn [Nat.leb andb String.eqb].
      destruct (all_digits t); reflexivity.
    + cbn [andb].
      destruct (4 <=? String.length t)%nat eqn:E; [|reflexivity].
      destruct (drop 4 t) as [|d u] eqn:Ed.
      * rewrite (drop_length_nil 4 t Ed E) in E4. discriminate E4.
      * cbn [andb String.eqb]. destruct (all_digits (take 4 t)); reflexivity.
  - destruct (Ascii.eqb "-" c) eqn:Ec; [|reflexivity].
    apply Ascii.eqb_eq in Ec. contradiction.
Qed.

Lemma contains_cut (sep s : string) :
  contains sep s = match cut sep s with Some _ => true | None => false end.
Proof.
  induction s as [|c s IH]; cbn [contains cut].
  - destruct (prefix sep EmptyString); reflexivity.
  - destruct (prefix sep (String c s)); [reflexivity|]. cbn [orb].
    rewrite IH. destruct (cut sep s) as [[a b]|]; reflexivity.
Qed.

Lemma prefix_drop (p : string) : forall s,
  prefix p s = true -> s = p ++ drop (String.length p) s.
Proof.
  induction p as [|a p IH]; intros s H; simpl.
  - reflexivity.
  - destruct s as [|b s]; simpl in H; [discriminate|].
    destruct (Ascii.ascii_dec a b) as [->|]; [|discriminate].
    f_equal. apply IH. exact H.
Qed.

(** [cut] splits at an occurrence of the separator... *)
Lemma cut_some (sep : string) : forall s a b,
  cut sep s = Some (a, b) -> s = a ++ sep ++ b.
Proof.
  induction s as [|c s IH]; intros a b; cbn [cut].
  - destruct (prefix sep EmptyString) eqn:P; [|discriminate].
    intros [= <- <-]. apply prefix_drop. exact P.
  - destruct (prefix sep (String c s)) eqn:P.
    + intros [= <- <-]. apply prefix_drop. exact P.
    + destruct (cut sep s) as [[a' b']|] eqn:E; [|discriminate].
      intros [= <- <-]. simpl. f_equal. apply IH. reflexivity.
Qed.

(** ...and at the first one: for a one-character separator, the part
    before it does not have the character. *)
Lemma cut_char_first (c : ascii) : forall s a b,
  cut (String c EmptyString) s = Some (a, b) -> mem_char c a = false.
Proof.
  induction s as [|d s IH]; intros a b; simpl.
  - discriminate.
  - destruct (Ascii.ascii_dec c d) as [->|N].
    + rewrite prefix_empty. intros [= <- <-]. reflexivity.
    + destruct (cut (String c EmptyString) s) as [[a' b']|] eqn:E; [|discriminate].
      intros [= <- <-]. simpl. rewrite (IH a' b' eq_refl).
      destruct (Ascii.eqb c d) eqn:Edc.
      * apply Ascii.eqb_eq in Edc. congruence.
      * reflexivity.
Qed.

(** ** C2: classification of the location *)

(** C2.  For every location string, [_parse_location] returns (it never
    raises), and what it returns is decided by the stripped string alone:
    the ZIP form (five digits, optionally a hyphen and four digits) gives
    the single parameter zipCode with that very string; otherwise a string
    with a comma gives city and state, the parts before and after the first
    comma, each stripped; otherwise city is the stripped string and state
    is empty. *)
Theorem parse_location_classification (location : string) :
  _parse_location location =
  Ok (if zip_form (strip location)
      then [("zipCode", JStr (strip location))]
      else match cut "," (strip location) with
           | Some (city, state) =>
               [("city", JStr (strip city)); ("state", JStr (strip state))]
           | None =>
               [("city", JStr (strip location)); ("state", JStr EmptyString)]
           end).
Proof.
  unfold _parse_location.
  rewrite <- zip_regex_strip.
  destruct (re_match zip_regex (strip location)) as [m|]; [reflexivity|].
  rewrite contains_cut. unfold split1.
  destruct (cut "," (strip location)) as [[city state]|]; reflexivity.
Qed.

(** ** C3: date validation *)

Lemma strptime_raises_value_error (s : string) (e : exn) :
  strptime_ymd s = Raise e -> e = ValueError.
Proof.
  unfold strptime_ymd.
  destruct (re_match ymd_regex s) as [m|]; [|congruence].
  destruct (negb (String.length s =? span m)%nat); [congruence|].
  destruct (groups m) as [|y [|mo [|d [|? ?]]]]; try congruence.
  destruct (valid_date _ _ _); congruence.
Qed.

Lemma validate_date_value (dt : option string) :
  _validate_date dt =
  Ok match dt with
     | None => today
     | Some s => if accepts s then s else today
     end.
Proof.
  destruct dt as [s|]; [|reflexivity].
  unfold _validate_date, accepts, _today_str.
  destruct (String.eqb s EmptyString) eqn:E.
  - apply String.eqb_eq in E. subst s. reflexivity.
  - destruct (strptime_ymd s) as [v|e] eqn:P; [reflexivity|].
    apply strptime_raises_value_error in P. subst e. reflexivity.
Qed.

Lemma digit_cases (c : ascii) :
  isdigit c = true ->
  In c ["0"; "1"; "2"; "3"; "4"; "5"; "6"; "7"; "8"; "9"]%char.
Proof.
  destruct c as [[] [] [] [] [] [] [] []]; intros H;
    try discriminate H; cbn; repeat (first [left; reflexivity | right]).
Qed.

Lemma month_matches {A : Type} (n0 : nat) (m1 m2 : ascii) (rest : string)
      (caps : list string) (k : string -> string -> list string -> option A) (a : A) :
  isdigit m1 = true -> isdigit m2 = true ->
  (1 <=? int_of_digits 0 (String m1 (String m2 EmptyString)))%Z = true ->
  (int_of_digits 0 (String m1 (String m2 EmptyString)) <=? 12)%Z = true ->
  k (String m1 (String m2 EmptyString)) rest
    (caps ++ [String m1 (String m2 EmptyString)])%list = Some a ->
  rmatch n0 month_regex (String m1 (String m2 rest)) caps k = Some a.
Proof.
  intros D1 D2 Lo Hi K.
  apply digit_cases in D1. apply digit_cases in D2.
  cbn [In] in D1, D2.
  repeat (destruct D1 as [<-|D1]; [|]); try contradiction;
    repeat (destruct D2 as [<-|D2]; [|]); try contradiction;
    try discriminate Lo; try discriminate Hi;
    cbn; rewrite K; reflexivity.
Qed.

Lemma day_matches {A : Type} (n0 : nat) (d1 d2 : ascii) (rest : string)
      (caps : list string) (k : string -> string -> list string -> option A) (a : A) :
  isdigit d1 = true -> isdigit d2 = true ->
  (1 <=? int_of_digits 0 (String d1 (String d2 EmptyString)))%Z = true ->
  (int_of_digits 0 (String d1 (String d2 EmptyString)) <=? 31)%Z = true ->
  k (String d1 (String d2 EmptyString)) rest
    (caps ++ [String d1 (String d2 EmptyString)])%list = Some a ->
  rmatch n0 day_regex (String d1 (String d2 rest)) caps k = Some a.
Proof.
  intros D1 D2 Lo Hi K.
  apply digit_cases in D1. apply digit_cases in D2.
  cbn [In] in D1, D2.
  repeat (destruct D1 as [<-|D1]; [|]); try contradiction;
    repeat (destruct D2 as [<-|D2]; [|]); try contradiction;
    try discriminate Lo; try discriminate Hi;
    cbn; rewrite K; reflexivity.
Qed.

Lemma days_in_month_le (y m : Z) : (days_in_month y m <= 31)%Z.
Proof.
  unfold days_in_month.
  repeat match goal with
         | |- context [match ?x with _ => _ end] => destruct x
         end; lia.
Qed.

Lemma rmatch_chr {A : Type} (n0 : nat) (c : ascii) (s : string)
      (caps : list string) (k : string -> string -> list string -> option A) :
  rmatch n0 (chr c) (String c s) caps k = k (String c EmptyString) s caps.
Proof. cbn. rewrite Ascii.eqb_refl. reflexivity. Qed.

Lemma rmatch_seq {A : Type} (n0 : nat) (r1 r2 : regex) (s : string)
      (caps : list string) (k : string -> string -> list string -> option A) :
  rmatch n0 (RSeq r1 r2) s caps k =
  rmatch n0 r1 s caps
         (fun t1 s1 caps1 =>
            rmatch n0 r2 s1 caps1 (fun t2 s2 caps2 => k (t1 ++ t2) s2 caps2)).
Proof. reflexivity. Qed.

Lemma ymd_match (y1 y2 y3 y4 m1 m2 d1 d2 : ascii) :
  isdigit y1 = true -> isdigit y2 = true -> isdigit y3 = true ->
  isdigit y4 = true -> isdigit m1 = true -> isdigit m2 = true ->
  isdigit d1 = true -> isdigit d2 = true ->
  let y := String y1 (String y2 (String y3 (String y4 EmptyString))) in
  let m := String m1 (String m2 EmptyString) in
  let d := String d1 (String d2 EmptyString) in
  valid_date (int_of_digits 0 y) (int_of_digits 0 m) (int_of_digits 0 d) = true ->
  re_match ymd_regex (y ++ "-" ++ m ++ "-" ++ d)
  = Some (MkMatch (y ++ "-" ++ m ++ "-" ++ d) [y; m; d]).
Proof.
  intros Y1 Y2 Y3 Y4 M1 M2 D1 D2 y m d V.
  unfold valid_date in V.
  repeat match type of V with
         | (_ && _) = true => apply andb_prop in V; destruct V as [V ?]
         end.
  assert (Hd : (int_of_digits 0 d <=? 31)%Z = true).
  { apply Z.leb_le.
    match goal with
    | E : (_ <=? days_in_month ?a ?b)%Z = true |- _ =>
        apply Z.leb_le in E; pose proof (days_in_month_le a b); lia
    end. }
  unfold re_match, match_at, ymd_regex, year_regex, seq.
  cbn [fold_right]. subst y m d. cbn [append].
  cbn [rmatch rep digit].
  rewrite Y1, Y2, Y3, Y4, rmatch_chr. cbv beta.
  apply month_matches; try assumption.
  rewrite rmatch_chr. cbv beta.
  apply day_matches; try assumption.
  reflexivity.
Qed.

Lemma lstrip_by_id (p : ascii -> bool) (s : string) :
  (forall c, first_char s = Some c -> p c = false) -> lstrip_by p s = s.
Proof.
  destruct s as [|a s]; intros H; [reflexivity|].
  simpl. rewrite (H a eq_refl). reflexivity.
Qed.

Lemma rstrip_by_id (p : ascii -> bool) (s : string) :
  (forall c, last_char s = Some c -> p c = false) -> rstrip_by p s = s.
Proof.
  induction s as [|a s IH]; intros H; [reflexivity|].
  cbn [rstrip_by]. destruct s as [|b s].
  - cbn. rewrite (H a eq_refl). reflexivity.
  - rewrite IH; [reflexivity|]. intros c Hc. apply H. exact Hc.
Qed.

Lemma strip_id (s : string) : trimmed s -> strip s = s.
Proof.
  intros [Hf Hl]. unfold strip.
  rewrite (lstrip_by_id isspace s Hf). apply rstrip_by_id. exact Hl.
Qed.

Lemma isdigit_not_space (c : ascii) : isdigit c = true -> isspace c = false.
Proof.
  intros H. apply digit_cases in H. cbn [In] in H.
  repeat (destruct H as [<-|H]; [reflexivity|]). contradiction.
Qed.

Lemma int_of_str_digits (a : ascii) (s : string) :
  isdigit a = true ->
  (forall c, last_char (String a s) = Some c -> isdigit c = true) ->
  int_of_str (String a s) = int_of_digits 0 (String a s).
Proof.
  intros Ha Hl. unfold int_of_str. rewrite strip_id; [reflexivity|].
  split; intros c Hc.
  - injection Hc as <-. apply isdigit_not_space, Ha.
  - apply isdigit_not_space, Hl, Hc.
Qed.

(** Every strict YYYY-MM-DD date passes [strptime]. *)
Lemma strict_iso_accepted (s : string) :
  strict_iso s = true -> accepts s = true.
Proof.
  unfold strict_iso.
  do 10 (destruct s as [|? s]; [discriminate|]).
  destruct s; [|discriminate].
  intros H.
  repeat match type of H with
         | (_ && _) = true => apply andb_prop in H; destruct H as [H ?]
         end.
  repeat match goal with
         | E : Ascii.eqb _ _ = true |- _ => apply Ascii.eqb_eq in E; subst
         end.
  unfold accepts, strptime_ymd.
  match goal with
  | |- context [re_match ymd_regex ?x] =>
      match goal with
      | V : valid_date (int_of_digits 0 ?y) (int_of_digits 0 ?m) (int_of_digits 0 ?d) = true |- _ =>
          change x with (y ++ "-" ++ m ++ "-" ++ d);
          rewrite ymd_match by assumption;
          unfold span; cbn [groups matched];
          rewrite Nat.eqb_refl; cbn [negb];
          rewrite !int_of_str_digits, V;
          [reflexivity | ..]
      end
  end; try assumption; cbn [last_char]; intros c [= <-]; assumption.
Qed.

(** C3, as the code has it.  [_validate_date] never raises.  It returns
    today's date for an absent or empty input; it returns unchanged every
    string that [strptime] accepts for the format, which covers every
    strict YYYY-MM-DD calendar date and also dates whose month or day has
    no leading zero (2026-1-5 comes back as given); every string
    [strptime] refuses, 2026-13-40 among them, gives today's date. *)
Theorem validate_date_accepts_or_today :
  (forall dt : option string,
      _validate_date dt =
      Ok match dt with
         | None => today
         | Some s => if accepts s then s else today
         end)
  /\ accepts EmptyString = false
  /\ (forall s, strict_iso s = true -> accepts s = true)
  /\ accepts "2026-1-5" = true
  /\ accepts "2026-13-40" = false.
Proof.
  split; [exact validate_date_value|].
  split; [reflexivity|].
  split; [exact strict_iso_accepted|].
  split; reflexivity.
Qed.

(** ** C1: showtime labels *)

Ltac bind_inv H :=
  let a := fresh "x" in
  let E := fresh "E" in
  apply bind_ok in H; destruct H as (a & E & H).

Lemma mapM_app {A B : Type} (f : A -> result B) (l1 l2 : list A) :
  mapM f (l1 ++ l2) = (r1 <- mapM f l1 ;; r2 <- mapM f l2 ;; Ok (r1 ++ r2)%list).
Proof.
  induction l1 as [|a l1 IH]; simpl.
  - destruct (mapM f l2); reflexivity.
  - destruct (f a) as [b|e]; simpl; [|reflexivity].
    rewrite IH. destruct (mapM f l1) as [r1|e]; simpl; [|reflexivity].
    destruct (mapM f l2); reflexivity.
Qed.

Lemma mapM_length {A B : Type} (f : A -> result B) (l : list A) (r : list B) :
  mapM f l = Ok r -> List.length r = List.length l.
Proof.
  revert r. induction l as [|a l IH]; intros r H; simpl in H.
  - injection H as <-. reflexivity.
  - bind_inv H. bind_inv H. injection H as <-. simpl. f_equal. apply IH.
    assumption.
Qed.

(** When every element maps to the value of a function, [mapM] is [map]. *)
Lemma mapM_map {A B : Type} (f : A -> result B) (g : A -> B) (l : list A) :
  (forall a, In a l -> f a = Ok (g a)) -> mapM f l = Ok (map g l).
Proof.
  induction l as [|a l IH]; intros H; simpl; [reflexivity|].
  rewrite (H a (or_introl eq_refl)). simpl.
  rewrite IH; [reflexivity|]. intros b Hb. apply H. right. exact Hb.
Qed.

(** Iterating something that is not a list gives strings; when each item
    must have [get], only a list (or an empty dict or string) gets
    through, and the items are those of the list. *)
Lemma iter_items {B : Type} (f : json -> result B) (x : json) (l : list json)
      (r : list B) :
  (forall s, f (JStr s) = Raise AttributeError) ->
  py_iter x = Ok l -> mapM f l = Ok r -> l = items x.
Proof.
  intros Hf Hi Hm. destruct x; simpl in Hi; try discriminate;
    injection Hi as <-; try reflexivity.
  - destruct s as [|c s]; [reflexivity|]. simpl in Hm.
    rewrite Hf in Hm. discriminate.
  - destruct fields0 as [|[k v] d]; [reflexivity|]. simpl in Hm.
    rewrite Hf in Hm. discriminate.
Qed.

Lemma py_get_fields (x : json) (k : string) (d v : json) :
  py_get x k d = Ok v -> x = JObj (fields x) /\ v = get_or (fields x) k d.
Proof.
  destruct x; simpl; try discriminate. intros [= <-]. split; reflexivity.
Qed.

Lemma truthy_get_or (d : dict) (k : string) :
  truthy (get_or d k JNull) = true -> dict_get k d = Some (get_or d k JNull).
Proof.
  unfold get_or. destruct (dict_get k d); [reflexivity | discriminate].
Qed.

Lemma site_url_obj (d : dict) (k : string) :
  site_url (JObj d) k =
  Ok (if truthy (get_or d k JNull)
      then JStr (FANDANGO_BASE ++ fmt (get_or d k JNull))
      else JNull).
Proof.
  unfold site_url. cbn [py_get bind].
  destruct (truthy (get_or d k JNull)) eqn:T; [|reflexivity].
  cbn [py_index]. rewrite (truthy_get_or d k T). reflexivity.
Qed.

(** A raw showtime object always simplifies, to [simplified_showtime]. *)
Lemma simplify_showtime_obj (st : dict) :
  _simplify_showtime (JObj st) = Ok (simplified_showtime st).
Proof.
  unfold _simplify_showtime, simplified_showtime, time_part, py_get, py_index,
    get_or.
  destruct (dict_get "ticketingDate" st) as [[]|];
    destruct (dict_get "ticketingJumpPageURL" st) as [j|];
    cbn; try reflexivity; destruct (truthy j); reflexivity.
Qed.

Lemma simplify_showtime_ok (st out : json) :
  _simplify_showtime st = Ok out -> out = simplified_showtime (fields st).
Proof.
  destruct st; try discriminate. rewrite simplify_showtime_obj.
  intros [= <-]. reflexivity.
Qed.

Lemma simplify_showtimes_ok (sts : list json) (outs : list json) :
  mapM _simplify_showtime sts = Ok outs ->
  outs = map (fun st => simplified_showtime (fields st)) sts.
Proof.
  revert outs. induction sts as [|st sts IH]; intros outs H; simpl in H.
  - injection H as <-. reflexivity.
  - bind_inv H. bind_inv H. injection H as <-.
    simpl. f_equal; [apply simplify_showtime_ok; assumption | apply IH; assumption].
Qed.

Lemma group_showtimes_ok (ags : list json) (lists : list (list json)) :
  mapM (fun ag =>
          sts <- py_get ag "showtimes" (JArr []) ;;
          sts <- py_iter sts ;;
          mapM _simplify_showtime sts) ags = Ok lists ->
  List.concat lists =
  map (fun st => simplified_showtime (fields st))
      (flat_map (fun ag => items (get_or (fields ag) "showtimes" (JArr []))) ags).
Proof.
  revert lists. induction ags as [|ag ags IH]; intros lists H; simpl in H.
  - injection H as <-. reflexivity.
  - bind_inv H. bind_inv H. injection H as <-.
    bind_inv E. bind_inv E.
    apply py_get_fields in E1. destruct E1 as [_ ->].
    rewrite (iter_items _ _ _ _ (fun s => eq_refl) E2 E) in E.
    apply simplify_showtimes_ok in E. subst.
    cbn [List.concat flat_map]. rewrite map_app. f_equal. apply IH. assumption.
Qed.

(** A variant that simplifies gives its format label and the simplified
    showtimes of all its amenity groups, in order. *)
Lemma simplify_variant_ok (v out : json) :
  _simplify_variant v = Ok out ->
  out = JObj [("format", variant_format v);
              ("showtimes",
               JArr (map (fun st => simplified_showtime (fields st))
                         (raw_showtimes v)))].
Proof.
  unfold _simplify_variant. intros H.
  bind_inv H. bind_inv H. bind_inv H. bind_inv H. injection H as <-.
  apply py_get_fields in E. destruct E as [_ ->].
  apply py_get_fields in E2. destruct E2 as [_ ->].
  assert (L : x0 = items (get_or (fields v) "amenityGroups" (JArr []))).
  { eapply iter_items; [|exact E0|exact E1]. reflexivity. }
  subst x0. apply group_showtimes_ok in E1. rewrite E1. reflexivity.
Qed.

Lemma label_showtime_str (f : json) (sts : json) (d : dict) (t : string) :
  time_part d = JStr t ->
  label_showtime (JObj [("format", f); ("showtimes", sts)])
                 (simplified_showtime d)
  = Ok (JStr (label_of f t), simplified_showtime d).
Proof.
  intros T. unfold label_showtime, simplified_showtime, label_of.
  cbn [py_index dict_get String.eqb Ascii.eqb Bool.eqb bind].
  rewrite T. destruct (truthy f && negb (eq_str f "Standard")); reflexivity.
Qed.

Lemma label_showtimes_str (f sts : json) (raws : list json) :
  forallb (fun st => is_str (time_part (fields st))) raws = true ->
  mapM (label_showtime (JObj [("format", f); ("showtimes", sts)]))
       (map (fun st => simplified_showtime (fields st)) raws)
  = Ok (map (fun st => (JStr (label_of f (str_of (time_part (fields st)))),
                        simplified_showtime (fields st))) raws).
Proof.
  induction raws as [|st raws IH]; intros H; [reflexivity|].
  cbn [forallb] in H. apply andb_prop in H. destruct H as [Hs Hr].
  cbn [map mapM].
  destruct (time_part (fields st)) eqn:T; try discriminate Hs.
  rewrite (label_showtime_str f sts (fields st) s T).
  cbn [bind]. rewrite (IH Hr). reflexivity.
Qed.

(** With string times the inner loop leaves the variant as it was. *)
Lemma label_variant_str (v : json) :
  forallb (fun st => is_str (time_part (fields st))) (raw_showtimes v) = true ->
  label_variant (simplified_variant v)
  = Ok (map (fun st => JStr (label_of (variant_format v)
                                      (str_of (time_part (fields st)))))
            (raw_showtimes v),
        simplified_variant v).
Proof.
  intros H. unfold label_variant, simplified_variant.
  cbn [py_index dict_get String.eqb Ascii.eqb Bool.eqb bind py_iter].
  rewrite (label_showtimes_str _ _ _ H). cbn [bind].
  rewrite !map_map. cbn [fst snd dict_set String.eqb Ascii.eqb Bool.eqb].
  reflexivity.
Qed.

Lemma simplify_variants_ok (vs outs : list json) :
  mapM _simplify_variant vs = Ok outs -> outs = map simplified_variant vs.
Proof.
  revert outs. induction vs as [|v vs IH]; intros outs H; simpl in H.
  - injection H as <-. reflexivity.
  - bind_inv H. bind_inv H. injection H as <-.
    simpl. f_equal; [apply simplify_variant_ok; assumption | apply IH; assumption].
Qed.

Lemma label_variants_str (vs : list json) :
  forallb (fun v => forallb (fun st => is_str (time_part (fields st)))
                            (raw_showtimes v)) vs = true ->
  mapM label_variant (map simplified_variant vs)
  = Ok (map (fun v =>
               (map (fun st => JStr (label_of (variant_format v)
                                              (str_of (time_part (fields st)))))
                    (raw_showtimes v),
                simplified_variant v)) vs).
Proof.
  induction vs as [|v vs IH]; intros H; [reflexivity|].
  cbn [forallb] in H. apply andb_prop in H. destruct H as [Hv Hr].
  cbn [map mapM]. rewrite (label_variant_str v Hv). cbn [bind].
  rewrite (IH Hr). reflexivity.
Qed.

Lemma simplify_variant_str (s : string) :
  _simplify_variant (JStr s) = Raise AttributeError.
Proof. reflexivity. Qed.

(** C1, as the code has it.  For a movie object that simplifies and whose
    showtimes have string time parts, the flattened [showtimes] list holds,
    variant by variant and in encounter order, one label per raw showtime:
    the time part alone, or followed by the variant's format in brackets
    when that format is non-empty and not Standard.  The time part is the
    localTime of ticketingDate (the empty string if it has none) when
    ticketingDate is an object, and dateTime (or the empty string)
    otherwise. *)
Theorem simplify_movie_labels (movie out : json) :
  _simplify_movie movie = Ok out ->
  string_times movie = true ->
  py_index out "showtimes" = Ok (JArr (labels_with time_part movie)).
Proof.
  unfold _simplify_movie, string_times. intros H S.
  bind_inv H. bind_inv H. bind_inv H. bind_inv H.
  apply py_get_fields in E. destruct E as [_ ->].
  assert (L : x0 = raw_variants movie).
  { eapply iter_items; [|exact E0|exact E1]. reflexivity. }
  subst x0. apply simplify_variants_ok in E1. subst x1.
  rewrite (label_variants_str _ S) in E2. injection E2 as <-.
  repeat bind_inv H. injection H as <-.
  cbn [py_index dict_get String.eqb Ascii.eqb Bool.eqb].
  rewrite map_map. cbn [fst]. unfold labels_with.
  rewrite flat_map_concat_map. reflexivity.
Qed.

(** ** C9 and C10: the simplified theater *)

(** The quotient rounded half to even is the nearest integer, and the even
    one on a tie; and there is one such integer only. *)
Lemma div_half_even_nearest (a b : Z) :
  (0 < b)%Z -> nearest_even a b (div_half_even a b).
Proof.
  intros B. unfold nearest_even, div_half_even. cbv zeta.
  pose proof (Z.div_mod a b ltac:(lia)) as D.
  pose proof (Z.mod_pos_bound a b B) as R.
  set (q := (a / b)%Z) in *. set (r := (a mod b)%Z) in *.
  destruct (Z.compare_spec (2 * r) b) as [E|L|G].
  - destruct (Z.even q) eqn:Q.
    + split; [|intros _; exact Q].
      replace (a - q * b)%Z with r by lia. lia.
    + split.
      * replace (a - (q + 1) * b)%Z with (r - b)%Z by lia. lia.
      * intros _. rewrite Z.even_add, Q. reflexivity.
  - split.
    + replace (a - q * b)%Z with r by lia. lia.
    + replace (a - q * b)%Z with r by lia. lia.
  - split.
    + replace (a - (q + 1) * b)%Z with (r - b)%Z by lia. lia.
    + replace (a - (q + 1) * b)%Z with (r - b)%Z by lia. lia.
Qed.

Lemma nearest_even_unique (num den h1 h2 : Z) :
  (0 < den)%Z -> nearest_even num den h1 -> nearest_even num den h2 -> h1 = h2.
Proof.
  intros D [B1 T1] [B2 T2].
  assert (C : (h1 = h2 \/ h1 = h2 + 1 \/ h2 = h1 + 1)%Z) by nia.
  destruct C as [C|[C|C]]; [exact C| |]; exfalso.
  - subst h1.
    assert (E2 : (2 * Z.abs (num - h2 * den) = den)%Z) by nia.
    assert (E1 : (2 * Z.abs (num - (h2 + 1) * den) = den)%Z) by nia.
    specialize (T1 E1). specialize (T2 E2).
    rewrite Z.even_add, T2 in T1. discriminate T1.
  - subst h2.
    assert (E1 : (2 * Z.abs (num - h1 * den) = den)%Z) by nia.
    assert (E2 : (2 * Z.abs (num - (h1 + 1) * den) = den)%Z) by nia.
    specialize (T1 E1). specialize (T2 E2).
    rewrite Z.even_add, T1 in T2. discriminate T2.
Qed.

Lemma hundredths_nearest (m : positive) (e : Z) :
  nearest_even (fst (hundredfold m e)) (snd (hundredfold m e)) (hundredths m e).
Proof.
  unfold hundredfold, hundredths. cbn [fst snd].
  destruct (Z.leb_spec 0 e) as [P|N].
  - rewrite (Z.max_r 0 e P), (Z.max_l 0 (- e)) by lia.
    change (2 ^ 0)%Z with 1%Z. unfold nearest_even.
    replace (Z.pos m * 100 * 2 ^ e - Z.pos m * 2 ^ e * 100 * 1)%Z with 0%Z by lia.
    cbn [Z.abs]. split; [lia | intros H; discriminate H].
  - rewrite (Z.max_l 0 e), (Z.max_r 0 (- e)) by lia.
    change (2 ^ 0)%Z with 1%Z. rewrite Z.mul_1_r.
    apply div_half_even_nearest. apply Z.pow_pos_nonneg; lia.
Qed.

Lemma simplify_theater_distance (theater out : json) :
  _simplify_theater theater = Ok out ->
  (exists v, py_index out "distance_miles" = Ok v)
  /\ py_index out "distance_miles" =
     match dict_get "distance" (fields theater) with
     | None | Some JNull => Ok JNull
     | Some d => py_round2 d
     end.
Proof.
  unfold _simplify_theater. intros H.
  repeat bind_inv H. injection H as <-.
  cbn [py_index dict_get String.eqb Ascii.eqb Bool.eqb].
  split; [eexists; reflexivity|].
  match goal with
  | E : py_get theater "distance" JNull = Ok _ |- _ =>
      apply py_get_fields in E; destruct E as [Et ->]
  end.
  match goal with
  | E : (if negb (is_none _) then _ else _) = Ok _ |- _ =>
      rename E into D
  end.
  destruct theater as [| | | | | |t]; try discriminate Et.
  cbn [fields py_index] in *. unfold get_or in D.
  destruct (dict_get "distance" t) as [d|].
  - destruct d; cbn in D; try discriminate D; symmetry; exact D.
  - cbn in D. symmetry. exact D.
Qed.

(** C9.  Whenever a theater simplifies, [distance_miles] is the distance
    rounded to two decimals: null when the theater has no distance or a
    null one; for a float of exact value [x], the double nearest to
    [h / 100], where [h] is the integer nearest to [100 * x], the even one
    when two are equally near (and there is one such [h] only); an integer
    is its own rounding, and an infinity or a NaN stays.  So 3.14159 gives
    exactly 3.14, 3.146 gives 3.15, the ties 0.125 and 0.375 give 0.12 and
    0.38, and 2.675, whose double lies below the tie, gives 2.67. *)
Theorem distance_miles_rounded (theater out : json) :
  _simplify_theater theater = Ok out ->
  (exists v,
      py_index out "distance_miles" = Ok v
      /\ rounded_distance (get_or (fields theater) "distance" JNull) v)
  /\ (forall num den h1 h2,
         (0 < den)%Z ->
         nearest_even num den h1 -> nearest_even num den h2 -> h1 = h2)
  /\ round2_float (float_of_decimal 314159 5) = float_of_decimal 314 2
  /\ round2_float (float_of_decimal 3146 3) = float_of_decimal 315 2
  /\ round2_float (float_of_decimal 125 3) = float_of_decimal 12 2
  /\ round2_float (float_of_decimal 375 3) = float_of_decimal 38 2
  /\ round2_float (float_of_decimal 2675 3) = float_of_decimal 267 2.
Proof.
  intros H.
  split; [|split; [exact nearest_even_unique | repeat split; vm_compute; reflexivity]].
  destruct (simplify_theater_distance theater out H) as [[w W] D].
  unfold get_or.
  destruct (dict_get "distance" (fields theater)) as [d|];
    [|exists JNull; split; [exact D | reflexivity]].
  destruct d as [|b|n|f|s|l|o]; cbn [py_round2] in D;
    try (eexists; split; [exact D | reflexivity]);
    try (rewrite D in W; discriminate W).
  destruct f as [s| | |s m e];
    try (eexists; split; [exact D | reflexivity]).
  eexists. split; [exact D|]. cbn [rounded_distance].
  exists (hundredths m e). split; [apply hundredths_nearest | reflexivity].
Qed.

Lemma simplify_theater_counts (theater out : json) :
  _simplify_theater theater = Ok out ->
  exists movies,
    py_index out "movies" = Ok (JArr movies)
    /\ py_index out "movie_count" = Ok (JInt (Z.of_nat (List.length movies)))
    /\ List.length movies = List.length (items (get_or (fields theater) "movies" (JArr []))).
Proof.
  unfold _simplify_theater. intros H.
  do 3 bind_inv H.
  apply py_get_fields in E. destruct E as [_ ->].
  assert (L : x0 = items (get_or (fields theater) "movies" (JArr []))).
  { eapply iter_items; [|exact E0|exact E1]. reflexivity. }
  subst x0. apply mapM_length in E1.
  repeat bind_inv H. injection H as <-.
  exists x1. repeat split; [exact E1].
Qed.

(** ** C4, C5 and C10: the entry points and the fetch *)

(** [get_showtimes] up to the fetch: the request it sends. *)
Lemma get_showtimes_request (location : string) (date : option string) (page : Z) :
  get_showtimes location date page =
  match http_get_json FANDANGO_API (showtimes_params location date page) with
  | Raise (HTTPStatusError code reason) =>
      Ok (JObj [("error", http_error code reason)])
  | Raise (RequestError message) =>
      Ok (JObj [("error", request_error message)])
  | Raise e => Raise e
  | Ok data =>
      empty <- no_theaters data ;;
      if empty then Ok (no_results location (request_date date))
      else
        ts <- py_index data "theaters" ;;
        ts <- py_iter ts ;;
        theaters <- mapM _simplify_theater ts ;;
        pagination <- py_get data "pagination" (JObj []) ;;
        total_pages <- py_get pagination "totalPages" (JInt 1) ;;
        Ok (JObj [("location", JStr location);
                  ("date", JStr (request_date date));
                  ("page", JInt page); ("total_pages", total_pages);
                  ("theater_count", py_len theaters);
                  ("theaters", JArr theaters)])
  end.
Proof.
  unfold get_showtimes, _fetch_json.
  rewrite validate_date_value, parse_location_classification.
  reflexivity.
Qed.

(** C4.  When the API answers with an object whose theaters key is absent,
    null or an empty array, [get_showtimes] returns the no-results
    summary: the location as requested, the validated date, a theater
    count of 0, an empty theaters list and a non-empty message; the summary
    has no error key. *)
Theorem get_showtimes_no_results
        (location : string) (date : option string) (page : Z) (payload : dict) :
  http_get_json FANDANGO_API (showtimes_params location date page)
  = Ok (JObj payload) ->
  dict_get "theaters" payload = None
  \/ dict_get "theaters" payload = Some JNull
  \/ dict_get "theaters" payload = Some (JArr []) ->
  exists message out,
    get_showtimes location date page = Ok out
    /\ out = JObj [("location", JStr location);
                   ("date", JStr (request_date date));
                   ("theater_count", JInt 0); ("theaters", JArr []);
                   ("message", JStr message)]
    /\ message <> EmptyString
    /\ dict_get "error" (fields out) = None.
Proof.
  intros F T.
  exists "No theaters or showtimes found for this location and date.".
  eexists. split; [|split; [reflexivity | split; [discriminate | reflexivity]]].
  rewrite get_showtimes_request, F. unfold no_theaters.
  destruct payload as [|kv payload]; [reflexivity|].
  cbn [truthy negb py_get bind]. unfold get_or.
  destruct T as [T|[T|T]]; rewrite T; reflexivity.
Qed.

(** C10.  The counts agree with the lists: in every simplified theater
    [movie_count] is the length of [movies]; in every result of
    [get_showtimes] that is not an error record (the no-results summary
    included) [theater_count] is the length of [theaters]. *)
Theorem counts_match_lists :
  (forall theater out,
      _simplify_theater theater = Ok out ->
      exists movies,
        py_index out "movies" = Ok (JArr movies)
        /\ py_index out "movie_count" = Ok (JInt (Z.of_nat (List.length movies))))
  /\ (forall location date page out,
         get_showtimes location date page = Ok out ->
         dict_get "error" (fields out) = None ->
         exists theaters,
           py_index out "theaters" = Ok (JArr theaters)
           /\ py_index out "theater_count"
              = Ok (JInt (Z.of_nat (List.length theaters)))).
Proof.
  split.
  - intros theater out H.
    destruct (simplify_theater_counts theater out H) as (movies & M & C & _).
    exists movies. split; assumption.
  - intros location date page out H NoErr.
    rewrite get_showtimes_request in H.
    destruct (http_get_json FANDANGO_API (showtimes_params location date page))
      as [data|e].
    + bind_inv H. destruct x.
      * injection H as <-. exists []. split; reflexivity.
      * repeat bind_inv H. injection H as <-.
        eexists. split; reflexivity.
    + destruct e; try discriminate H; injection H as <-;
        cbn in NoErr; discriminate NoErr.
Qed.

(** What the first fetch of each entry point turns a failure into. *)
Lemma get_theater_showtimes_request (theater_id : string) (date : option string) :
  get_theater_showtimes theater_id date =
  let url := theater_url_of theater_id (request_date date) in
  match http_get_html url with
  | Raise (HTTPStatusError code reason) =>
      Ok (JObj [("error", http_error code reason)])
  | Raise (RequestError message) =>
      Ok (JObj [("error", request_error message)])
  | Raise e => Raise e
  | Ok html => _parse_theater_page html url (request_date date)
  end.
Proof.
  unfold get_theater_showtimes, _fetch_html.
  rewrite validate_date_value. reflexivity.
Qed.

(** A second fetch that fails, whatever the failure, is not reported: the
    page parser falls back to the record read off the page. *)
Lemma parse_theater_page_api_failure (html url dt : string) :
  (forall m, find_zip html = Some m ->
             exists e, http_get_json FANDANGO_API (zip_params (group1 m) dt) = Raise e) ->
  _parse_theater_page html url dt =
  Ok (JObj (dict_set "message" dynamic_message (theater_record html url dt))).
Proof.
  intros F. unfold _parse_theater_page.
  destruct (find_zip html) as [m|]; [|reflexivity].
  destruct (F m eq_refl) as [e E].
  unfold _fetch_theater_via_api, _fetch_json. rewrite E. reflexivity.
Qed.

Lemma dict_get_set_same (k : string) (v : json) (d : dict) :
  dict_get k (dict_set k v d) = Some v.
Proof.
  induction d as [|[k' v'] d IH]; simpl.
  - rewrite String.eqb_refl. reflexivity.
  - destruct (String.eqb k k') eqn:E; simpl; rewrite E; [reflexivity | exact IH].
Qed.

Lemma dict_get_set_other (k k' : string) (v : json) (d : dict) :
  String.eqb k' k = false -> dict_get k' (dict_set k v d) = dict_get k' d.
Proof.
  intros N. induction d as [|[k0 v0] d IH]; simpl.
  - rewrite N. reflexivity.
  - destruct (String.eqb k k0) eqn:E; simpl.
    + apply String.eqb_eq in E. subst k0. rewrite N. reflexivity.
    + destruct (String.eqb k' k0); [reflexivity | exact IH].
Qed.

Lemma theater_record_no_error (html url dt : string) :
  dict_get "error" (theater_record html url dt) = None.
Proof.
  unfold theater_record.
  destruct (match select_one html "h1.subnav__title, .theaterDetailHeader__name" with
            | Some el => Some el
            | None => select_one html "title"
            end); reflexivity.
Qed.

(** C5, as the code has it.  A failure of the first fetch of an entry point
    comes back as a record, not as an exception: an HTTP status failure as
    the error string HTTP code: reason, a transport failure as
    Request failed: message; [get_showtimes] and [get_theater_showtimes]
    return the error alone, [get_movie_details] the error and the requested
    url (so a 404 Not Found gives exactly the error HTTP 404: Not Found and
    the url).  A failure of the second fetch of [get_theater_showtimes] is
    not reported as an error: the result is the record read off the page,
    with the message that points to [get_showtimes], and no error key. *)
Theorem fetch_failures_as_records :
  (forall location date page code reason,
      http_get_json FANDANGO_API (showtimes_params location date page)
      = Raise (HTTPStatusError code reason) ->
      get_showtimes location date page =
      Ok (JObj [("error", JStr ("HTTP " ++ str_of_int code ++ ": " ++ reason))]))
  /\ (forall location date page message,
         http_get_json FANDANGO_API (showtimes_params location date page)
         = Raise (RequestError message) ->
         get_showtimes location date page =
         Ok (JObj [("error", JStr ("Request failed: " ++ message))]))
  /\ (forall theater_id date code reason,
         http_get_html (theater_url_of theater_id (request_date date))
         = Raise (HTTPStatusError code reason) ->
         get_theater_showtimes theater_id date =
         Ok (JObj [("error", JStr ("HTTP " ++ str_of_int code ++ ": " ++ reason))]))
  /\ (forall theater_id date message,
         http_get_html (theater_url_of theater_id (request_date date))
         = Raise (RequestError message) ->
         get_theater_showtimes theater_id date =
         Ok (JObj [("error", JStr ("Request failed: " ++ message))]))
  /\ (forall movie_url code reason,
         http_get_html (FANDANGO_BASE ++ movie_path movie_url)
         = Raise (HTTPStatusError code reason) ->
         get_movie_details movie_url =
         Ok (JObj [("error", JStr ("HTTP " ++ str_of_int code ++ ": " ++ reason));
                   ("url", JStr (FANDANGO_BASE ++ movie_path movie_url))]))
  /\ (forall movie_url message,
         http_get_html (FANDANGO_BASE ++ movie_path movie_url)
         = Raise (RequestError message) ->
         get_movie_details movie_url =
         Ok (JObj [("error", JStr ("Request failed: " ++ message));
                   ("url", JStr (FANDANGO_BASE ++ movie_path movie_url))]))
  /\ (forall movie_url,
         http_get_html (FANDANGO_BASE ++ movie_path movie_url)
         = Raise (HTTPStatusError 404 "Not Found") ->
         get_movie_details movie_url =
         Ok (JObj [("error", JStr "HTTP 404: Not Found");
                   ("url", JStr (FANDANGO_BASE ++ movie_path movie_url))]))
  /\ (forall theater_id date html,
         let dt := request_date date in
         let url := theater_url_of theater_id dt in
         http_get_html url = Ok html ->
         (forall m, find_zip html = Some m ->
                    exists e, http_get_json FANDANGO_API (zip_params (group1 m) dt)
                              = Raise e) ->
         get_theater_showtimes theater_id date =
         Ok (JObj (dict_set "message" dynamic_message (theater_record html url dt)))
         /\ dict_get "error"
                     (dict_set "message" dynamic_message (theater_record html url dt))
            = None).
Proof.
  repeat split.
  - intros * F. rewrite get_showtimes_request, F. reflexivity.
  - intros * F. rewrite get_showtimes_request, F. reflexivity.
  - intros * F. rewrite get_theater_showtimes_request. cbv zeta.
    rewrite F. reflexivity.
  - intros * F. rewrite get_theater_showtimes_request. cbv zeta.
    rewrite F. reflexivity.
  - intros * F. unfold get_movie_details, _fetch_html. rewrite F. reflexivity.
  - intros * F. unfold get_movie_details, _fetch_html. rewrite F. reflexivity.
  - intros * F. unfold get_movie_details, _fetch_html. rewrite F. reflexivity.
  - rewrite get_theater_showtimes_request. cbv zeta. rewrite H.
    apply parse_theater_page_api_failure. assumption.
  - rewrite dict_get_set_other; [apply theater_record_no_error | reflexivity].
Qed.

(** ** C7: identifiers as paths *)

Lemma slug_char_facts (c : ascii) :
  slug_char c = true -> isspace c = false /\ c <> "/"%char.
Proof.
  destruct c as [[] [] [] [] [] [] [] []]; intros H;
    try discriminate H; (split; [reflexivity | discriminate]).
Qed.

Lemma all_chars_first (p : ascii -> bool) (s : string) (c : ascii) :
  all_chars p s = true -> first_char s = Some c -> p c = true.
Proof.
  destruct s as [|a s]; simpl; [discriminate|].
  intros H [= <-]. apply andb_prop in H. exact (proj1 H).
Qed.

Lemma all_chars_last (p : ascii -> bool) (s : string) (c : ascii) :
  all_chars p s = true -> last_char s = Some c -> p c = true.
Proof.
  induction s as [|a s IH]; [discriminate|].
  cbn [all_chars]. intros H L. apply andb_prop in H. destruct H as [Ha Hs].
  destruct s as [|b s]; [injection L as <-; exact Ha | apply IH; assumption].
Qed.

Lemma last_char_app (a b : string) :
  b <> EmptyString -> last_char (a ++ b) = last_char b.
Proof.
  intros N. induction a as [|c a IH]; [reflexivity|].
  cbn [append last_char]. rewrite IH.
  destruct (a ++ b) eqn:E; [|reflexivity].
  destruct a; [simpl in E; contradiction | discriminate].
Qed.

Lemma prefix_app (p s : string) : prefix p (p ++ s) = true.
Proof.
  induction p as [|c p IH]; simpl; [apply prefix_empty|].
  destruct (Ascii.ascii_dec c c) as [_|N]; [exact IH | contradiction].
Qed.

Lemma endswith_app (suf s : string) : endswith suf (s ++ suf) = true.
Proof.
  induction s as [|c s IH]; simpl.
  - destruct suf; simpl; rewrite ?String.eqb_refl, ?Ascii.eqb_refl; reflexivity.
  - rewrite IH. apply orb_true_r.
Qed.

Lemma contains_app (sub a b : string) : contains sub (a ++ sub ++ b) = true.
Proof.
  induction a as [|c a IH]; cbn [append contains].
  - destruct (sub ++ b) eqn:E; cbn [contains]; rewrite <- E, prefix_app; reflexivity.
  - rewrite IH. apply orb_true_r.
Qed.

(** A string without the first character of [sub] does not contain [sub],
    does not end with it and does not start with it. *)
Lemma prefix_first_char (c : ascii) (sub s : string) (p : ascii -> bool) :
  p c = false -> all_chars p s = true -> prefix (String c sub) s = false.
Proof.
  intros Pc A. destruct s as [|a s]; [reflexivity|]. simpl.
  destruct (Ascii.ascii_dec c a) as [<-|]; [|reflexivity].
  simpl in A. rewrite Pc in A. discriminate.
Qed.

Lemma contains_first_char (c : ascii) (sub s : string) (p : ascii -> bool) :
  p c = false -> all_chars p s = true -> contains (String c sub) s = false.
Proof.
  intros Pc. induction s as [|a s IH]; intros A; [reflexivity|].
  cbn [contains]. rewrite (prefix_first_char c sub _ p Pc A).
  simpl in A. apply andb_prop in A. apply IH, (proj2 A).
Qed.

Lemma endswith_first_char (c : ascii) (sub s : string) (p : ascii -> bool) :
  p c = false -> all_chars p s = true -> endswith (String c sub) s = false.
Proof.
  intros Pc. induction s as [|a s IH]; intros A; [reflexivity|].
  cbn [endswith]. simpl in A. apply andb_prop in A. destruct A as [Pa A].
  rewrite (IH A), orb_false_r. simpl.
  destruct (Ascii.eqb a c) eqn:E; [|reflexivity].
  apply Ascii.eqb_eq in E. congruence.
Qed.

Lemma slug_trimmed (id : string) : all_chars slug_char id = true -> trimmed id.
Proof.
  intros A. split; intros c H.
  - apply (all_chars_first _ _ _ A), slug_char_facts in H. exact (proj1 H).
  - apply (all_chars_last _ _ _ A), slug_char_facts in H. exact (proj1 H).
Qed.

Lemma slug_rstrip_slash (id : string) :
  all_chars slug_char id = true -> rstrip_chars "/" id = id.
Proof.
  intros A. apply rstrip_by_id. intros c H.
  apply (all_chars_last _ _ _ A), slug_char_facts in H. destruct H as [_ N].
  cbn. destruct (Ascii.eqb c "/") eqn:E; [|reflexivity].
  apply Ascii.eqb_eq in E. contradiction.
Qed.

Lemma slug_char_slash : slug_char "/" = false.
Proof. reflexivity. Qed.

(** The path of a bare slug. *)
Lemma theater_path_slug (id : string) :
  all_chars slug_char id = true -> startswith "http" id = false ->
  id <> "theater-page" ->
  theater_path id = "/" ++ id ++ "/theater-page".
Proof.
  intros A H N. unfold theater_path.
  rewrite (strip_id id (slug_trimmed id A)), (slug_rstrip_slash id A), H.
  unfold startswith.
  rewrite (prefix_first_char "/" EmptyString id slug_char slug_char_slash A).
  cbn [negb]. cbn [endswith append].
  rewrite (endswith_first_char "/" "theater-page" id slug_char slug_char_slash A).
  destruct (String.eqb (String "/" id) "/theater-page") eqn:E.
  - apply String.eqb_eq in E. injection E as E. contradiction.
  - reflexivity.
Qed.

Lemma movie_path_slug (id : string) :
  all_chars slug_char id = true -> startswith "http" id = false ->
  startswith "movie-overview" id = false -> startswith "movie-times" id = false ->
  movie_path id = "/" ++ id ++ "/movie-overview".
Proof.
  intros A H O T. unfold movie_path.
  rewrite (strip_id id (slug_trimmed id A)), (slug_rstrip_slash id A), H.
  unfold startswith in *.
  rewrite (prefix_first_char "/" EmptyString id slug_char slug_char_slash A).
  cbn [negb append contains].
  rewrite (contains_first_char "/" "movie-overview" id slug_char slug_char_slash A).
  rewrite (contains_first_char "/" "movie-times" id slug_char slug_char_slash A).
  cbn [prefix]. rewrite O, T. reflexivity.
Qed.

(** ** C8: the two-step theater lookup *)

Lemma match_theater_find (target : string) (ts : list json) :
  forallb listed_theater ts = true ->
  match_theater target ts =
  match find (slug_matches target) ts with
  | Some t => r <- _simplify_theater t ;; Ok (Some r)
  | None => Ok None
  end.
Proof.
  induction ts as [|t ts IH]; intros W; [reflexivity|].
  cbn [forallb] in W. apply andb_prop in W. destruct W as [Wt Wr].
  unfold listed_theater in Wt. apply andb_prop in Wt. destruct Wt as [D S].
  destruct t as [| | | | | |d]; try discriminate D.
  cbn [match_theater find py_get bind]. unfold slug_matches.
  unfold page_url in *. cbn [fields] in *.
  destruct (py_or (get_or d "theaterPageUrl" JNull) (JStr EmptyString)) as [| | | |u| |];
    try discriminate S.
  cbn [py_lower bind str_of].
  destruct (negb (String.eqb target EmptyString) && contains target (lower u));
    [reflexivity | apply IH; exact Wr].
Qed.

Lemma simplify_theater_truthy (t d : json) :
  _simplify_theater t = Ok d -> truthy d = true.
Proof.
  unfold _simplify_theater. intros H.
  repeat bind_inv H. injection H as <-. reflexivity.
Qed.

(** With a well-formed, non-empty list the API step yields the selected
    theater, simplified. *)
Lemma fetch_theater_via_api_selected
      (zip_code dt url : string) (payload : dict) (ts : list json) :
  http_get_json FANDANGO_API (zip_params zip_code dt) = Ok (JObj payload) ->
  dict_get "theaters" payload = Some (JArr ts) ->
  ts <> [] ->
  forallb listed_theater ts = true ->
  _fetch_theater_via_api zip_code dt url =
  (r <- _simplify_theater (selected (target_slug_of url) ts) ;; Ok (Some r)).
Proof.
  intros F T N W. unfold _fetch_theater_via_api, _fetch_json. rewrite F.
  unfold no_theaters.
  destruct payload as [|kv payload]; [discriminate T|].
  cbn [truthy negb py_get bind]. unfold get_or. rewrite T.
  destruct ts as [|t ts]; [contradiction|].
  cbn [truthy negb bind py_index]. rewrite T. cbn [bind py_iter].
  rewrite (match_theater_find _ _ W). unfold selected.
  destruct (find (slug_matches (target_slug_of url)) (t :: ts)) as [t'|].
  - destruct (_simplify_theater t'); reflexivity.
  - cbn [bind truthy py_first hd]. reflexivity.
Qed.

Lemma parse_theater_page_selected
      (html url dt : string) (m : rmatch_result) (payload : dict) (ts : list json) :
  find_zip html = Some m ->
  http_get_json FANDANGO_API (zip_params (group1 m) dt) = Ok (JObj payload) ->
  dict_get "theaters" payload = Some (JArr ts) ->
  ts <> [] ->
  forallb listed_theater ts = true ->
  _parse_theater_page html url dt
  = _simplify_theater (selected (target_slug_of url) ts).
Proof.
  intros Z F T N W. unfold _parse_theater_page. rewrite Z.
  rewrite (fetch_theater_via_api_selected _ _ _ _ _ F T N W).
  destruct (_simplify_theater (selected (target_slug_of url) ts)) as [d|e] eqn:S;
    [|reflexivity].
  cbn [bind]. rewrite (simplify_theater_truthy _ _ S). reflexivity.
Qed.

(** A run of [p] followed by a character outside [p]: the star takes the
    whole run when the continuation accepts it. *)
Lemma star_run {A : Type} (p : ascii -> bool) (x rest : string) :
  forall (k : string -> string -> option A) (a : A),
    all_chars p x = true ->
    (forall c, first_char rest = Some c -> p c = false) ->
    k x rest = Some a ->
    star p (x ++ rest) k = Some a.
Proof.
  induction x as [|c x IH]; intros k a P R K.
  - cbn [append]. destruct rest as [|c r]; [exact K|].
    cbn [star]. rewrite (R c eq_refl). exact K.
  - cbn [all_chars] in P. apply andb_prop in P. destruct P as [Pc Px].
    cbn [append star]. rewrite Pc.
    rewrite (IH (fun t r => k (String c t) r) a Px R K). reflexivity.
Qed.

Lemma search_skip (n : nat) (r : regex) (c : ascii) (s : string) :
  match_at n r (String c s) = None ->
  search_from n r (String c s) = search_from n r s.
Proof. intros H. cbn [search_from]. rewrite H. reflexivity. Qed.

Lemma slug_match_at (n : nat) (id tail : string) :
  all_chars slug_char id = true -> id <> EmptyString ->
  exists t,
    match_at n slug_regex ("/" ++ id ++ "/theater-page" ++ tail)
    = Some (MkMatch t [id]).
Proof.
  intros A N. destruct id as [|c id]; [contradiction|].
  cbn [all_chars] in A. apply andb_prop in A. destruct A as [Pc Pid].
  unfold match_at, slug_regex, seq, plus. cbn [fold_right append].
  cbn [rmatch]. rewrite rmatch_chr. cbv beta. rewrite Pc.
  eexists.
  erewrite star_run; [reflexivity | exact Pid | |].
  - intros d [= <-]. reflexivity.
  - cbn. reflexivity.
Qed.

Lemma append_assoc (a b c : string) : (a ++ b) ++ c = a ++ b ++ c.
Proof. induction a as [|x a IH]; simpl; [reflexivity | rewrite IH; reflexivity]. Qed.

(** The slug the lookup searches for is the requested identifier, in lower
    case. *)
Lemma target_slug_of_identifier (id dt : string) :
  all_chars slug_char id = true -> id <> EmptyString ->
  startswith "http" id = false -> id <> "theater-page" ->
  target_slug_of (theater_url_of id dt) = lower id.
Proof.
  intros A N H T. unfold theater_url_of, target_slug_of, re_search.
  rewrite (theater_path_slug id A H T).
  generalize (String.length
                (FANDANGO_BASE ++ ("/" ++ id ++ "/theater-page") ++ "?date=" ++ dt)).
  intros n.
  replace (FANDANGO_BASE ++ ("/" ++ id ++ "/theater-page") ++ "?date=" ++ dt)
    with ("https://www.fandango.com"
            ++ ("/" ++ id ++ "/theater-page" ++ "?date=" ++ dt)).
  2:{ unfold FANDANGO_BASE. f_equal. cbn [append]. f_equal.
      rewrite append_assoc. reflexivity. }
  cbn [append].
  do 24 (rewrite search_skip by reflexivity).
  destruct (slug_match_at n id ("?date=" ++ dt) A N) as [t M].
  cbn [append] in M. cbn [search_from]. rewrite M. reflexivity.
Qed.

(** C8.  Once the theater page is fetched: when a postal code is found on
    it and the location query for that code answers with a non-empty list
    of well-formed theaters, the operation returns the simplified form of
    the first theater whose detail URL, taken whole and in lower case (its
    ending /theater-page included, not its slug alone), contains the slug
    taken from the requested URL, or of the first theater of the list when
    none does; when no postal code is found, it returns the record read off
    the page with the message that points to [get_showtimes].  For an
    identifier made of slug characters the slug searched for is the
    identifier itself, in lower case. *)
Theorem theater_lookup_two_steps
        (theater_id : string) (date : option string) (html : string) :
  let dt := request_date date in
  let url := theater_url_of theater_id dt in
  http_get_html url = Ok html ->
  (forall m payload ts,
      find_zip html = Some m ->
      http_get_json FANDANGO_API (zip_params (group1 m) dt) = Ok (JObj payload) ->
      dict_get "theaters" payload = Some (JArr ts) ->
      ts <> [] ->
      forallb listed_theater ts = true ->
      get_theater_showtimes theater_id date
      = _simplify_theater (selected (target_slug_of url) ts))
  /\ (find_zip html = None ->
      get_theater_showtimes theater_id date
      = Ok (JObj (dict_set "message" dynamic_message (theater_record html url dt)))
      /\ dict_get "message"
                  (dict_set "message" dynamic_message (theater_record html url dt))
         = Some dynamic_message)
  /\ (all_chars slug_char theater_id = true -> theater_id <> EmptyString ->
      startswith "http" theater_id = false -> theater_id <> "theater-page" ->
      target_slug_of url = lower theater_id).
Proof.
  intros dt url F. repeat split.
  - intros m payload ts Z J T N W.
    rewrite get_theater_showtimes_request. cbv zeta. fold dt. fold url.
    rewrite F. eapply parse_theater_page_selected; eassumption.
  - rewrite get_theater_showtimes_request. cbv zeta. fold dt. fold url.
    rewrite F. unfold _parse_theater_page. rewrite H. reflexivity.
  - apply dict_get_set_same.
  - intros A N H T. apply target_slug_of_identifier; assumption.
Qed.

(** ** C6: the structured-data pass of the movie page *)

Lemma ld_step_passed_over (script : tag) (res : dict) :
  passed_over script = true -> ld_step script res = (res, false).
Proof.
  unfold passed_over, ld_step.
  destruct (load_script script) as [[]|]; try reflexivity.
  destruct (eq_str (get_or fields0 "@type" JNull) "Movie"); [discriminate | reflexivity].
Qed.

Lemma ld_loop_passed_over (before rest : list tag) (res : dict) :
  forallb passed_over before = true ->
  ld_loop (before ++ rest)%list res = ld_loop rest res.
Proof.
  induction before as [|s before IH]; intros P; [reflexivity|].
  cbn [forallb] in P. apply andb_prop in P. destruct P as [Ps Pb].
  cbn [app ld_loop]. rewrite (ld_step_passed_over s res Ps). apply IH, Pb.
Qed.

Lemma get_override_other (ld : dict) (key out k : string) (res : dict) :
  String.eqb k out = false ->
  dict_get k (override ld key out res) = dict_get k res.
Proof.
  intros N. unfold override.
  destruct (truthy (get_or ld key JNull)); [|reflexivity].
  apply dict_get_set_other, N.
Qed.

Lemma get_override_same (ld : dict) (key out : string) (res : dict) :
  truthy (get_or ld key JNull) = true ->
  dict_get out (override ld key out res) = Some (get_or ld key JNull).
Proof.
  intros T. unfold override. rewrite T. apply dict_get_set_same.
Qed.

Lemma get_override (ld : dict) (key out k : string) (res : dict) :
  dict_get k (override ld key out res) =
  if String.eqb k out && truthy (get_or ld key JNull)
  then Some (get_or ld key JNull)
  else dict_get k res.
Proof.
  unfold override. destruct (truthy (get_or ld key JNull)).
  - destruct (String.eqb k out) eqn:E; cbn [andb].
    + apply String.eqb_eq in E. subst k. apply dict_get_set_same.
    + apply dict_get_set_other, E.
  - rewrite andb_false_r. reflexivity.
Qed.

Lemma strings_of_map (names : list string) :
  strings_of (map JStr names) = Ok names.
Proof.
  induction names as [|n names IH]; [reflexivity|].
  cbn [map strings_of]. rewrite IH. reflexivity.
Qed.

Lemma map_JStr_inj (a b : list string) : map JStr a = map JStr b -> a = b.
Proof.
  revert b. induction a as [|x a IH]; intros [|y b] H; try discriminate;
    [reflexivity|].
  injection H as -> H. f_equal. apply IH, H.
Qed.

Lemma strings_of_ok (l : list json) :
  forallb is_str l = true -> exists names, strings_of l = Ok names /\ l = map JStr names.
Proof.
  induction l as [|x l IH]; intros H.
  - exists []. split; reflexivity.
  - cbn [forallb] in H. apply andb_prop in H. destruct H as [Hx Hl].
    destruct x; try discriminate Hx. destruct (IH Hl) as (names & E & ->).
    exists (s :: names). cbn [strings_of map]. rewrite E. split; reflexivity.
Qed.

Lemma override_director_ok (ld res : dict) :
  director_ok ld = true ->
  exists res',
    override_director ld res = Ok res'
    /\ (forall k, String.eqb k "director" = false -> dict_get k res' = dict_get k res)
    /\ (forall l names,
           get_or ld "director" JNull = JArr l -> l <> [] ->
           names_of l = map JStr names ->
           dict_get "director" res' = Some (JStr (join ", " names))).
Proof.
  unfold director_ok, override_director. intros D.
  destruct (get_or ld "director" JNull) as [| | | | |l|d] eqn:G;
    try (exists res; split; [destruct (truthy _); reflexivity |];
         split; [reflexivity | discriminate]).
  - destruct l as [|x l].
    + exists res. split; [reflexivity|]. split; [reflexivity|].
      intros l names [= <-] N. contradiction.
    + cbn [truthy]. destruct (strings_of_ok _ D) as (names & E & M).
      rewrite E. cbn [bind]. eexists. split; [reflexivity|]. split.
      * intros k N. apply dict_get_set_other, N.
      * intros l' names' [= <-] _ M'. rewrite dict_get_set_same.
        rewrite M in M'. rewrite (map_JStr_inj _ _ M'). reflexivity.
  - destruct d as [|kv d].
    + exists res. split; [reflexivity|]. split; [reflexivity | discriminate].
    + cbn [truthy]. eexists. split; [reflexivity|]. split.
      * intros k N. apply dict_get_set_other, N.
      * discriminate.
Qed.

Lemma override_cast_ok (ld res : dict) :
  actor_ok ld = true ->
  exists res',
    override_cast ld res = Ok res'
    /\ (forall k, String.eqb k "cast" = false -> dict_get k res' = dict_get k res)
    /\ (forall l, get_or ld "actor" JNull = JArr l -> l <> [] ->
                  dict_get "cast" res' = Some (JArr (names_of l))).
Proof.
  unfold actor_ok, override_cast. intros D.
  destruct (get_or ld "actor" JNull) as [|b|n|f|s|l|d] eqn:G; cbn [truthy].
  - exists res. split; [reflexivity|]. split; [reflexivity | discriminate].
  - rewrite negb_true_iff in D. rewrite D.
    exists res. split; [reflexivity|]. split; [reflexivity | discriminate].
  - rewrite D. exists res. split; [reflexivity|]. split; [reflexivity | discriminate].
  - rewrite D. exists res. split; [reflexivity|]. split; [reflexivity | discriminate].
  - destruct (negb (String.eqb s EmptyString)); cbn [py_iter bind];
      eexists; (split; [reflexivity|]); (split; [|discriminate]);
      [intros k N; apply dict_get_set_other, N | reflexivity].
  - destruct l as [|x l]; cbn [py_iter bind].
    + exists res. split; [reflexivity|]. split; [reflexivity|].
      intros l [= <-] N. contradiction.
    + eexists. split; [reflexivity|]. split.
      * intros k N. apply dict_get_set_other, N.
      * intros l' [= <-] _. apply dict_get_set_same.
  - destruct d as [|kv d]; cbn [py_iter bind];
      eexists; (split; [reflexivity|]); (split; [|discriminate]);
      [reflexivity | intros k N; apply dict_get_set_other, N].
Qed.

(** What a usable Movie block leaves in the result. *)
Lemma apply_movie_ok (ld res : dict) :
  director_ok ld = true -> actor_ok ld = true ->
  exists res',
    apply_movie ld res = (res', Ok tt)
    /\ dict_get "title" res' = Some (get_or ld "name" (get_or res "title" JNull))
    /\ (forall key out, In (key, out) overridden ->
                        dict_get out res' =
                        if truthy (get_or ld key JNull)
                        then Some (get_or ld key JNull)
                        else dict_get out res)
    /\ (forall l, get_or ld "genre" JNull = JArr l -> l <> [] ->
                  dict_get "genres" res' = Some (JArr l))
    /\ (forall l names,
           get_or ld "director" JNull = JArr l -> l <> [] ->
           names_of l = map JStr names ->
           dict_get "director" res' = Some (JStr (join ", " names)))
    /\ (forall l, get_or ld "actor" JNull = JArr l -> l <> [] ->
                  dict_get "cast" res' = Some (JArr (names_of l)))
    /\ dict_get "url" res' = dict_get "url" res.
Proof.
  intros D A. unfold apply_movie.
  set (r1 := dict_set "title" (get_or ld "name" (get_or res "title" JNull)) res).
  set (r2 := override ld "description" "synopsis" r1).
  set (r3 := override ld "duration" "runtime" r2).
  set (r4 := override ld "contentRating" "rating" r3).
  set (r5 := if truthy (get_or ld "genre" JNull)
             then dict_set "genres"
                           (if is_list (get_or ld "genre" JNull)
                            then get_or ld "genre" JNull
                            else JArr [get_or ld "genre" JNull]) r4
             else r4).
  set (r6 := override ld "image" "poster" r5).
  set (r7 := override ld "datePublished" "release_date" r6).
  destruct (override_director_ok ld r7 D) as (r8 & E8 & O8 & D8).
  destruct (override_cast_ok ld r8 A) as (r9 & E9 & O9 & C9).
  rewrite E8, E9. exists r9. split; [reflexivity|].
  assert (G5 : forall k, String.eqb k "genres" = false -> dict_get k r5 = dict_get k r4).
  { intros k N. unfold r5. destruct (truthy (get_or ld "genre" JNull)); [|reflexivity].
    apply dict_get_set_other, N. }
  repeat split.
  - rewrite O9, O8 by reflexivity. unfold r7, r6.
    rewrite !get_override_other by reflexivity. rewrite G5 by reflexivity.
    unfold r4, r3, r2. rewrite !get_override_other by reflexivity.
    apply dict_get_set_same.
  - intros key out I. unfold overridden in I. cbn [In] in I.
    destruct I as [I|[I|[I|[I|[I|[]]]]]]; injection I as <- <-;
      rewrite O9, O8 by reflexivity;
      unfold r7, r6; rewrite ?get_override; rewrite ?G5 by reflexivity;
      unfold r4, r3, r2; rewrite ?get_override;
      cbn [String.eqb Ascii.eqb Bool.eqb andb];
      destruct (truthy (get_or ld _ JNull)); try reflexivity;
      unfold r1; rewrite dict_get_set_other by reflexivity; reflexivity.
  - intros l G N. rewrite O9, O8 by reflexivity. unfold r7, r6.
    rewrite !get_override_other by reflexivity. unfold r5. rewrite G.
    destruct l as [|x l]; [contradiction|]. cbn [truthy is_list].
    apply dict_get_set_same.
  - intros l names G N M. rewrite O9 by reflexivity. eapply D8; eassumption.
  - exact C9.
  - rewrite O9, O8 by reflexivity. unfold r7, r6.
    rewrite !get_override_other by reflexivity. rewrite G5 by reflexivity.
    unfold r4, r3, r2. rewrite !get_override_other by reflexivity.
    apply dict_get_set_other. reflexivity.
Qed.

Lemma fold_left_join (sep : string) (rest : list string) :
  forall a b,
    fold_left (fun so_far x => so_far ++ sep ++ x) rest (a ++ b)
    = a ++ fold_left (fun so_far x => so_far ++ sep ++ x) rest b.
Proof.
  induction rest as [|x rest IH]; intros a b; [reflexivity|].
  cbn [fold_left]. rewrite <- IH. f_equal.
  induction a as [|c a IHa]; [reflexivity|]. cbn [append]. rewrite IHa. reflexivity.
Qed.

(** [join] puts the separator between the names and nowhere else. *)
Lemma join_comma (names : list string) :
  join ", " names = comma_joined names.
Proof.
  destruct names as [|n rest]; [reflexivity|]. unfold comma_joined.
  revert n. induction rest as [|x rest IH]; intros n; [reflexivity|].
  cbn [fold_left]. rewrite <- append_assoc, fold_left_join, <- IH.
  rewrite append_assoc. reflexivity.
Qed.

Lemma strings_of_fails (l : list json) :
  forallb is_str l = false -> strings_of l = Raise TypeError.
Proof.
  induction l as [|x l IH]; intros H; [discriminate H|].
  cbn [forallb] in H. destruct x; try reflexivity.
  cbn [is_str andb] in H. cbn [strings_of]. rewrite (IH H). reflexivity.
Qed.

(** What a Movie block that is not usable leaves: the body raises at the
    directors or at the cast, and the fields before them are written. *)
Lemma apply_movie_fails (ld res : dict) :
  director_ok ld && actor_ok ld = false ->
  exists res',
    apply_movie ld res = (res', Raise TypeError)
    /\ dict_get "title" res' = Some (get_or ld "name" (get_or res "title" JNull))
    /\ (forall key out, In (key, out) overridden ->
                        dict_get out res' =
                        if truthy (get_or ld key JNull)
                        then Some (get_or ld key JNull)
                        else dict_get out res)
    /\ dict_get "cast" res' = dict_get "cast" res
    /\ (director_ok ld = false -> dict_get "director" res' = dict_get "director" res).
Proof.
  intros F. unfold apply_movie.
  set (r1 := dict_set "title" (get_or ld "name" (get_or res "title" JNull)) res).
  set (r2 := override ld "description" "synopsis" r1).
  set (r3 := override ld "duration" "runtime" r2).
  set (r4 := override ld "contentRating" "rating" r3).
  set (r5 := (let genre := get_or ld "genre" JNull in
              if truthy genre
              then dict_set "genres" (if is_list genre then genre else JArr [genre]) r4
              else r4)).
  set (r6 := override ld "image" "poster" r5).
  set (r7 := override ld "datePublished" "release_date" r6).
  assert (G5 : forall k, String.eqb k "genres" = false -> dict_get k r5 = dict_get k r4).
  { intros k N. unfold r5. cbv zeta.
    destruct (truthy (get_or ld "genre" JNull)); [|reflexivity].
    apply dict_get_set_other, N. }
  assert (T7 : dict_get "title" r7
               = Some (get_or ld "name" (get_or res "title" JNull))).
  { unfold r7, r6. rewrite !get_override_other by reflexivity.
    rewrite G5 by reflexivity. unfold r4, r3, r2.
    rewrite !get_override_other by reflexivity. apply dict_get_set_same. }
  assert (O7 : forall key out, In (key, out) overridden ->
                               dict_get out r7 =
                               if truthy (get_or ld key JNull)
                               then Some (get_or ld key JNull)
                               else dict_get out res).
  { intros key out I. unfold overridden in I. cbn [In] in I.
    destruct I as [I|[I|[I|[I|[I|[]]]]]]; injection I as <- <-;
      unfold r7, r6; rewrite ?get_override; rewrite ?G5 by reflexivity;
      unfold r4, r3, r2; rewrite ?get_override;
      cbn [String.eqb Ascii.eqb Bool.eqb andb];
      destruct (truthy (get_or ld _ JNull)); try reflexivity;
      unfold r1; rewrite dict_get_set_other by reflexivity; reflexivity. }
  assert (K7 : forall k, String.eqb k "title" = false ->
                         String.eqb k "synopsis" = false ->
                         String.eqb k "runtime" = false ->
                         String.eqb k "rating" = false ->
                         String.eqb k "genres" = false ->
                         String.eqb k "poster" = false ->
                         String.eqb k "release_date" = false ->
                         dict_get k r7 = dict_get k res).
  { intros k ? ? ? ? ? ? ?. unfold r7, r6. rewrite !get_override_other by assumption.
    rewrite G5 by assumption. unfold r4, r3, r2.
    rewrite !get_override_other by assumption.
    apply dict_get_set_other. assumption. }
  destruct (director_ok ld) eqn:D.
  - cbn [andb] in F.
    destruct (override_director_ok ld r7 D) as (r8 & E8 & O8 & _). rewrite E8.
    assert (E9 : override_cast ld r8 = Raise TypeError).
    { unfold actor_ok in F. unfold override_cast.
      destruct (get_or ld "actor" JNull) as [|b|n|f|s|l|d]; try discriminate F;
        cbn [truthy].
      - apply negb_false_iff in F. rewrite F. reflexivity.
      - rewrite F. reflexivity.
      - rewrite F. reflexivity. }
    rewrite E9. exists r8. split; [reflexivity|]. split; [|split; [|split]].
    + rewrite O8 by reflexivity. exact T7.
    + intros key out I. rewrite O8; [apply O7, I|].
      unfold overridden in I. cbn [In] in I.
      destruct I as [I|[I|[I|[I|[I|[]]]]]]; injection I as <- <-; reflexivity.
    + rewrite O8 by reflexivity. apply K7; reflexivity.
    + discriminate.
  - assert (E8 : override_director ld r7 = Raise TypeError).
    { unfold director_ok in D. unfold override_director.
      destruct (get_or ld "director" JNull) as [| | | | |l|d]; try discriminate D.
      destruct l as [|x l]; [discriminate D|]. cbn [truthy].
      rewrite (strings_of_fails _ D). reflexivity. }
    rewrite E8. exists r7. split; [reflexivity|]. split; [exact T7|].
    split; [exact O7|]. split; [apply K7; reflexivity|].
    intros _. apply K7; reflexivity.
Qed.

Lemma selector_pass_has_url (html url : string) :
  dict_get "url" (selector_pass html url) = Some (JStr url).
Proof.
  unfold selector_pass, set_text, set_texts.
  repeat match goal with
         | |- context [match ?x with _ => _ end] => destruct x
         end;
    repeat (rewrite dict_get_set_other by reflexivity); reflexivity.
Qed.

(** C6.  Take the first structured-data block of the page that loads as an
    object typed Movie; blocks before it that fail to load or are not such
    objects are passed over.  When its people are usable (the names of a
    list of directors are strings, the actors can be iterated over), the
    result of [_parse_movie_page] takes from that block, over whatever the
    selectors found: the title (the name of the block, when it has one),
    every non-empty description, duration, contentRating, image and
    datePublished, the genre list, the names of a list of directors with a
    comma and a space between them, and the names of the actors; a field
    the block leaves empty keeps the selectors' value; and no later block
    is read.  When its people are not usable, the body raises and is not
    undone: the title and the other fields before the directors are
    written as above, the cast is not written (nor the director, when it
    is the directors that are not usable), and the blocks after it are
    tried on the result so far. *)
Theorem movie_block_overrides
        (html url : string) (before : list tag) (script : tag)
        (after : list tag) (ld : dict) :
  soup_select html ld_selector = (before ++ script :: after)%list ->
  forallb passed_over before = true ->
  load_script script = Ok (JObj ld) ->
  eq_str (get_or ld "@type" JNull) "Movie" = true ->
  (director_ok ld = true -> actor_ok ld = true ->
   exists res,
     _parse_movie_page html url = JObj res
     /\ dict_get "title" res
        = Some (get_or ld "name" (get_or (selector_pass html url) "title" JNull))
     /\ (forall key out,
            In (key, out) overridden ->
            dict_get out res =
            if truthy (get_or ld key JNull)
            then Some (get_or ld key JNull)
            else dict_get out (selector_pass html url))
     /\ (forall l, get_or ld "genre" JNull = JArr l -> l <> [] ->
                   dict_get "genres" res = Some (JArr l))
     /\ (forall l names,
            get_or ld "director" JNull = JArr l -> l <> [] ->
            names_of l = map JStr names ->
            dict_get "director" res = Some (JStr (comma_joined names)))
     /\ (forall l, get_or ld "actor" JNull = JArr l -> l <> [] ->
                   dict_get "cast" res = Some (JArr (names_of l)))
     /\ dict_get "url" res = Some (JStr url))
  /\ (director_ok ld && actor_ok ld = false ->
      exists res',
        _parse_movie_page html url = JObj (ld_loop after res')
        /\ dict_get "title" res'
           = Some (get_or ld "name" (get_or (selector_pass html url) "title" JNull))
        /\ (forall key out,
               In (key, out) overridden ->
               dict_get out res' =
               if truthy (get_or ld key JNull)
               then Some (get_or ld key JNull)
               else dict_get out (selector_pass html url))
        /\ dict_get "cast" res' = dict_get "cast" (selector_pass html url)
        /\ (director_ok ld = false ->
            dict_get "director" res' = dict_get "director" (selector_pass html url))).
Proof.
  intros S P L T. unfold _parse_movie_page.
  rewrite S, (ld_loop_passed_over _ _ _ P). cbn [ld_loop].
  unfold ld_step. rewrite L, T. split.
  - intros D A.
    destruct (apply_movie_ok ld (selector_pass html url) D A)
      as (res & E & Ht & Ho & Hg & Hd & Hc & Hu).
    rewrite E. exists res. repeat split; try assumption.
    + intros l names G N M. rewrite <- join_comma. exact (Hd l names G N M).
    + rewrite Hu. apply selector_pass_has_url.
  - intros F.
    destruct (apply_movie_fails ld (selector_pass html url) F)
      as (res' & E & Ht & Ho & Hc & Hd).
    rewrite E. exists res'. repeat split; assumption.
Qed.

(** ** Further properties of the normalisers *)

Lemma all_chars_app (p : ascii -> bool) (a b : string) :
  all_chars p (a ++ b) = all_chars p a && all_chars p b.
Proof.
  induction a as [|c a IH]; simpl; [reflexivity|].
  rewrite IH, andb_assoc. reflexivity.
Qed.

Lemma mem_char_app (c : ascii) (a b : string) :
  mem_char c (a ++ b) = mem_char c a || mem_char c b.
Proof.
  induction a as [|d a IH]; simpl; [reflexivity|].
  rewrite IH, orb_assoc. reflexivity.
Qed.

Lemma mem_char_strip (c : ascii) (s : string) :
  mem_char c s = false -> mem_char c (strip s) = false.
Proof.
  destruct (strip_split s) as (l & r & E & _ & _). intros H.
  rewrite E, !mem_char_app in H.
  apply orb_false_elim in H. destruct H as [_ H].
  apply orb_false_elim in H. exact (proj1 H).
Qed.

Lemma lstrip_by_pad (p : ascii -> bool) (l s : string) :
  all_chars p l = true -> lstrip_by p (l ++ s) = lstrip_by p s.
Proof.
  induction l as [|c l IH]; intros H; [reflexivity|].
  simpl in H. apply andb_prop in H. destruct H as [Pc Pl].
  simpl. rewrite Pc. apply IH, Pl.
Qed.

Lemma rstrip_by_all (p : ascii -> bool) (r : string) :
  all_chars p r = true -> rstrip_by p r = EmptyString.
Proof.
  induction r as [|c r IH]; intros H; [reflexivity|].
  simpl in H. apply andb_prop in H. destruct H as [Pc Pr].
  simpl. rewrite (IH Pr), Pc. reflexivity.
Qed.

Lemma rstrip_by_pad (p : ascii -> bool) (s r : string) :
  all_chars p r = true -> rstrip_by p (s ++ r) = rstrip_by p s.
Proof.
  intros H. induction s as [|c s IH]; [apply rstrip_by_all, H|].
  cbn [append rstrip_by]. rewrite IH. reflexivity.
Qed.

(** White space around a trimmed, non-empty string is what [strip] takes
    away. *)
Lemma strip_pad (l s r : string) :
  all_chars isspace l = true -> all_chars isspace r = true ->
  trimmed s -> strip (l ++ s ++ r) = s.
Proof.
  intros Hl Hr [Tf Tl]. unfold strip.
  rewrite (lstrip_by_pad _ _ _ Hl).
  destruct s as [|c s].
  - cbn [append]. destruct (lstrip_by_split isspace r) as (l' & E & _).
    assert (A : all_chars isspace (lstrip_by isspace r) = true).
    { rewrite E, all_chars_app in Hr. apply andb_prop in Hr. exact (proj2 Hr). }
    apply rstrip_by_all, A.
  - rewrite lstrip_by_id.
    + rewrite (rstrip_by_pad _ _ _ Hr). apply rstrip_by_id, Tl.
    + intros d [= <-]. apply Tf. reflexivity.
Qed.

Lemma zip_form_trimmed (z : string) : zip_form z = true -> trimmed z.
Proof.
  unfold zip_form. intros H.
  apply andb_prop in H. destruct H as [H R].
  apply andb_prop in H. destruct H as [L D].
  do 5 (destruct z as [|? z]; [discriminate L|]).
  cbn [take all_digits] in D. cbn [drop] in R.
  repeat match type of D with
         | (_ && _) = true => apply andb_prop in D; destruct D as [? D]
         end.
  split.
  - intros c [= <-]. apply isdigit_not_space. assumption.
  - intros c Hc. apply orb_prop in R. destruct R as [R|R].
    + apply String.eqb_eq in R. subst z. injection Hc as <-.
      apply isdigit_not_space. assumption.
    + apply andb_prop in R. destruct R as [R D4].
      apply andb_prop in R. destruct R as [P L5].
      do 5 (destruct z as [|? z]; [discriminate L5|]).
      destruct z; [|discriminate L5].
      cbn [drop all_digits] in D4.
      repeat match type of D4 with
             | (_ && _) = true => apply andb_prop in D4; destruct D4 as [? D4]
             end.
      injection Hc as <-. apply isdigit_not_space. assumption.
Qed.

(** X1.  A ZIP code comes back as typed, whatever white space surrounds it:
    for every string of the ZIP form and every pair of white-space pads,
    [_parse_location] returns the single parameter zipCode with the ZIP
    itself. *)
Theorem parse_location_zip_padded (z l r : string) :
  zip_form z = true ->
  all_chars isspace l = true -> all_chars isspace r = true ->
  _parse_location (l ++ z ++ r) = Ok [("zipCode", JStr z)].
Proof.
  intros Z Hl Hr. rewrite parse_location_classification.
  rewrite (strip_pad l z r Hl Hr (zip_form_trimmed z Z)), Z. reflexivity.
Qed.

(** X2.  Whatever the input, the values [_parse_location] returns carry no
    white space at either end, and outside the ZIP case the city has no
    comma: the split is at the first comma, and later commas stay in the
    state. *)
Theorem parse_location_values (location : string) :
  exists params,
    _parse_location location = Ok params
    /\ Forall (fun kv => exists s, snd kv = JStr s /\ trimmed s) params
    /\ (forall city, dict_get "city" params = Some (JStr city) ->
                     mem_char "," city = false).
Proof.
  rewrite parse_location_classification. eexists. split; [reflexivity|].
  destruct (zip_form (strip location)).
  - split.
    + repeat constructor. eexists. split; [reflexivity | apply strip_trimmed].
    + cbn. discriminate.
  - destruct (cut "," (strip location)) as [[city state]|] eqn:E.
    + split.
      * repeat constructor; eexists; (split; [reflexivity | apply strip_trimmed]).
      * cbn. intros c [= <-]. apply mem_char_strip.
        exact (cut_char_first "," _ _ _ E).
    + split.
      * repeat constructor; eexists; (split; [reflexivity|]);
          [apply strip_trimmed | split; discriminate].
      * cbn. intros c [= <-].
        assert (C : contains "," (strip location) = false)
          by (rewrite contains_cut, E; reflexivity).
        clear E. induction (strip location) as [|a s IH]; [reflexivity|].
        cbn [contains prefix] in C. cbn [mem_char].
        destruct (Ascii.ascii_dec "," a) as [<-|N].
        -- rewrite prefix_empty in C. discriminate.
        -- cbn [orb] in C. rewrite (IH C).
           destruct (Ascii.eqb "," a) eqn:Q; [|reflexivity].
           apply Ascii.eqb_eq in Q. contradiction.
Qed.

Lemma prefix_app_l (p : string) : forall s x,
  prefix p s = true -> prefix p (s ++ x) = true.
Proof.
  induction p as [|a p IH]; intros s x H; [apply prefix_empty|].
  destruct s as [|b s]; [discriminate H|].
  simpl in *. destruct (Ascii.ascii_dec a b); [apply IH, H | discriminate H].
Qed.

Lemma endswith_last (suf s : string) (c : ascii) :
  endswith suf s = true -> last_char suf = Some c -> last_char s = Some c.
Proof.
  intros E L. induction s as [|a s IH].
  - cbn [endswith] in E. rewrite orb_false_r in E.
    apply String.eqb_eq in E. subst suf. cbn in L. discriminate L.
  - cbn [endswith] in E. apply orb_prop in E. destruct E as [E|E].
    + apply String.eqb_eq in E. rewrite E. exact L.
    + specialize (IH E). cbn [last_char]. destruct s; [discriminate IH | exact IH].
Qed.

(** X3.  Whatever the identifier, the theater path starts with a slash and
    ends with /theater-page, and it is a fixed point of the normalisation:
    a path the function has produced is returned unchanged. *)
Theorem theater_path_normal_form (theater_id : string) :
  startswith "/" (theater_path theater_id) = true
  /\ endswith "/theater-page" (theater_path theater_id) = true
  /\ theater_path (theater_path theater_id) = theater_path theater_id.
Proof.
  assert (S : startswith "/" (theater_path theater_id) = true
              /\ endswith "/theater-page" (theater_path theater_id) = true).
  { unfold theater_path.
    set (s0 := rstrip_chars "/" (strip theater_id)).
    set (s1 := if startswith "http" s0
               then last (split1 "fandango.com" s0) EmptyString else s0).
    set (s2 := if negb (startswith "/" s1) then "/" ++ s1 else s1).
    assert (P : startswith "/" s2 = true).
    { unfold s2. destruct (startswith "/" s1) eqn:E; [exact E|].
      cbn [negb]. unfold startswith. apply (prefix_app "/" s1). }
    destruct (endswith "/theater-page" s2) eqn:E; cbn [negb].
    - split; assumption.
    - split; [apply prefix_app_l, P | apply endswith_app]. }
  destruct S as [P E]. split; [exact P|]. split; [exact E|].
  remember (theater_path theater_id) as p eqn:Hp. clear Hp.
  assert (F : exists rest, p = String "/" rest).
  { unfold startswith in P. destruct p as [|a rest]; [cbn in P; discriminate P|].
    cbn [prefix] in P. destruct (Ascii.ascii_dec "/" a) as [<-|]; [|discriminate P].
    exists rest. reflexivity. }
  destruct F as [rest F].
  assert (L : last_char p = Some "e"%char)
    by (apply (endswith_last "/theater-page" p "e" E); reflexivity).
  assert (T : trimmed p).
  { split; intros c H.
    - rewrite F in H. injection H as <-. reflexivity.
    - rewrite L in H. injection H as <-. reflexivity. }
  unfold theater_path at 1.
  rewrite (strip_id p T). unfold rstrip_chars. rewrite rstrip_by_id.
  2:{ intros c H. rewrite L in H. injection H as <-. reflexivity. }
  replace (startswith "http" p) with false by (rewrite F; reflexivity).
  rewrite P. cbn [negb]. rewrite E. reflexivity.
Qed.

(** X4.  The movie path starts with a slash and holds one of the two page
    suffixes, whatever the identifier. *)
Theorem movie_path_shape (movie_url : string) :
  startswith "/" (movie_path movie_url) = true
  /\ (contains "/movie-overview" (movie_path movie_url) = true
      \/ contains "/movie-times" (movie_path movie_url) = true).
Proof.
  unfold movie_path.
  set (s0 := rstrip_chars "/" (strip movie_url)).
  set (s1 := if startswith "http" s0
             then last (split1 "fandango.com" s0) EmptyString else s0).
  set (s2 := if negb (startswith "/" s1) then "/" ++ s1 else s1).
  assert (P : startswith "/" s2 = true).
  { unfold s2. destruct (startswith "/" s1) eqn:E; [exact E|].
    cbn [negb]. unfold startswith. apply (prefix_app "/" s1). }
  destruct (contains "/movie-overview" s2) eqn:O; cbn [negb andb].
  - split; [exact P | left; exact O].
  - destruct (contains "/movie-times" s2) eqn:T; cbn [negb].
    + split; [exact P | right; exact T].
    + split; [apply prefix_app_l, P|]. left.
      replace (s2 ++ "/movie-overview")
        with (s2 ++ "/movie-overview" ++ EmptyString) by reflexivity.
      apply contains_app.
Qed.

(** ** C7: identifiers as paths *)

Ltac norm_app := repeat rewrite append_assoc; cbn [append]; repeat rewrite append_assoc.

Lemma slashes_last (t : string) (c : ascii) :
  all_chars (Ascii.eqb "/") t = true -> last_char t = Some c -> c = "/"%char.
Proof.
  intros A L. pose proof (all_chars_last _ _ _ A L) as E.
  apply Ascii.eqb_eq in E. symmetry. exact E.
Qed.

Lemma slashes_mem (t : string) :
  all_chars (Ascii.eqb "/") t = true -> all_chars (fun c => mem_char c "/") t = true.
Proof.
  induction t as [|c t IH]; [reflexivity|]. cbn [all_chars]. intros A.
  apply andb_prop in A. destruct A as [Ac At].
  rewrite (IH At), andb_true_r. cbn [mem_char].
  rewrite Ascii.eqb_sym, Ac. reflexivity.
Qed.

Lemma first_char_app (a b : string) (c : ascii) :
  first_char a = Some c -> first_char (a ++ b) = Some c.
Proof. destruct a; [discriminate | exact (fun H => H)]. Qed.

(** The first two steps on an input with white space around it and slashes
    at its end: what is left is the body between them. *)
Lemma padded_input (l body t r : string) (a z : ascii) :
  first_char body = Some a -> isspace a = false ->
  last_char body = Some z -> isspace z = false -> z <> "/"%char ->
  all_chars isspace l = true -> all_chars isspace r = true ->
  all_chars (Ascii.eqb "/") t = true ->
  rstrip_chars "/" (strip (l ++ body ++ t ++ r)) = body.
Proof.
  intros Fa Sa Lz Sz Nz Hl Hr Ht.
  assert (T : trimmed (body ++ t)).
  { split; intros c H.
    - rewrite (first_char_app _ _ _ Fa) in H. injection H as <-. exact Sa.
    - destruct t as [|x t].
      + assert (E : body ++ EmptyString = body).
        { clear. induction body as [|y b IH]; [reflexivity|].
          cbn [append]. rewrite IH. reflexivity. }
        rewrite E, Lz in H. injection H as <-. exact Sz.
      + rewrite last_char_app in H by discriminate.
        rewrite (slashes_last _ _ Ht H). reflexivity. }
  replace (l ++ body ++ t ++ r) with (l ++ (body ++ t) ++ r)
    by (rewrite (append_assoc body t r); reflexivity).
  rewrite (strip_pad l (body ++ t) r Hl Hr T).
  unfold rstrip_chars. rewrite (rstrip_by_pad _ body t (slashes_mem t Ht)).
  apply rstrip_by_id. intros c H. rewrite Lz in H. injection H as <-.
  cbn [mem_char]. rewrite orb_false_r.
  destruct (Ascii.eqb z "/") eqn:E; [|reflexivity].
  apply Ascii.eqb_eq in E. contradiction.
Qed.

Lemma clean_input (body : string) (a z : ascii) :
  first_char body = Some a -> isspace a = false ->
  last_char body = Some z -> isspace z = false -> z <> "/"%char ->
  rstrip_chars "/" (strip body) = body.
Proof.
  intros Fa Sa Lz Sz Nz. rewrite strip_id.
  - apply rstrip_by_id. intros c H. rewrite Lz in H. injection H as <-.
    cbn [mem_char]. rewrite orb_false_r.
    destruct (Ascii.eqb z "/") eqn:E; [|reflexivity].
    apply Ascii.eqb_eq in E. contradiction.
  - split; intros c H; [rewrite Fa in H | rewrite Lz in H];
      injection H as <-; assumption.
Qed.

(** Both normalisers read their input through the first two steps only. *)
Lemma theater_path_padded (l body t r : string) (a z : ascii) :
  first_char body = Some a -> isspace a = false ->
  last_char body = Some z -> isspace z = false -> z <> "/"%char ->
  all_chars isspace l = true -> all_chars isspace r = true ->
  all_chars (Ascii.eqb "/") t = true ->
  theater_path (l ++ body ++ t ++ r) = theater_path body.
Proof.
  intros Fa Sa Lz Sz Nz Hl Hr Ht. unfold theater_path.
  rewrite (padded_input l body t r a z Fa Sa Lz Sz Nz Hl Hr Ht).
  rewrite (clean_input body a z Fa Sa Lz Sz Nz). reflexivity.
Qed.

Lemma movie_path_padded (l body t r : string) (a z : ascii) :
  first_char body = Some a -> isspace a = false ->
  last_char body = Some z -> isspace z = false -> z <> "/"%char ->
  all_chars isspace l = true -> all_chars isspace r = true ->
  all_chars (Ascii.eqb "/") t = true ->
  movie_path (l ++ body ++ t ++ r) = movie_path body.
Proof.
  intros Fa Sa Lz Sz Nz Hl Hr Ht. unfold movie_path.
  rewrite (padded_input l body t r a z Fa Sa Lz Sz Nz Hl Hr Ht).
  rewrite (clean_input body a z Fa Sa Lz Sz Nz). reflexivity.
Qed.

(** A URL to the site is one for the normalisers, and is cut after the
    host. *)
Lemma host_cut (host rest : string) :
  In host site_hosts ->
  startswith "http" (host ++ "/" ++ rest) = true
  /\ last (split1 "fandango.com" (host ++ "/" ++ rest)) EmptyString = "/" ++ rest
  /\ first_char (host ++ "/" ++ rest) = Some "h"%char.
Proof.
  intros H. unfold site_hosts in H. cbn [In] in H.
  destruct H as [<-|[<-|[<-|[<-|[]]]]]; (split; [reflexivity | split; reflexivity]).
Qed.

Lemma last_char_suffix (x suf : string) (c : ascii) :
  last_char suf = Some c -> last_char (x ++ suf) = Some c.
Proof.
  intros L. rewrite last_char_app; [exact L|]. destruct suf; [discriminate L | discriminate].
Qed.

Lemma last_char_cons (s : string) :
  forall a, exists z, last_char (String a s) = Some z.
Proof.
  induction s as [|b s IH]; intros a; [exists a; reflexivity|].
  destruct (IH b) as [z E]. exists z. rewrite <- E. reflexivity.
Qed.

Lemma slug_ends (id : string) :
  all_chars slug_char id = true -> id <> EmptyString ->
  exists a z,
    first_char id = Some a /\ isspace a = false
    /\ last_char id = Some z /\ isspace z = false /\ z <> "/"%char.
Proof.
  intros A N.
  destruct id as [|a id]; [contradiction|].
  destruct (last_char_cons id a) as [z L].
  exists a, z.
  destruct (slug_char_facts a (all_chars_first _ _ _ A eq_refl)) as [Sa _].
  destruct (slug_char_facts z (all_chars_last _ _ _ A L)) as [Sz Nz].
  repeat split; assumption.
Qed.

(** The bodies: a path, and a full URL, with the suffix. *)
Lemma theater_path_of_path (id : string) :
  theater_path ("/" ++ id ++ "/theater-page") = "/" ++ id ++ "/theater-page".
Proof.
  unfold theater_path.
  rewrite (clean_input ("/" ++ id ++ "/theater-page") "/" "e");
    [| reflexivity | reflexivity
     | exact (last_char_suffix (String "/" id) "/theater-page" _ eq_refl)
     | reflexivity | discriminate].
  replace (startswith "http" ("/" ++ id ++ "/theater-page")) with false
    by reflexivity.
  unfold startswith. rewrite prefix_app. cbn [negb].
  change ("/" ++ id ++ "/theater-page") with (("/" ++ id) ++ "/theater-page").
  rewrite endswith_app. reflexivity.
Qed.

Lemma theater_path_of_url (host id : string) :
  In host site_hosts ->
  theater_path (host ++ "/" ++ id ++ "/theater-page") = "/" ++ id ++ "/theater-page".
Proof.
  intros H.
  destruct (host_cut host (id ++ "/theater-page") H) as (Hh & Hc & Hf).
  unfold theater_path.
  rewrite (clean_input (host ++ "/" ++ id ++ "/theater-page") "h" "e");
    [| exact Hf | reflexivity
     | apply last_char_suffix;
       exact (last_char_suffix (String "/" id) "/theater-page" _ eq_refl)
     | reflexivity | discriminate].
  rewrite Hh, Hc.
  unfold startswith. rewrite prefix_app. cbn [negb].
  change ("/" ++ id ++ "/theater-page") with (("/" ++ id) ++ "/theater-page").
  rewrite endswith_app. reflexivity.
Qed.

Lemma movie_path_of_path (id : string) :
  movie_path ("/" ++ id ++ "/movie-overview") = "/" ++ id ++ "/movie-overview".
Proof.
  unfold movie_path.
  rewrite (clean_input ("/" ++ id ++ "/movie-overview") "/" "w");
    [| reflexivity | reflexivity
     | exact (last_char_suffix (String "/" id) "/movie-overview" _ eq_refl)
     | reflexivity | discriminate].
  replace (startswith "http" ("/" ++ id ++ "/movie-overview")) with false
    by reflexivity.
  unfold startswith. rewrite prefix_app. cbn [negb].
  change ("/" ++ id ++ "/movie-overview")
    with (("/" ++ id) ++ "/movie-overview" ++ EmptyString).
  rewrite contains_app. reflexivity.
Qed.

Lemma movie_path_of_url (host id : string) :
  In host site_hosts ->
  movie_path (host ++ "/" ++ id ++ "/movie-overview") = "/" ++ id ++ "/movie-overview".
Proof.
  intros H.
  destruct (host_cut host (id ++ "/movie-overview") H) as (Hh & Hc & Hf).
  unfold movie_path.
  rewrite (clean_input (host ++ "/" ++ id ++ "/movie-overview") "h" "w");
    [| exact Hf | reflexivity
     | apply last_char_suffix;
       exact (last_char_suffix (String "/" id) "/movie-overview" _ eq_refl)
     | reflexivity | discriminate].
  rewrite Hh, Hc.
  unfold startswith. rewrite prefix_app. cbn [negb].
  change ("/" ++ id ++ "/movie-overview")
    with (("/" ++ id) ++ "/movie-overview" ++ EmptyString).
  rewrite contains_app. reflexivity.
Qed.

(** C7.  Take an identifier made of slug characters (letters, digits and
    hyphens), not empty and not starting with http.  Written as a full URL
    to the site (with or without www, over http or https), as a path, or
    as the bare slug, with any white space around it and any number of
    slashes at its end, it normalises to the same path, the slug between
    one slash and the required suffix: for a theater /theater-page (the
    bare slug theater-page apart), for a movie /movie-overview (bare slugs
    that start with movie-overview or movie-times apart).  The
    normalisation does no more than that: it adds a slash only where none
    leads, and the suffix wherever the text does not end with it (for a
    movie: does not contain it), so two leading slashes stay two, and a
    theater URL with a query after the suffix gets the suffix again. *)
Theorem url_and_slug_same_path (id host l t r : string) :
  all_chars slug_char id = true ->
  id <> EmptyString ->
  startswith "http" id = false ->
  In host site_hosts ->
  all_chars isspace l = true -> all_chars isspace r = true ->
  all_chars (Ascii.eqb "/") t = true ->
  (theater_path (l ++ host ++ "/" ++ id ++ "/theater-page" ++ t ++ r)
   = "/" ++ id ++ "/theater-page"
   /\ theater_path (l ++ "/" ++ id ++ "/theater-page" ++ t ++ r)
      = "/" ++ id ++ "/theater-page"
   /\ (id <> "theater-page" ->
       theater_path (l ++ id ++ t ++ r) = "/" ++ id ++ "/theater-page"))
  /\ (movie_path (l ++ host ++ "/" ++ id ++ "/movie-overview" ++ t ++ r)
      = "/" ++ id ++ "/movie-overview"
      /\ movie_path (l ++ "/" ++ id ++ "/movie-overview" ++ t ++ r)
         = "/" ++ id ++ "/movie-overview"
      /\ (startswith "movie-overview" id = false ->
          startswith "movie-times" id = false ->
          movie_path (l ++ id ++ t ++ r) = "/" ++ id ++ "/movie-overview")).
Proof.
  intros A N H Hh Hl Hr Ht.
  destruct (slug_ends id A N) as (a & z & Fa & Sa & Lz & Sz & Nz).
  assert (Fh' : forall rest, first_char (host ++ "/" ++ rest) = Some "h"%char).
  { intros rest. destruct (host_cut host rest Hh) as (_ & _ & F). exact F. }
  split; [split; [|split] | split; [|split]].
  - replace (l ++ host ++ "/" ++ id ++ "/theater-page" ++ t ++ r)
      with (l ++ (host ++ "/" ++ id ++ "/theater-page") ++ t ++ r)
      by (norm_app; reflexivity).
    rewrite (theater_path_padded l _ t r "h" "e");
      [apply theater_path_of_url, Hh | apply Fh' | reflexivity
       | apply last_char_suffix;
         exact (last_char_suffix (String "/" id) "/theater-page" _ eq_refl)
       | reflexivity | discriminate | exact Hl | exact Hr | exact Ht].
  - replace (l ++ "/" ++ id ++ "/theater-page" ++ t ++ r)
      with (l ++ ("/" ++ id ++ "/theater-page") ++ t ++ r)
      by (norm_app; reflexivity).
    rewrite (theater_path_padded l _ t r "/" "e");
      [apply theater_path_of_path | reflexivity | reflexivity
       | exact (last_char_suffix (String "/" id) "/theater-page" _ eq_refl)
       | reflexivity | discriminate | exact Hl | exact Hr | exact Ht].
  - intros Np.
    rewrite (theater_path_padded l id t r a z Fa Sa Lz Sz Nz Hl Hr Ht).
    apply theater_path_slug; assumption.
  - replace (l ++ host ++ "/" ++ id ++ "/movie-overview" ++ t ++ r)
      with (l ++ (host ++ "/" ++ id ++ "/movie-overview") ++ t ++ r)
      by (norm_app; reflexivity).
    rewrite (movie_path_padded l _ t r "h" "w");
      [apply movie_path_of_url, Hh | apply Fh' | reflexivity
       | apply last_char_suffix;
         exact (last_char_suffix (String "/" id) "/movie-overview" _ eq_refl)
       | reflexivity | discriminate | exact Hl | exact Hr | exact Ht].
  - replace (l ++ "/" ++ id ++ "/movie-overview" ++ t ++ r)
      with (l ++ ("/" ++ id ++ "/movie-overview") ++ t ++ r)
      by (norm_app; reflexivity).
    rewrite (movie_path_padded l _ t r "/" "w");
      [apply movie_path_of_path | reflexivity | reflexivity
       | exact (last_char_suffix (String "/" id) "/movie-overview" _ eq_refl)
       | reflexivity | discriminate | exact Hl | exact Hr | exact Ht].
  - intros No Nt.
    rewrite (movie_path_padded l id t r a z Fa Sa Lz Sz Nz Hl Hr Ht).
    apply movie_path_slug; assumption.
Qed.

(** X5.  Validation settles: when today's date is itself a date [strptime]
    accepts, whatever [_validate_date] returns is accepted, and validating
    it again returns it unchanged. *)
Theorem validate_date_settles (dt : option string) :
  accepts today = true ->
  exists d,
    _validate_date dt = Ok d
    /\ accepts d = true
    /\ _validate_date (Some d) = Ok d.
Proof.
  intros T. rewrite validate_date_value.
  assert (A : accepts match dt with
                      | None => today
                      | Some s => if accepts s then s else today
                      end = true).
  { destruct dt as [s|]; [|exact T]. destruct (accepts s) eqn:E; assumption. }
  eexists. split; [reflexivity|]. split; [exact A|].
  rewrite validate_date_value. rewrite A. reflexivity.
Qed.

(** ** Further properties of the simplifiers *)

(** X6.  [_simplify_showtime] returns for every showtime object and raises
    AttributeError for anything else.  What it returns has the time part,
    and a ticket URL that is null or an address on the site. *)
Theorem simplify_showtime_total (st : json) :
  (forall d, st = JObj d ->
             exists out,
               _simplify_showtime st = Ok out
               /\ py_index out "time" = Ok (time_part d)
               /\ (py_index out "ticket_url" = Ok JNull
                   \/ exists u, py_index out "ticket_url"
                                = Ok (JStr (FANDANGO_BASE ++ u))))
  /\ (is_dict st = false -> _simplify_showtime st = Raise AttributeError).
Proof.
  split.
  - intros d ->. rewrite simplify_showtime_obj. eexists. split; [reflexivity|].
    split; [reflexivity|]. unfold simplified_showtime.
    cbn [py_index dict_get String.eqb Ascii.eqb Bool.eqb].
    destruct (truthy (get_or d "ticketingJumpPageURL" JNull));
      [right; eexists; reflexivity | left; reflexivity].
  - destruct st; try reflexivity. discriminate.
Qed.

Lemma label_variant_count (v : json) (labels : list json) (v' : json) :
  label_variant (simplified_variant v) = Ok (labels, v') ->
  List.length labels = List.length (raw_showtimes v).
Proof.
  unfold label_variant, simplified_variant.
  cbn [py_index dict_get String.eqb Ascii.eqb Bool.eqb bind py_iter].
  intros H. bind_inv H. injection H as <- _.
  apply mapM_length in E. rewrite !length_map in *. exact E.
Qed.

Lemma label_variants_count (vs : list json) (labelled : list (list json * json)) :
  mapM label_variant (map simplified_variant vs) = Ok labelled ->
  List.length (List.concat (map fst labelled))
  = list_sum (map (fun v => List.length (raw_showtimes v)) vs).
Proof.
  revert labelled. induction vs as [|v vs IH]; intros labelled H.
  - injection H as <-. reflexivity.
  - cbn [map mapM] in H. bind_inv H. bind_inv H. injection H as <-.
    destruct x as [labels v'].
    cbn [map fst List.concat list_sum]. rewrite length_app.
    rewrite (label_variant_count _ _ _ E), (IH _ E0). reflexivity.
Qed.

(** X7.  A movie that simplifies gets one label per raw showtime and one
    variant per raw variant, whatever the types of the time parts. *)
Theorem simplify_movie_counts (movie out : json) :
  _simplify_movie movie = Ok out ->
  exists labels variants,
    py_index out "showtimes" = Ok (JArr labels)
    /\ py_index out "variants" = Ok (JArr variants)
    /\ List.length labels
       = list_sum (map (fun v => List.length (raw_showtimes v)) (raw_variants movie))
    /\ List.length variants = List.length (raw_variants movie).
Proof.
  unfold _simplify_movie. intros H.
  bind_inv H. bind_inv H. bind_inv H. bind_inv H.
  apply py_get_fields in E. destruct E as [_ ->].
  assert (L : x0 = raw_variants movie).
  { eapply iter_items; [|exact E0|exact E1]. reflexivity. }
  subst x0. apply simplify_variants_ok in E1. subst x1.
  repeat bind_inv H. injection H as <-.
  cbn [py_index dict_get String.eqb Ascii.eqb Bool.eqb].
  eexists. eexists. split; [reflexivity|]. split; [reflexivity|]. split.
  - apply label_variants_count. exact E2.
  - apply mapM_length in E2. rewrite !length_map in *. exact E2.
Qed.

Lemma simplify_one_showing_variant (format : json) (st : dict) :
  _simplify_variant
    (JObj [("filmFormatHeader", format);
           ("amenityGroups", JArr [JObj [("showtimes", JArr [JObj st])]])])
  = Ok (JObj [("format", format);
              ("showtimes", JArr [simplified_showtime st])]).
Proof.
  unfold _simplify_variant.
  cbn [py_get get_or dict_get String.eqb Ascii.eqb Bool.eqb bind py_iter mapM].
  rewrite simplify_showtime_obj. reflexivity.
Qed.

(** X8.  With a format that gets a suffix, a time part that is neither a
    string nor a list makes [_simplify_movie] raise TypeError: the label
    cannot take the suffix. *)
Theorem simplify_movie_time_type_error (format : json) (st : dict) :
  has_suffix format = true ->
  match time_part st with
  | JStr _ | JArr _ => False
  | _ => True
  end ->
  _simplify_movie (one_showing format st) = Raise TypeError.
Proof.
  intros S T. unfold _simplify_movie, one_showing.
  cbn [py_get get_or dict_get String.eqb Ascii.eqb Bool.eqb bind py_iter mapM].
  rewrite simplify_one_showing_variant. cbn [bind].
  unfold label_variant at 1.
  cbn [py_index dict_get String.eqb Ascii.eqb Bool.eqb bind py_iter mapM].
  unfold label_showtime at 1, simplified_showtime at 1.
  cbn [py_index dict_get String.eqb Ascii.eqb Bool.eqb bind].
  unfold has_suffix in S. rewrite S.
  destruct (time_part st); try reflexivity; contradiction.
Qed.

(** X9.  With a format that gets a suffix, a time part that is a list is
    extended in place by the characters of the suffix: the label is the
    extended list, and so is the time of the showtime inside the variant,
    which is the same object. *)
Theorem simplify_movie_list_time (format : json) (st : dict) (l : list json) :
  has_suffix format = true ->
  time_part st = JArr l ->
  let extended := JArr (l ++ map JStr (chars (" (" ++ fmt format ++ ")"))) in
  exists out showtime,
    _simplify_movie (one_showing format st) = Ok out
    /\ py_index out "showtimes" = Ok (JArr [extended])
    /\ py_index out "variants"
       = Ok (JArr [JObj [("format", format); ("showtimes", JArr [showtime])]])
    /\ py_index showtime "time" = Ok extended.
Proof.
  intros S T extended. unfold _simplify_movie, one_showing.
  cbn [py_get get_or dict_get String.eqb Ascii.eqb Bool.eqb bind py_iter mapM].
  rewrite simplify_one_showing_variant. cbn [bind].
  unfold label_variant at 1.
  cbn [py_index dict_get String.eqb Ascii.eqb Bool.eqb bind py_iter mapM].
  unfold label_showtime at 1, simplified_showtime at 1.
  cbn [py_index dict_get String.eqb Ascii.eqb Bool.eqb bind].
  unfold has_suffix in S. rewrite S, T.
  cbn. eexists. eexists. split; [reflexivity|].
  split; [reflexivity|]. split; reflexivity.
Qed.

Lemma poster_size_ok (movie : json) (size : string) (p : json) :
  poster_size movie size = Ok p -> p = poster_of (fields movie) size.
Proof.
  unfold poster_size, poster_of. intros H. bind_inv H. bind_inv H.
  apply py_get_fields in E. destruct E as [_ ->].
  apply py_get_fields in E0. destruct E0 as [_ ->].
  apply py_get_fields in H. exact (proj2 H).
Qed.

(** X10.  A movie that simplifies takes its title from the payload, or is
    called Unknown when the payload has none; its genres default to the
    empty list; its poster is the 200 size when that is non-empty and the
    full size otherwise; its address on the site is null when the payload
    has no non-empty mopURI. *)
Theorem simplify_movie_fields (movie out : json) :
  _simplify_movie movie = Ok out ->
  py_index out "title" = Ok (get_or (fields movie) "title" (JStr "Unknown"))
  /\ py_index out "genres" = Ok (get_or (fields movie) "genres" (JArr []))
  /\ py_index out "poster"
     = Ok (if truthy (poster_of (fields movie) "200")
           then poster_of (fields movie) "200"
           else poster_of (fields movie) "full")
  /\ py_index out "fandango_url"
     = Ok (if truthy (get_or (fields movie) "mopURI" JNull)
           then JStr (FANDANGO_BASE ++ fmt (get_or (fields movie) "mopURI" JNull))
           else JNull).
Proof.
  unfold _simplify_movie. intros H.
  repeat bind_inv H. injection H as <-.
  cbn [py_index dict_get String.eqb Ascii.eqb Bool.eqb].
  repeat match goal with
         | E : py_get movie _ _ = Ok _ |- _ =>
             apply py_get_fields in E; destruct E as [? ->]
         end.
  match goal with
  | E : poster_size movie "200" = Ok _ |- _ => apply poster_size_ok in E; subst
  end.
  match goal with
  | E : site_url movie _ = Ok _ |- _ => rename E into U
  end.
  match goal with
  | E : movie = JObj _ |- _ => rewrite E in U; rewrite site_url_obj in U;
                               injection U as <-
  end.
  repeat split.
  match goal with
  | E : (if truthy ?p then _ else _) = Ok _ |- _ =>
      destruct (truthy p); [injection E as <-; reflexivity|];
      apply poster_size_ok in E; subst; reflexivity
  end.
Qed.

(** X11.  A theater that simplifies is called Unknown Theater when the
    payload has no name and has an empty address when it has none; its date
    is displayDate when that is non-empty and date otherwise; its address
    on the site is null when the payload has no non-empty theaterPageUrl. *)
Theorem simplify_theater_fields (theater out : json) :
  _simplify_theater theater = Ok out ->
  py_index out "name" = Ok (get_or (fields theater) "name" (JStr "Unknown Theater"))
  /\ py_index out "address"
     = Ok (get_or (fields theater) "fullAddress" (JStr EmptyString))
  /\ py_index out "date"
     = Ok (py_or (get_or (fields theater) "displayDate" JNull)
                 (get_or (fields theater) "date" JNull))
  /\ py_index out "fandango_url"
     = Ok (if truthy (get_or (fields theater) "theaterPageUrl" JNull)
           then JStr (FANDANGO_BASE
                        ++ fmt (get_or (fields theater) "theaterPageUrl" JNull))
           else JNull).
Proof.
  unfold _simplify_theater. intros H.
  destruct theater as [| | | | | |t]; try discriminate H.
  cbn [fields]. cbn [py_get bind] in H.
  repeat bind_inv H. injection H as <-.
  cbn [py_index dict_get String.eqb Ascii.eqb Bool.eqb].
  match goal with
  | E : site_url (JObj t) _ = Ok _ |- _ =>
      rewrite site_url_obj in E; injection E as <-
  end.
  repeat split. unfold py_or.
  match goal with
  | E : (if truthy ?x then Ok _ else Ok _) = Ok _ |- _ =>
      destruct (truthy x); injection E as <-; reflexivity
  end.
Qed.

(** X12.  A distance that is present and is not a number, a bool or null
    makes [_simplify_theater] raise TypeError (here for a theater without
    movies): [round] has nothing to round. *)
Theorem simplify_theater_distance_type_error (theater : dict) (d : json) :
  dict_get "movies" theater = None ->
  dict_get "distance" theater = Some d ->
  match d with
  | JStr _ | JArr _ | JObj _ => True
  | _ => False
  end ->
  _simplify_theater (JObj theater) = Raise TypeError.
Proof.
  intros M D T. unfold _simplify_theater.
  cbn [py_get bind]. unfold get_or. rewrite M. cbn [py_iter mapM bind].
  rewrite D. cbn [py_index]. rewrite D.
  destruct d; try contradiction; reflexivity.
Qed.

(** ** Well-formed payloads simplify *)

Lemma mapM_all_ok {A B : Type} (f : A -> result B) (l : list A) :
  (forall a, In a l -> exists b, f a = Ok b) -> exists bs, mapM f l = Ok bs.
Proof.
  induction l as [|a l IH]; intros H.
  - exists []. reflexivity.
  - destruct (H a (or_introl eq_refl)) as [b Hb].
    destruct IH as [bs Hbs]; [intros x Hx; apply H; right; exact Hx|].
    exists (b :: bs). cbn [mapM]. rewrite Hb. cbn [bind]. rewrite Hbs. reflexivity.
Qed.

(** The list behind a key that is absent or holds a list. *)
Lemma absent_or_list (p : json -> bool) (d : dict) (k : string) :
  absent_or (list_of p) d k = true ->
  exists l, get_or d k (JArr []) = JArr l /\ forallb p l = true.
Proof.
  unfold absent_or, get_or. destruct (dict_get k d) as [v|].
  - destruct v; try discriminate. intros H. eexists. split; [reflexivity | exact H].
  - intros _. exists []. split; reflexivity.
Qed.

Lemma absent_or_dict (d : dict) (k : string) :
  absent_or is_dict d k = true -> exists o, get_or d k (JObj []) = JObj o.
Proof.
  unfold absent_or, get_or. destruct (dict_get k d) as [v|].
  - destruct v; try discriminate. intros _. eexists. reflexivity.
  - intros _. exists []. reflexivity.
Qed.

Lemma simplify_group_wf (ag : json) :
  wf_group ag = true ->
  (sts <- py_get ag "showtimes" (JArr []) ;;
   sts <- py_iter sts ;;
   mapM _simplify_showtime sts)
  = Ok (map (fun st => simplified_showtime (fields st))
            (items (get_or (fields ag) "showtimes" (JArr [])))).
Proof.
  destruct ag as [| | | | | |d]; try discriminate. cbn [wf_group fields].
  intros W. destruct (absent_or_list _ _ _ W) as (l & E & F).
  cbn [py_get bind]. rewrite E. cbn [py_iter bind items].
  apply mapM_map. intros st I.
  rewrite forallb_forall in F. specialize (F st I).
  destruct st; try discriminate F. apply simplify_showtime_obj.
Qed.

Lemma simplify_variant_wf (v : json) :
  wf_variant v = true -> _simplify_variant v = Ok (simplified_variant v).
Proof.
  destruct v as [| | | | | |d]; try discriminate. cbn [wf_variant].
  intros W. apply andb_prop in W. destruct W as [W _].
  destruct (absent_or_list _ _ _ W) as (l & E & F).
  unfold _simplify_variant, simplified_variant, raw_showtimes, variant_format.
  cbn [py_get bind fields]. rewrite E. cbn [py_iter bind items].
  rewrite (mapM_map _ (fun ag => map (fun st => simplified_showtime (fields st))
                                     (items (get_or (fields ag) "showtimes" (JArr []))))).
  - cbn [bind].
    assert (C : List.concat
                  (map (fun ag => map (fun st => simplified_showtime (fields st))
                                      (items (get_or (fields ag) "showtimes" (JArr []))))
                       l)
                = map (fun st => simplified_showtime (fields st))
                      (flat_map (fun ag => items (get_or (fields ag) "showtimes" (JArr [])))
                                l)).
    { clear. induction l as [|ag l IH]; [reflexivity|].
      cbn [map List.concat flat_map]. rewrite map_app, IH. reflexivity. }
    rewrite C. reflexivity.
  - intros ag I. rewrite forallb_forall in F. apply simplify_group_wf, F, I.
Qed.

Lemma poster_size_wf (d : dict) (size : string) :
  absent_or wf_poster d "poster" = true ->
  exists p, poster_size (JObj d) size = Ok p.
Proof.
  unfold absent_or, poster_size. cbn [py_get bind]. unfold get_or at 1.
  destruct (dict_get "poster" d) as [p|].
  - destruct p; try discriminate. cbn [wf_poster]. intros W.
    destruct (absent_or_dict _ _ W) as [o E].
    cbn [py_get bind]. rewrite E. eexists. reflexivity.
  - intros _. eexists. reflexivity.
Qed.

Lemma simplify_movie_wf (m : json) :
  wf_movie m = true -> exists out, _simplify_movie m = Ok out.
Proof.
  destruct m as [| | | | | |d]; try discriminate. cbn [wf_movie].
  intros W. apply andb_prop in W. destruct W as [V P].
  destruct (absent_or_list _ _ _ V) as (l & E & F).
  unfold _simplify_movie. cbn [py_get bind]. rewrite E. cbn [py_iter bind].
  rewrite (mapM_map _ simplified_variant).
  2:{ intros v I. rewrite forallb_forall in F. apply simplify_variant_wf, F, I. }
  cbn [bind]. rewrite label_variants_str.
  2:{ apply forallb_forall. intros v I. rewrite forallb_forall in F.
      specialize (F v I). destruct v; try discriminate F.
      cbn [wf_variant] in F. apply andb_prop in F. exact (proj2 F). }
  cbn [bind]. rewrite site_url_obj.
  destruct (poster_size_wf d "200" P) as [p2 E2].
  destruct (poster_size_wf d "full" P) as [pf Ef].
  rewrite E2. cbn [bind]. destruct (truthy p2); [|rewrite Ef];
    cbn [bind]; eexists; reflexivity.
Qed.

Lemma simplify_theater_ok (theater : json) :
  wf_theater theater = true -> exists out, _simplify_theater theater = Ok out.
Proof.
  destruct theater as [| | | | | |d]; try discriminate. cbn [wf_theater].
  intros W. apply andb_prop in W. destruct W as [W D].
  apply andb_prop in W. destruct W as [M G].
  destruct (absent_or_list _ _ _ M) as (l & E & F).
  destruct (absent_or_dict _ _ G) as [geo Eg].
  destruct (mapM_all_ok _simplify_movie l) as [movies Em].
  { intros m I. rewrite forallb_forall in F. apply simplify_movie_wf, F, I. }
  unfold _simplify_theater. cbn [py_get bind]. rewrite E. cbn [py_iter bind].
  rewrite Em. cbn [bind]. rewrite Eg. cbn [py_get bind]. rewrite site_url_obj.
  cbn [bind].
  assert (R : exists r,
             (if negb (is_none (get_or d "distance" JNull))
              then x <- py_index (JObj d) "distance" ;; py_round2 x
              else Ok JNull) = Ok r).
  { unfold absent_or in D. unfold get_or. cbn [py_index].
    destruct (dict_get "distance" d) as [x|]; [|eexists; reflexivity].
    destruct x; try discriminate D; eexists; reflexivity. }
  destruct R as [r R]. rewrite R. cbn [bind].
  destruct (truthy (get_or d "displayDate" JNull)); eexists; reflexivity.
Qed.

(** X13.  A well-formed theater simplifies: when the movies, variants,
    amenity groups and showtimes are lists of objects (or absent), poster,
    size and geo are objects (or absent), the time parts are strings and the
    distance is a number, null or absent, [_simplify_theater] returns a
    record and raises nothing. *)
Theorem simplify_theater_wf (theater : json) :
  wf_theater theater = true -> exists out, _simplify_theater theater = Ok out.
Proof.
  exact (simplify_theater_ok theater).
Qed.

(** ** The matcher reports matches only *)

Lemma star_sound {A : Type} (p : ascii -> bool) (s : string) :
  forall (k : string -> string -> option A) (a : A),
    star p s k = Some a ->
    exists t rest, s = t ++ rest /\ all_chars p t = true /\ k t rest = Some a.
Proof.
  induction s as [|c s IH]; intros k a H.
  - exists EmptyString, EmptyString. repeat split. exact H.
  - cbn [star] in H. destruct (p c) eqn:Pc.
    + destruct (star p s (fun t rest => k (String c t) rest)) as [b|] eqn:E.
      * injection H as ->. destruct (IH _ _ E) as (t & rest & -> & Pt & K).
        exists (String c t), rest. cbn [all_chars append]. rewrite Pc, Pt.
        repeat split. exact K.
      * exists EmptyString, (String c s). repeat split. exact H.
    + exists EmptyString, (String c s). repeat split. exact H.
Qed.

(** Whatever the matcher hands to its continuation is a split of the
    subject whose first part the pattern denotes. *)
Lemma rmatch_sound {A : Type} (n : nat) (r : regex) :
  forall (s : string) (caps : list string)
         (k : string -> string -> list string -> option A) (a : A),
    rmatch n r s caps k = Some a ->
    exists t rest caps',
      s = t ++ rest /\ denotes r t caps caps' /\ k t rest caps' = Some a.
Proof.
  induction r as [|p|r1 IH1 r2 IH2|r1 IH1 r2 IH2|p|r1 IH1| |];
    intros s caps k a H; cbn [rmatch] in H.
  - exists EmptyString, s, caps. repeat split. exact H.
  - destruct s as [|c s]; [discriminate H|].
    destruct (p c) eqn:Pc; [|discriminate H].
    exists (String c EmptyString), s, caps. split; [reflexivity|].
    split; [exists c; repeat split; exact Pc | exact H].
  - destruct (IH1 _ _ _ _ H) as (t1 & s1 & c1 & -> & D1 & H1).
    destruct (IH2 _ _ _ _ H1) as (t2 & s2 & c2 & -> & D2 & H2).
    exists (t1 ++ t2), s2, c2. split; [symmetry; apply append_assoc|].
    split; [exists t1, t2, c1; repeat split; assumption | exact H2].
  - destruct (rmatch n r1 s caps k) as [b|] eqn:E.
    + injection H as ->. destruct (IH1 _ _ _ _ E) as (t & rest & c' & -> & D & K).
      exists t, rest, c'. split; [reflexivity|]. split; [left; exact D | exact K].
    + destruct (IH2 _ _ _ _ H) as (t & rest & c' & -> & D & K).
      exists t, rest, c'. split; [reflexivity|]. split; [right; exact D | exact K].
  - destruct (star_sound _ _ _ _ H) as (t & rest & -> & Pt & K).
    exists t, rest, caps. repeat split; assumption.
  - destruct (IH1 _ _ _ _ H) as (t & rest & c' & -> & D & K).
    exists t, rest, (c' ++ [t])%list. split; [reflexivity|].
    split; [exists c'; split; [exact D | reflexivity] | exact K].
  - destruct (String.length s =? n)%nat; [|discriminate H].
    exists EmptyString, s, caps. repeat split. exact H.
  - destruct (at_eol s); [|discriminate H].
    exists EmptyString, s, caps. repeat split. exact H.
Qed.

Lemma search_from_sound (n : nat) (r : regex) (s : string) (m : rmatch_result) :
  search_from n r s = Some m ->
  exists before rest, s = before ++ matched m ++ rest
                      /\ denotes r (matched m) [] (groups m).
Proof.
  induction s as [|c s IH]; cbn [search_from]; intros H.
  - destruct (match_at n r EmptyString) as [m'|] eqn:E; [|discriminate H].
    injection H as ->. unfold match_at in E.
    destruct (rmatch_sound _ _ _ _ _ _ E) as (t & rest & c' & S & D & K).
    injection K as <-. exists EmptyString, rest. split; [exact S | exact D].
  - destruct (match_at n r (String c s)) as [m'|] eqn:E.
    + injection H as ->. unfold match_at in E.
      destruct (rmatch_sound _ _ _ _ _ _ E) as (t & rest & c' & S & D & K).
      injection K as <-. exists EmptyString, rest. split; [exact S | exact D].
    + destruct (IH H) as (before & rest & -> & D).
      exists (String c before), rest. split; [reflexivity | exact D].
Qed.

Lemma denotes_group_free (r : regex) :
  forall t caps caps', group_free r = true -> denotes r t caps caps' -> caps' = caps.
Proof.
  induction r as [|p|r1 IH1 r2 IH2|r1 IH1 r2 IH2|p|r1 IH1| |];
    intros t caps caps' G D; cbn [denotes group_free] in *.
  - exact (proj2 D).
  - destruct D as (c & _ & _ & E). exact E.
  - apply andb_prop in G. destruct G as [G1 G2].
    destruct D as (t1 & t2 & mid & _ & D1 & D2).
    rewrite (IH2 _ _ _ G2 D2). apply (IH1 _ _ _ G1 D1).
  - apply andb_prop in G. destruct G as [G1 G2].
    destruct D as [D|D]; [apply (IH1 _ _ _ G1 D) | apply (IH2 _ _ _ G2 D)].
  - exact (proj2 D).
  - discriminate G.
  - exact (proj2 D).
  - exact (proj2 D).
Qed.

Lemma denotes_seq_free (r1 r2 : regex) (t : string) (caps caps' : list string) :
  group_free r1 = true -> denotes (RSeq r1 r2) t caps caps' ->
  exists t2, denotes r2 t2 caps caps'.
Proof.
  intros G (t1 & t2 & mid & _ & D1 & D2).
  rewrite (denotes_group_free _ _ _ _ G D1) in D2. exists t2. exact D2.
Qed.

Lemma group_free_lit (s : string) : group_free (lit s) = true.
Proof. induction s as [|c s IH]; [reflexivity | exact IH]. Qed.

Lemma denotes_rep_digit (n : nat) :
  forall t caps caps',
    denotes (rep n digit) t caps caps' ->
    String.length t = n /\ all_digits t = true /\ caps' = caps.
Proof.
  induction n as [|n IH]; intros t caps caps' D; cbn [rep denotes] in D.
  - destruct D as [-> ->]. repeat split.
  - destruct D as (t1 & t2 & mid & -> & (c & -> & Pc & ->) & D2).
    destruct (IH _ _ _ D2) as (L & A & ->).
    cbn [append String.length all_digits]. rewrite Pc, A, L. repeat split.
Qed.

Lemma key_regex_group (key t : string) (caps' : list string) :
  denotes (key_regex key) t [] caps' ->
  exists zip, caps' = [zip] /\ String.length zip = 5 /\ all_digits zip = true.
Proof.
  unfold key_regex, seq. cbn [fold_right]. intros D.
  apply denotes_seq_free in D; [|reflexivity]. destruct D as [t1 D].
  apply denotes_seq_free in D; [|apply group_free_lit]. destruct D as [t2 D].
  do 5 (apply denotes_seq_free in D; [|reflexivity]; destruct D as [? D]).
  cbn [denotes] in D.
  destruct D as (z & e & mid & _ & (mid' & Dz & ->) & (_ & ->)).
  destruct (denotes_rep_digit _ _ _ _ Dz) as (L & A & ->).
  exists z. repeat split; assumption.
Qed.

(** X14.  The postal code the page parser finds, under whichever of the
    three keys, is always five decimal digits: what goes to the location
    query as zipCode has the ZIP form. *)
Theorem find_zip_five_digits (html : string) (m : rmatch_result) :
  find_zip html = Some m ->
  String.length (group1 m) = 5
  /\ all_digits (group1 m) = true
  /\ zip_form (group1 m) = true.
Proof.
  intros H.
  assert (G : exists zip, groups m = [zip] /\ String.length zip = 5
                          /\ all_digits zip = true).
  { unfold find_zip, re_search in H.
    destruct (search_from _ postal_code_regex html) as [m1|] eqn:E1.
    - injection H as ->.
      destruct (search_from_sound _ _ _ _ E1) as (b & r & _ & D).
      exact (key_regex_group _ _ _ D).
    - destruct (search_from _ zip_code_regex html) as [m2|] eqn:E2.
      + injection H as ->.
        destruct (search_from_sound _ _ _ _ E2) as (b & r & _ & D).
        cbn [zip_code_regex denotes] in D.
        destruct D as (t1 & t2 & mid & _ & D1 & (c & _ & _ & ->)).
        exact (key_regex_group _ _ _ D1).
      + destruct (search_from_sound _ _ _ _ H) as (b & r & _ & D).
        cbn [zip_key_regex denotes] in D.
        destruct D as (t1 & t2 & mid & _ & D1 & (c & _ & _ & ->)).
        exact (key_regex_group _ _ _ D1). }
  destruct G as (zip & Gm & L & A). unfold group1. rewrite Gm. cbn [hd].
  split; [exact L|]. split; [exact A|].
  unfold zip_form.
  do 5 (destruct zip as [|? zip]; [discriminate L|]).
  destruct zip; [|discriminate L].
  cbn [String.length Nat.leb take drop andb String.eqb orb]. rewrite A. reflexivity.
Qed.

Lemma lower_slug_char_ok (c : ascii) :
  slug_char c = true -> lower_slug_char (lower_char c) = true.
Proof.
  destruct c as [[] [] [] [] [] [] [] []]; intros H;
    try discriminate H; reflexivity.
Qed.

Lemma lower_all_slug (t : string) :
  all_chars slug_char t = true -> all_chars lower_slug_char (lower t) = true.
Proof.
  induction t as [|c t IH]; intros H; [reflexivity|].
  cbn [all_chars] in H. apply andb_prop in H. destruct H as [Pc Pt].
  cbn [lower all_chars]. rewrite (lower_slug_char_ok c Pc), (IH Pt). reflexivity.
Qed.

(** X15.  For a URL of code points up to U+00FF (the strings of this
    development; every ASCII URL is one), the slug the lookup searches the
    list for is made of the lower-case letters a to z, digits and hyphens
    only, and is empty when the URL has no slug before /theater-page.
    Beyond U+00FF the statement does not hold of the code: under IGNORECASE
    the class a-z also admits U+0130 and U+017F, which [lower] does not
    take to a letter of a to z. *)
Theorem target_slug_chars (theater_url : string) :
  all_chars lower_slug_char (target_slug_of theater_url) = true.
Proof.
  unfold target_slug_of, re_search.
  destruct (search_from _ slug_regex theater_url) as [m|] eqn:E; [|reflexivity].
  destruct (search_from_sound _ _ _ _ E) as (b & r & _ & D).
  unfold slug_regex, seq, plus in D. cbn [fold_right denotes] in D.
  destruct D as (t1 & t2 & mid & _ & (c & _ & _ & ->) & D).
  destruct D as (g & t3 & mid2 & _ & (mid3 & Dg & ->) & D3).
  destruct Dg as (g1 & g2 & mid4 & -> & (c1 & -> & P1 & ->) & (P2 & ->)).
  destruct D3 as (t4 & t5 & mid5 & _ & D4 & (_ & E5)).
  pose proof (denotes_group_free _ _ _ _ (eq_refl : group_free (ilit "/theater-page") = true) D4) as E4.
  unfold group1. rewrite E5, E4. cbn [hd app]. apply lower_all_slug.
  cbn [append all_chars]. rewrite P1, P2. reflexivity.
Qed.

(** ** The entry points: what comes back, and what is raised *)

(** X16.  A payload of well-formed theaters is listed whole: with a
    non-empty list of well-formed theaters and a pagination object (or
    none), [get_showtimes] raises nothing and returns the location, the
    date, the page asked for, the payload's totalPages (1 when it gives
    none), and every theater of the payload simplified, in order. *)
Theorem get_showtimes_listing
        (location : string) (date : option string) (page : Z)
        (payload : dict) (ts : list json) :
  http_get_json FANDANGO_API (showtimes_params location date page)
  = Ok (JObj payload) ->
  dict_get "theaters" payload = Some (JArr ts) ->
  ts <> [] ->
  forallb wf_theater ts = true ->
  absent_or is_dict payload "pagination" = true ->
  exists theaters,
    mapM _simplify_theater ts = Ok theaters
    /\ List.length theaters = List.length ts
    /\ get_showtimes location date page
       = Ok (JObj [("location", JStr location);
                   ("date", JStr (request_date date));
                   ("page", JInt page);
                   ("total_pages",
                    get_or (fields (get_or payload "pagination" (JObj [])))
                           "totalPages" (JInt 1));
                   ("theater_count", JInt (Z.of_nat (List.length ts)));
                   ("theaters", JArr theaters)]).
Proof.
  intros F T N W P.
  destruct (mapM_all_ok _simplify_theater ts) as [theaters M].
  { intros t I. rewrite forallb_forall in W. apply simplify_theater_ok, W, I. }
  exists theaters. split; [exact M|].
  pose proof (mapM_length _ _ _ M) as L. split; [exact L|].
  rewrite get_showtimes_request, F. unfold no_theaters.
  destruct payload as [|kv payload]; [discriminate T|].
  cbn [truthy negb py_get bind]. unfold get_or at 1. rewrite T.
  destruct ts as [|t ts]; [contradiction|].
  cbn [truthy negb bind py_index]. rewrite T. cbn [bind py_iter].
  rewrite M. cbn [bind].
  destruct (absent_or_dict _ _ P) as [o Eo]. rewrite Eo.
  cbn [py_get bind fields]. unfold py_len. rewrite L. reflexivity.
Qed.

(** X17.  Every record [get_showtimes] returns that is not an error record
    echoes the location as it was given and the date the request was made
    for. *)
Theorem get_showtimes_echo
        (location : string) (date : option string) (page : Z) (out : json) :
  get_showtimes location date page = Ok out ->
  dict_get "error" (fields out) = None ->
  py_index out "location" = Ok (JStr location)
  /\ py_index out "date" = Ok (JStr (request_date date)).
Proof.
  intros H NoErr. rewrite get_showtimes_request in H.
  destruct (http_get_json FANDANGO_API (showtimes_params location date page))
    as [data|e].
  - bind_inv H. destruct x.
    + injection H as <-. split; reflexivity.
    + repeat bind_inv H. injection H as <-. split; reflexivity.
  - destruct e; try discriminate H; injection H as <-; discriminate NoErr.
Qed.

(** X18.  A payload that is not an object and not empty (a non-empty array,
    a non-empty string, a non-zero number, true) is not reported as an
    error record: reading its theaters raises AttributeError, out of
    [get_showtimes] and, for the second request, out of
    [get_theater_showtimes]. *)
Theorem payload_not_object_raises (data : json) :
  truthy data = true -> is_dict data = false ->
  (forall location date page,
      http_get_json FANDANGO_API (showtimes_params location date page) = Ok data ->
      get_showtimes location date page = Raise AttributeError)
  /\ (forall theater_id date html m,
         http_get_html (theater_url_of theater_id (request_date date)) = Ok html ->
         find_zip html = Some m ->
         http_get_json FANDANGO_API (zip_params (group1 m) (request_date date))
         = Ok data ->
         get_theater_showtimes theater_id date = Raise AttributeError).
Proof.
  intros T D. split.
  - intros location date page F.
    rewrite get_showtimes_request, F. unfold no_theaters. rewrite T.
    destruct data; try discriminate D; reflexivity.
  - intros theater_id date html m H Z F.
    rewrite get_theater_showtimes_request. cbv zeta. rewrite H.
    unfold _parse_theater_page. rewrite Z.
    unfold _fetch_theater_via_api, _fetch_json. rewrite F.
    unfold no_theaters. rewrite T.
    destruct data; try discriminate D; reflexivity.
Qed.

(** X19.  Only the two HTTP failures are turned into records: any other
    exception of the first fetch leaves each of the three entry points as
    it was raised. *)
Theorem other_failures_propagate (e : exn) :
  (forall code reason, e <> HTTPStatusError code reason) ->
  (forall message, e <> RequestError message) ->
  (forall location date page,
      http_get_json FANDANGO_API (showtimes_params location date page) = Raise e ->
      get_showtimes location date page = Raise e)
  /\ (forall theater_id date,
         http_get_html (theater_url_of theater_id (request_date date)) = Raise e ->
         get_theater_showtimes theater_id date = Raise e)
  /\ (forall movie_url,
         http_get_html (FANDANGO_BASE ++ movie_path movie_url) = Raise e ->
         get_movie_details movie_url = Raise e).
Proof.
  intros NH NR. split; [|split].
  - intros location date page F. rewrite get_showtimes_request, F.
    destruct e; try reflexivity; [elim (NH _ _ eq_refl) | elim (NR _ eq_refl)].
  - intros theater_id date F. rewrite get_theater_showtimes_request.
    cbv zeta. rewrite F.
    destruct e; try reflexivity; [elim (NH _ _ eq_refl) | elim (NR _ eq_refl)].
  - intros movie_url F. unfold get_movie_details, _fetch_html. rewrite F.
    destruct e; try reflexivity; [elim (NH _ _ eq_refl) | elim (NR _ eq_refl)].
Qed.

(** X20.  When the second request finds no theaters (the payload is empty,
    or its theaters are absent, null or an empty list), the lookup returns
    the record read off the page, with the message, and no error. *)
Theorem theater_lookup_empty_listing
        (theater_id : string) (date : option string) (html : string)
        (m : rmatch_result) (payload : dict) :
  let dt := request_date date in
  let url := theater_url_of theater_id dt in
  http_get_html url = Ok html ->
  find_zip html = Some m ->
  http_get_json FANDANGO_API (zip_params (group1 m) dt) = Ok (JObj payload) ->
  dict_get "theaters" payload = None
  \/ dict_get "theaters" payload = Some JNull
  \/ dict_get "theaters" payload = Some (JArr []) ->
  exists out,
    get_theater_showtimes theater_id date = Ok (JObj out)
    /\ out = dict_set "message" dynamic_message (theater_record html url dt)
    /\ dict_get "message" out = Some dynamic_message
    /\ dict_get "url" out = Some (JStr url)
    /\ dict_get "date" out = Some (JStr dt)
    /\ dict_get "error" out = None.
Proof.
  intros dt url H Z F T. eexists. split; [|split; [reflexivity|]].
  - rewrite get_theater_showtimes_request. cbv zeta. fold dt. fold url. rewrite H.
    unfold _parse_theater_page. rewrite Z.
    unfold _fetch_theater_via_api, _fetch_json. rewrite F.
    unfold no_theaters.
    destruct payload as [|kv payload]; [reflexivity|].
    cbn [truthy negb py_get bind]. unfold get_or.
    destruct T as [T|[T|T]]; rewrite T; reflexivity.
  - split; [apply dict_get_set_same|].
    rewrite !dict_get_set_other by reflexivity.
    unfold theater_record.
    destruct (match select_one html "h1.subnav__title, .theaterDetailHeader__name" with
              | Some el => Some el
              | None => select_one html "title"
              end) as [el|];
      [rewrite !dict_get_set_other by reflexivity|];
      repeat split.
Qed.

(** ** The movie page: what every result has *)

Lemma set_text_other (html selector key k : string) (res : dict) :
  String.eqb k key = false ->
  dict_get k (set_text html selector key res) = dict_get k res.
Proof.
  intros N. unfold set_text. destruct (select_one html selector); [|reflexivity].
  apply dict_get_set_other, N.
Qed.

Lemma set_texts_other (html selector key k : string) (res : dict) :
  String.eqb k key = false ->
  dict_get k (set_texts html selector key res) = dict_get k res.
Proof.
  intros N. unfold set_texts. destruct (soup_select html selector); [reflexivity|].
  apply dict_get_set_other, N.
Qed.

Lemma selector_pass_title (html url : string) :
  exists t, dict_get "title" (selector_pass html url) = Some (JStr t).
Proof.
  unfold selector_pass. cbv zeta.
  assert (P : forall (o : option tag) (f : tag -> json) (r : dict),
             dict_get "title" match o with
                              | Some el => dict_set "poster" (f el) r
                              | None => r
                              end = dict_get "title" r).
  { intros [el|] f r; [apply dict_get_set_other|]; reflexivity. }
  rewrite P.
  repeat first [rewrite set_text_other by reflexivity
               | rewrite set_texts_other by reflexivity].
  repeat match goal with
         | |- context [match ?x with _ => _ end] => destruct x
         end;
    eexists; apply dict_get_set_same.
Qed.

Lemma override_director_keeps (ld res res' : dict) (k : string) :
  override_director ld res = Ok res' ->
  String.eqb k "director" = false -> dict_get k res' = dict_get k res.
Proof.
  unfold override_director. intros H N.
  destruct (truthy (get_or ld "director" JNull)); [|injection H as <-; reflexivity].
  destruct (get_or ld "director" JNull) as [| | | | |l|d];
    try (injection H as <-; reflexivity).
  - bind_inv H. injection H as <-. apply dict_get_set_other, N.
  - injection H as <-. apply dict_get_set_other, N.
Qed.

Lemma override_cast_keeps (ld res res' : dict) (k : string) :
  override_cast ld res = Ok res' ->
  String.eqb k "cast" = false -> dict_get k res' = dict_get k res.
Proof.
  unfold override_cast. intros H N.
  destruct (truthy (get_or ld "actor" JNull)); [|injection H as <-; reflexivity].
  bind_inv H. injection H as <-. apply dict_get_set_other, N.
Qed.

(** Whether the block's body ends or raises, the state it leaves has the
    title replaced, and no key changed but those the body writes to. *)
Lemma apply_movie_state (ld res : dict) :
  dict_get "title" (fst (apply_movie ld res))
  = Some (get_or ld "name" (get_or res "title" JNull))
  /\ (forall k, block_key k = false ->
                dict_get k (fst (apply_movie ld res)) = dict_get k res).
Proof.
  unfold apply_movie.
  set (r1 := dict_set "title" (get_or ld "name" (get_or res "title" JNull)) res).
  set (r2 := override ld "description" "synopsis" r1).
  set (r3 := override ld "duration" "runtime" r2).
  set (r4 := override ld "contentRating" "rating" r3).
  set (r5 := (let genre := get_or ld "genre" JNull in
              if truthy genre
              then dict_set "genres" (if is_list genre then genre else JArr [genre]) r4
              else r4)).
  set (r6 := override ld "image" "poster" r5).
  set (r7 := override ld "datePublished" "release_date" r6).
  assert (G5 : forall k, String.eqb k "genres" = false -> dict_get k r5 = dict_get k r4).
  { intros k N. unfold r5. cbv zeta.
    destruct (truthy (get_or ld "genre" JNull)); [|reflexivity].
    apply dict_get_set_other, N. }
  assert (T7 : dict_get "title" r7
               = Some (get_or ld "name" (get_or res "title" JNull))).
  { unfold r7, r6. rewrite !get_override_other by reflexivity.
    rewrite G5 by reflexivity. unfold r4, r3, r2.
    rewrite !get_override_other by reflexivity. apply dict_get_set_same. }
  assert (K7 : forall k, block_key k = false -> dict_get k r7 = dict_get k res).
  { intros k B. unfold block_key, block_keys in B. cbn [existsb] in B.
    repeat match type of B with
           | (_ || _) = false => apply orb_false_elim in B; destruct B as [? B]
           end.
    unfold r7, r6. rewrite !get_override_other by assumption.
    rewrite G5 by assumption. unfold r4, r3, r2.
    rewrite !get_override_other by assumption.
    apply dict_get_set_other. assumption. }
  assert (KD : forall k, block_key k = false -> String.eqb k "director" = false).
  { intros k B. unfold block_key, block_keys in B. cbn [existsb] in B.
    repeat match type of B with
           | (_ || _) = false => apply orb_false_elim in B; destruct B as [? B]
           end.
    assumption. }
  assert (KC : forall k, block_key k = false -> String.eqb k "cast" = false).
  { intros k B. unfold block_key, block_keys in B. cbn [existsb] in B.
    repeat match type of B with
           | (_ || _) = false => apply orb_false_elim in B; destruct B as [? B]
           end.
    assumption. }
  destruct (override_director ld r7) as [r8|e] eqn:E8; cbn [fst].
  - destruct (override_cast ld r8) as [r9|e] eqn:E9; cbn [fst].
    + split.
      * rewrite (override_cast_keeps _ _ _ _ E9) by reflexivity.
        rewrite (override_director_keeps _ _ _ _ E8) by reflexivity. exact T7.
      * intros k B.
        rewrite (override_cast_keeps _ _ _ _ E9) by (apply KC, B).
        rewrite (override_director_keeps _ _ _ _ E8) by (apply KD, B).
        apply K7, B.
    + split.
      * rewrite (override_director_keeps _ _ _ _ E8) by reflexivity. exact T7.
      * intros k B.
        rewrite (override_director_keeps _ _ _ _ E8) by (apply KD, B).
        apply K7, B.
  - split; [exact T7 | exact K7].
Qed.

Lemma ld_step_state (script : tag) (res : dict) :
  (forall k, block_key k = false ->
             dict_get k (fst (ld_step script res)) = dict_get k res)
  /\ ((exists t, dict_get "title" res = Some t) ->
      exists t, dict_get "title" (fst (ld_step script res)) = Some t).
Proof.
  unfold ld_step.
  destruct (load_script script) as [[| | | | | |ld]|e]; cbn [fst];
    try (split; [reflexivity | intros H; exact H]).
  destruct (eq_str (get_or ld "@type" JNull) "Movie"); cbn [fst];
    [|split; [reflexivity | intros H; exact H]].
  destruct (apply_movie_state ld res) as [T K].
  destruct (apply_movie ld res) as [r [u|e]]; cbn [fst] in *;
    (split; [exact K | intros _; eexists; exact T]).
Qed.

Lemma ld_loop_state (scripts : list tag) :
  forall res,
    (forall k, block_key k = false ->
               dict_get k (ld_loop scripts res) = dict_get k res)
    /\ ((exists t, dict_get "title" res = Some t) ->
        exists t, dict_get "title" (ld_loop scripts res) = Some t).
Proof.
  induction scripts as [|script rest IH]; intros res; cbn [ld_loop].
  - split; [reflexivity | intros H; exact H].
  - destruct (ld_step_state script res) as [K T].
    destruct (ld_step script res) as [r stop]; cbn [fst] in *.
    destruct stop; [split; assumption|].
    destruct (IH r) as [K' T']. split.
    + intros k B. rewrite K' by exact B. apply K, B.
    + intros H. apply T', T, H.
Qed.

Lemma parse_movie_page_url (html url : string) :
  dict_get "url" (fields (_parse_movie_page html url)) = Some (JStr url).
Proof.
  unfold _parse_movie_page. cbn [fields].
  destruct (ld_loop_state (soup_select html ld_selector) (selector_pass html url))
    as [K _].
  rewrite K by reflexivity. apply selector_pass_has_url.
Qed.

(** X21.  Whatever the page holds, and whatever its structured-data blocks
    do (load or fail, apply or raise midway), the record of
    [_parse_movie_page] has the URL it was given, unchanged, under url, and
    has a title; a block never writes to a key outside title, synopsis,
    runtime, rating, genres, poster, release_date, director and cast. *)
Theorem parse_movie_page_invariants (html url : string) :
  exists res,
    _parse_movie_page html url = JObj res
    /\ dict_get "url" res = Some (JStr url)
    /\ (exists t, dict_get "title" res = Some t)
    /\ (forall k, block_key k = false ->
                  dict_get k res = dict_get k (selector_pass html url)).
Proof.
  eexists. split; [reflexivity|].
  destruct (ld_loop_state (soup_select html ld_selector) (selector_pass html url))
    as [K T].
  split; [|split].
  - rewrite K by reflexivity. apply selector_pass_has_url.
  - apply T. destruct (selector_pass_title html url) as [t Ht].
    exists (JStr t). exact Ht.
  - exact K.
Qed.

(** X22.  Every record [get_movie_details] returns, an error record or the
    parsed page, carries under url the address that was requested: the
    site's base followed by the normalised path. *)
Theorem get_movie_details_url (movie_url : string) (out : json) :
  get_movie_details movie_url = Ok out ->
  py_index out "url" = Ok (JStr (FANDANGO_BASE ++ movie_path movie_url)).
Proof.
  unfold get_movie_details, _fetch_html. cbv zeta.
  remember (FANDANGO_BASE ++ movie_path movie_url) as url eqn:Hu. clear Hu.
  destruct (http_get_html url) as [html|e].
  - intros [= <-].
    pose proof (parse_movie_page_url html url) as U.
    unfold _parse_movie_page in *. cbn [fields] in U. cbn [py_index].
    rewrite U. reflexivity.
  - destruct e; try discriminate; intros [= <-]; reflexivity.
Qed.

(** X23.  Structured-data blocks that fail to load, or load as something
    other than an object typed Movie, change nothing: when every block of
    the page is such, the result is what the selectors found. *)
Theorem scripts_passed_over (html url : string) :
  forallb passed_over (soup_select html ld_selector) = true ->
  _parse_movie_page html url = JObj (selector_pass html url).
Proof.
  intros P. unfold _parse_movie_page.
  rewrite <- (app_nil_r (soup_select html ld_selector)).
  rewrite (ld_loop_passed_over _ _ _ P). reflexivity.
Qed.

(** X24.  A Movie block that raises midway is not undone: with actors that
    cannot be iterated over (a non-zero number), the title, and the other
    fields written before the cast, stay as the block set them, the cast
    stays as it was, and the loop goes on to the next block instead of
    stopping. *)
Theorem movie_block_partial
        (script : tag) (rest : list tag) (ld res : dict) (n : Z) :
  load_script script = Ok (JObj ld) ->
  eq_str (get_or ld "@type" JNull) "Movie" = true ->
  director_ok ld = true ->
  get_or ld "actor" JNull = JInt n -> n <> 0%Z ->
  exists res',
    ld_step script res = (res', false)
    /\ ld_loop (script :: rest) res = ld_loop rest res'
    /\ dict_get "title" res' = Some (get_or ld "name" (get_or res "title" JNull))
    /\ (forall key out,
           In (key, out) overridden ->
           truthy (get_or ld key JNull) = true ->
           dict_get out res' = Some (get_or ld key JNull))
    /\ dict_get "cast" res' = dict_get "cast" res.
Proof.
  intros L T D A N.
  assert (S : exists res', apply_movie ld res = (res', Raise TypeError)
                           /\ res' = fst (apply_movie ld res)
                           /\ dict_get "cast" res' = dict_get "cast" res
                           /\ (forall key out,
                                  In (key, out) overridden ->
                                  truthy (get_or ld key JNull) = true ->
                                  dict_get out res' = Some (get_or ld key JNull))).
  { unfold apply_movie.
    set (r1 := dict_set "title" (get_or ld "name" (get_or res "title" JNull)) res).
    set (r2 := override ld "description" "synopsis" r1).
    set (r3 := override ld "duration" "runtime" r2).
    set (r4 := override ld "contentRating" "rating" r3).
    set (r5 := (let genre := get_or ld "genre" JNull in
                if truthy genre
                then dict_set "genres" (if is_list genre then genre else JArr [genre]) r4
                else r4)).
    set (r6 := override ld "image" "poster" r5).
    set (r7 := override ld "datePublished" "release_date" r6).
    assert (G5 : forall k, String.eqb k "genres" = false ->
                           dict_get k r5 = dict_get k r4).
    { intros k K. unfold r5. cbv zeta.
      destruct (truthy (get_or ld "genre" JNull)); [|reflexivity].
      apply dict_get_set_other, K. }
    destruct (override_director_ok ld r7 D) as (r8 & E8 & O8 & _).
    rewrite E8.
    assert (E9 : override_cast ld r8 = Raise TypeError).
    { unfold override_cast. rewrite A. cbn [truthy].
      destruct (Z.eqb_spec n 0) as [->|_]; [contradiction|reflexivity]. }
    rewrite E9. exists r8. split; [reflexivity|]. split; [reflexivity|]. split.
    - rewrite O8 by reflexivity. unfold r7, r6.
      rewrite !get_override_other by reflexivity. rewrite G5 by reflexivity.
      unfold r4, r3, r2. rewrite !get_override_other by reflexivity.
      apply dict_get_set_other. reflexivity.
    - intros key out I Tk. unfold overridden in I. cbn [In] in I.
      destruct I as [I|[I|[I|[I|[I|[]]]]]]; injection I as <- <-;
        rewrite O8 by reflexivity;
        unfold r7, r6; rewrite ?get_override; rewrite ?G5 by reflexivity;
        unfold r4, r3, r2; rewrite ?get_override;
        cbn [String.eqb Ascii.eqb Bool.eqb andb];
        rewrite Tk; reflexivity. }
  destruct S as (res' & E & F & C & O).
  assert (St : ld_step script res = (res', false)).
  { unfold ld_step. rewrite L, T, E. reflexivity. }
  exists res'. split; [exact St|]. split.
  - cbn [ld_loop]. rewrite St. reflexivity.
  - split; [|split; [exact O | exact C]].
    rewrite F. apply (proj1 (apply_movie_state ld res)).
Qed.

(** ** The theater name: what the two substitutions leave *)

Lemma append_empty_r (s : string) : s ++ EmptyString = s.
Proof. induction s as [|c s IH]; simpl; [reflexivity | rewrite IH; reflexivity]. Qed.

Lemma empty_only_sound {A : Type} (n : nat) (r : regex) :
  forall (s : string) (caps : list string)
         (k : string -> string -> list string -> option A) (a : A),
    empty_only r = true ->
    rmatch n r s caps k = Some a ->
    exists caps', k EmptyString s caps' = Some a.
Proof.
  induction r as [|p|r1 IH1 r2 IH2|r1 IH1 r2 IH2|p|r1 IH1| |];
    intros s caps k a E H; cbn [empty_only] in E; try discriminate E;
    cbn [rmatch] in H.
  - exists caps. exact H.
  - apply andb_prop in E. destruct E as [E1 E2].
    destruct (IH1 _ _ _ _ E1 H) as [c1 H1].
    destruct (IH2 _ _ _ _ E2 H1) as [c2 H2].
    exists c2. exact H2.
  - destruct (IH1 _ _ _ _ E H) as [c1 H1]. eexists. exact H1.
  - destruct (String.length s =? n)%nat; [|discriminate H]. exists caps. exact H.
  - destruct (at_eol s); [|discriminate H]. exists caps. exact H.
Qed.

Lemma anchored_sound {A : Type} (n : nat) (r : regex) :
  forall (s : string) (caps : list string)
         (k : string -> string -> list string -> option A) (a : A),
    anchored r = true ->
    rmatch n r s caps k = Some a ->
    exists t rest caps',
      s = t ++ rest /\ at_eol rest = true /\ k t rest caps' = Some a.
Proof.
  induction r as [|p|r1 IH1 r2 IH2|r1 IH1 r2 IH2|p|r1 IH1| |];
    intros s caps k a E H; cbn [anchored] in E; try discriminate E;
    cbn [rmatch] in H.
  - apply orb_prop in E. destruct E as [E|E].
    + destruct (rmatch_sound _ _ _ _ _ _ H) as (t1 & s1 & c1 & -> & _ & H1).
      destruct (IH2 _ _ _ _ E H1) as (t2 & rest & c2 & -> & Z & K).
      exists (t1 ++ t2), rest, c2. rewrite append_assoc. repeat split; assumption.
    + apply andb_prop in E. destruct E as [E1 E2].
      destruct (IH1 _ _ _ _ E1 H) as (t1 & rest & c1 & -> & Z & H1).
      destruct (empty_only_sound _ _ _ _ _ _ E2 H1) as [c2 K].
      exists (t1 ++ EmptyString), rest, c2. rewrite append_empty_r.
      rewrite append_empty_r in K. repeat split; assumption.
  - apply andb_prop in E. destruct E as [E1 E2].
    destruct (rmatch n r1 s caps k) as [b|] eqn:M.
    + injection H as ->. exact (IH1 _ _ _ _ E1 M).
    + exact (IH2 _ _ _ _ E2 H).
  - destruct (IH1 _ _ _ _ E H) as (t & rest & c & -> & Z & K).
    exists t, rest, (c ++ [t])%list. repeat split; assumption.
  - destruct (at_eol s) eqn:Z; [|discriminate H].
    exists EmptyString, s, caps. repeat split; assumption.
Qed.

(** On one line, a match of an anchored pattern runs to the end. *)
Lemma match_at_to_end (n : nat) (r : regex) (s : string) (m : rmatch_result) :
  anchored r = true -> mem_char newline s = false ->
  match_at n r s = Some m -> matched m = s.
Proof.
  intros E L H. unfold match_at in H.
  destruct (anchored_sound _ _ _ _ _ _ E H) as (t & rest & c & -> & Z & K).
  injection K as <-. cbn [matched].
  rewrite mem_char_app in L. apply orb_false_elim in L. destruct L as [_ L].
  destruct rest as [|x rest]; [rewrite append_empty_r; reflexivity|].
  destruct rest; [|discriminate Z]. cbn [at_eol] in Z.
  apply Ascii.eqb_eq in Z. subst x. cbn [mem_char] in L.
  rewrite Ascii.eqb_refl in L. discriminate L.
Qed.

Lemma delete_from_skip (n : nat) (r : regex) (s : string) :
  delete_from n r s (String.length s) = EmptyString.
Proof. induction s as [|c s IH]; [reflexivity | exact IH]. Qed.

(** On one line, deleting the matches of an anchored pattern cuts the text
    at the first position with a match: what is left is a prefix, and no
    position inside it has a match. *)
Lemma delete_from_prefix (n : nat) (r : regex) (s : string) :
  anchored r = true -> mem_char newline s = false ->
  exists rest, s = delete_from n r s 0 ++ rest.
Proof.
  intros E. induction s as [|c s IH]; intros L.
  - exists EmptyString. reflexivity.
  - cbn [delete_from].
    assert (L' : mem_char newline s = false).
    { cbn [mem_char] in L. apply orb_false_elim in L. exact (proj2 L). }
    destruct (match_at n r (String c s)) as [[t g]|] eqn:M.
    + pose proof (match_at_to_end _ _ _ _ E L M) as T. cbn [matched] in T. subst t.
      rewrite delete_from_skip. exists (String c s). reflexivity.
    + destruct (IH L') as [rest R]. exists rest. cbn [append]. rewrite <- R.
      reflexivity.
Qed.

Lemma all_not_newline (s : string) :
  mem_char newline s = false -> all_chars not_newline s = true.
Proof.
  induction s as [|c s IH]; [reflexivity|]. cbn [mem_char all_chars]. intros L.
  apply orb_false_elim in L. destruct L as [Lc Ls].
  unfold not_newline at 1. rewrite Ascii.eqb_sym, Lc. exact (IH Ls).
Qed.

Lemma bar_match (n : nat) (s : string) :
  mem_char newline s = false ->
  match_at n bar_suffix_regex (String "|" s)
  = Some (MkMatch (String "|" s) []).
Proof.
  intros L. unfold match_at, bar_suffix_regex, seq, spaces, chr.
  cbn [fold_right rmatch star]. 
  change (isspace "|") with false. cbv iota.
  change (Ascii.eqb "|" "|") with true. cbv iota.
  rewrite <- (append_empty_r s) at 1.
  apply star_run; [apply all_not_newline, L | discriminate |].
  cbn [rmatch at_eol append]. rewrite append_empty_r. reflexivity.
Qed.

Lemma delete_bar_none (n : nat) (s : string) :
  mem_char newline s = false ->
  mem_char "|" (delete_from n bar_suffix_regex s 0) = false.
Proof.
  induction s as [|c s IH]; intros L; [reflexivity|].
  assert (L' : mem_char newline s = false).
  { cbn [mem_char] in L. apply orb_false_elim in L. exact (proj2 L). }
  cbn [delete_from].
  destruct (match_at n bar_suffix_regex (String c s)) as [[t g]|] eqn:M.
  - pose proof (match_at_to_end _ bar_suffix_regex _ _ eq_refl L M) as T.
    cbn [matched] in T.
    subst t. rewrite delete_from_skip. reflexivity.
  - cbn [mem_char]. rewrite (IH L'), orb_false_r.
    destruct (Ascii.eqb "|" c) eqn:B; [|reflexivity].
    apply Ascii.eqb_eq in B. subst c. rewrite (bar_match n s L') in M.
    discriminate M.
Qed.

(** Stripping a prefix of a trimmed text leaves a prefix of it. *)
Lemma strip_prefix (p rest : string) :
  trimmed (p ++ rest) -> exists rest', p ++ rest = strip p ++ rest'.
Proof.
  intros [F _]. destruct p as [|c p].
  - exists rest. reflexivity.
  - unfold strip. rewrite lstrip_by_id.
    + destruct (rstrip_by_split isspace (String c p)) as (r & E & _).
      exists (r ++ rest). rewrite <- append_assoc, <- E. reflexivity.
    + intros x [= <-]. apply F. reflexivity.
Qed.

(** X25.  The name taken from a one-line title: [clean_name] returns a
    beginning of the title, with no white space at either end and never
    empty; and unless it returns the title whole, what it returns holds no
    vertical bar. *)
Theorem clean_name_prefix (text : string) :
  trimmed text -> mem_char newline text = false -> text <> EmptyString ->
  clean_name text <> EmptyString
  /\ trimmed (clean_name text)
  /\ prefix (clean_name text) text = true
  /\ (clean_name text = text \/ mem_char "|" (clean_name text) = false).
Proof.
  intros T L N. unfold clean_name.
  set (name1 := strip (re_delete showtimes_suffix_regex text)).
  set (name2 := strip (re_delete bar_suffix_regex name1)).
  destruct (String.eqb_spec name2 EmptyString) as [E|E].
  - split; [exact N|]. split; [exact T|]. split; [|left; reflexivity].
    rewrite <- (append_empty_r text) at 2. apply prefix_app.
  - split; [exact E|]. split; [apply strip_trimmed|].
    assert (P1 : exists rest, text = name1 ++ rest).
    { destruct (delete_from_prefix (String.length text) showtimes_suffix_regex
                                   text eq_refl L) as [rest R].
      fold (re_delete showtimes_suffix_regex text) in R.
      rewrite R in T. destruct (strip_prefix _ _ T) as [rest' R'].
      exists rest'. rewrite R at 1. exact R'. }
    destruct P1 as [rest1 R1].
    assert (L1 : mem_char newline name1 = false).
    { rewrite R1, mem_char_app in L. apply orb_false_elim in L. exact (proj1 L). }
    assert (T1 : trimmed name1) by apply strip_trimmed.
    assert (P2 : exists rest, name1 = name2 ++ rest).
    { destruct (delete_from_prefix (String.length name1) bar_suffix_regex
                                   name1 eq_refl L1) as [rest R].
      fold (re_delete bar_suffix_regex name1) in R.
      rewrite R in T1. destruct (strip_prefix _ _ T1) as [rest' R'].
      exists rest'. rewrite R at 1. exact R'. }
    destruct P2 as [rest2 R2]. split.
    + rewrite R1, R2, append_assoc. apply prefix_app.
    + right. apply mem_char_strip. apply delete_bar_none, L1.
Qed.

(** ** What the date check lets through *)

Lemma denotes_group (r : regex) (t : string) (caps caps' : list string) :
  group_free r = true -> denotes (RGroup r) t caps caps' ->
  caps' = (caps ++ [t])%list.
Proof.
  intros G (mid & D & ->). rewrite (denotes_group_free _ _ _ _ G D). reflexivity.
Qed.

Lemma denotes_chr (c : ascii) (t : string) (caps caps' : list string) :
  denotes (chr c) t caps caps' -> t = String c EmptyString /\ caps' = caps.
Proof.
  intros (x & -> & E & ->). apply Ascii.eqb_eq in E. subst x. split; reflexivity.
Qed.

Lemma length_append (a b : string) :
  String.length (a ++ b) = String.length a + String.length b.
Proof. induction a as [|c a IH]; simpl; [reflexivity | rewrite IH; reflexivity]. Qed.

Lemma in_range_isdigit (lo hi : nat) (c : ascii) :
  in_range lo hi c = true ->
  (48 <=? lo)%nat = true -> (hi <=? 57)%nat = true -> isdigit c = true.
Proof.
  unfold isdigit, in_range. intros R L H.
  apply andb_prop in R. destruct R as [R1 R2].
  apply Nat.leb_le in L, H, R1, R2.
  apply andb_true_intro. split; apply Nat.leb_le; lia.
Qed.

Lemma all_digits_chars (s : string) : all_digits s = all_chars isdigit s.
Proof. induction s as [|c s IH]; [reflexivity|]. cbn. rewrite IH. reflexivity. Qed.

(** [int] of a group that is all digits, or a blank and digits, is the
    number the digits write. *)
Lemma int_of_str_decimal (s : string) :
  all_digits s = true -> int_of_str s = decimal s.
Proof.
  intros A. rewrite all_digits_chars in A. unfold int_of_str, decimal.
  rewrite strip_id; [reflexivity|].
  split; intros c H.
  - apply isdigit_not_space. exact (all_chars_first _ _ _ A H).
  - apply isdigit_not_space. exact (all_chars_last _ _ _ A H).
Qed.

Lemma int_of_str_blank (s : string) :
  all_digits s = true -> int_of_str (String " " s) = decimal s.
Proof.
  intros A. rewrite <- (int_of_str_decimal s A). reflexivity.
Qed.

(** What the pattern of a month and the pattern of a day match. *)
Lemma month_denotes (t : string) (caps caps' : list string) :
  denotes month_regex t caps caps' -> short_number t = true.
Proof.
  unfold month_regex, range, chr. cbn [denotes].
  intros (mid & D & _).
  destruct D as [D|[D|D]].
  - destruct D as (t1 & t2 & m' & -> & (c1 & -> & P1 & _) & (c2 & -> & P2 & _)).
    apply Ascii.eqb_eq in P1. subst c1.
    unfold short_number. cbn.
    rewrite (in_range_isdigit _ _ _ P2 eq_refl eq_refl). reflexivity.
  - destruct D as (t1 & t2 & m' & -> & (c1 & -> & P1 & _) & (c2 & -> & P2 & _)).
    apply Ascii.eqb_eq in P1. subst c1.
    unfold short_number. cbn.
    rewrite (in_range_isdigit _ _ _ P2 eq_refl eq_refl). reflexivity.
  - destruct D as (c & -> & P & _).
    unfold short_number. cbn.
    rewrite (in_range_isdigit _ _ _ P eq_refl eq_refl). reflexivity.
Qed.

Lemma day_denotes (t : string) (caps caps' : list string) :
  denotes day_regex t caps caps' ->
  exists d, short_number d = true /\ (t = d \/ t = String " " d).
Proof.
  unfold day_regex, range, chr, digit. cbn [denotes].
  intros (mid & D & _).
  destruct D as [D|[D|[D|[D|D]]]].
  - destruct D as (t1 & t2 & m' & -> & (c1 & -> & P1 & _) & (c2 & -> & P2 & _)).
    apply Ascii.eqb_eq in P1. subst c1. eexists. split; [|left; reflexivity].
    unfold short_number. cbn.
    rewrite (in_range_isdigit _ _ _ P2 eq_refl eq_refl). reflexivity.
  - destruct D as (t1 & t2 & m' & -> & (c1 & -> & P1 & _) & (c2 & -> & P2 & _)).
    eexists. split; [|left; reflexivity].
    unfold short_number. cbn.
    rewrite (in_range_isdigit _ _ _ P1 eq_refl eq_refl), P2. reflexivity.
  - destruct D as (t1 & t2 & m' & -> & (c1 & -> & P1 & _) & (c2 & -> & P2 & _)).
    apply Ascii.eqb_eq in P1. subst c1. eexists. split; [|left; reflexivity].
    unfold short_number. cbn.
    rewrite (in_range_isdigit _ _ _ P2 eq_refl eq_refl). reflexivity.
  - destruct D as (c & -> & P & _). eexists. split; [|left; reflexivity].
    unfold short_number. cbn.
    rewrite (in_range_isdigit _ _ _ P eq_refl eq_refl). reflexivity.
  - destruct D as (t1 & t2 & m' & -> & (c1 & -> & P1 & _) & (c2 & -> & P2 & _)).
    apply Ascii.eqb_eq in P1. subst c1.
    exists (String c2 EmptyString). split; [|right; reflexivity].
    unfold short_number. cbn.
    rewrite (in_range_isdigit _ _ _ P2 eq_refl eq_refl). reflexivity.
Qed.

(** X26.  A date the check lets through names a day of the calendar: it is
    a year of four digits, a hyphen, a month of one or two digits, a
    hyphen, and a day of one or two digits (or a blank and one digit), and
    the three numbers the digits write are a date that exists: the year
    from 1 to 9999, the month from 1 to 12, the day within the month, leap
    years counted.  Such a date is returned as given. *)
Theorem accepted_date_is_calendar_day (s : string) :
  accepts s = true ->
  exists y m d,
    (s = y ++ "-" ++ m ++ "-" ++ d \/ s = y ++ "-" ++ m ++ "- " ++ d)
    /\ String.length y = 4 /\ all_digits y = true
    /\ short_number m = true
    /\ short_number d = true
    /\ valid_date (decimal y) (decimal m) (decimal d) = true
    /\ _validate_date (Some s) = Ok s.
Proof.
  intros H.
  assert (V : _validate_date (Some s) = Ok s).
  { rewrite validate_date_value, H. reflexivity. }
  unfold accepts, strptime_ymd, re_match, match_at in H.
  destruct (rmatch (String.length s) ymd_regex s []
                   (fun t _ caps => Some (MkMatch t caps))) as [m|] eqn:M;
    [|discriminate H].
  destruct (rmatch_sound _ _ _ _ _ _ M) as (t & rest & caps & E & D & K).
  injection K as <-. unfold span in H. cbn [matched groups] in H.
  destruct (negb (String.length s =? String.length t)%nat) eqn:Len;
    [discriminate H|].
  apply negb_false_iff, Nat.eqb_eq in Len.
  assert (R : rest = EmptyString).
  { rewrite E, length_append in Len.
    destruct rest; [reflexivity | cbn [String.length] in Len; lia]. }
  subst rest. rewrite append_empty_r in E. subst t.
  unfold ymd_regex, seq in D. cbn [fold_right] in D.
  destruct D as (ty & t1 & c1 & -> & Dy & D).
  destruct D as (th1 & t2 & c2 & -> & Dh1 & D).
  destruct D as (tm & t3 & c3 & -> & Dm & D).
  destruct D as (th2 & t4 & c4 & -> & Dh2 & D).
  destruct D as (td & t5 & c5 & -> & Dd & (-> & ->)).
  apply denotes_chr in Dh1. destruct Dh1 as [-> ->].
  apply denotes_chr in Dh2. destruct Dh2 as [-> ->].
  pose proof (month_denotes _ _ _ Dm) as Sm.
  destruct (day_denotes _ _ _ Dd) as (dd & Sd & Ed).
  unfold month_regex in Dm. apply denotes_group in Dm; [|reflexivity].
  unfold day_regex in Dd. apply denotes_group in Dd; [|reflexivity].
  unfold year_regex in Dy. destruct Dy as (mid & Dy & ->).
  destruct (denotes_rep_digit _ _ _ _ Dy) as (Ly & Ay & ->).
  subst c3 c5. cbn [app] in H.
  destruct (valid_date (int_of_str ty) (int_of_str tm) (int_of_str td)) eqn:Vd;
    [|discriminate H].
  rewrite (int_of_str_decimal ty Ay) in Vd.
  assert (Am : all_digits tm = true).
  { unfold short_number in Sm. apply andb_prop in Sm. exact (proj1 Sm). }
  assert (Ad : all_digits dd = true).
  { unfold short_number in Sd. apply andb_prop in Sd. exact (proj1 Sd). }
  rewrite (int_of_str_decimal tm Am) in Vd.
  assert (Vd' : valid_date (decimal ty) (decimal tm) (decimal dd) = true).
  { destruct Ed as [->| ->];
      [rewrite (int_of_str_decimal dd Ad) in Vd
      | rewrite (int_of_str_blank dd Ad) in Vd]; exact Vd. }
  exists ty, tm, dd. rewrite append_empty_r in *.
  split; [destruct Ed as [->| ->]; [left | right]; norm_app; reflexivity|].
  repeat split; assumption.
Qed.

End Scraper.

(** ** The requests the entry points make

    The transport is a parameter of the scraper, so what an entry point asks
    of the site shows as the only places where its result depends on the
    transport. *)

(** X27.  Each entry point reads the site at its own requests only: the
    result of [get_showtimes] depends on the answer to the one location
    query, whose parameters carry the date of the request and the page
    number in decimal; the result of [get_movie_details] on the answer for
    the movie's page; the result of [get_theater_showtimes] on the answer
    for the theater's page and on the answers to location queries by ZIP
    code for the date of the request. *)
Theorem entry_points_requests
        (today : string) (float_repr : spec_float -> string)
        (str_repr : string -> string)
        (soup_select : string -> string -> list tag)
        (json_loads : string -> result json) :
  (forall (api1 api2 : string -> dict -> result json) location date page,
      api1 FANDANGO_API (showtimes_params today location date page)
      = api2 FANDANGO_API (showtimes_params today location date page) ->
      get_showtimes today float_repr str_repr api1 location date page
      = get_showtimes today float_repr str_repr api2 location date page)
  /\ (forall location date page,
         dict_get "date" (showtimes_params today location date page)
         = Some (JStr (request_date today date))
         /\ dict_get "page" (showtimes_params today location date page)
            = Some (JStr (str_of_int page)))
  /\ (forall (site1 site2 : string -> result string) movie_url,
         site1 (FANDANGO_BASE ++ movie_path movie_url)
         = site2 (FANDANGO_BASE ++ movie_path movie_url) ->
         get_movie_details site1 soup_select json_loads movie_url
         = get_movie_details site2 soup_select json_loads movie_url)
  /\ (forall (api1 api2 : string -> dict -> result json)
             (site1 site2 : string -> result string) theater_id date,
         site1 (theater_url_of theater_id (request_date today date))
         = site2 (theater_url_of theater_id (request_date today date)) ->
         (forall zip_code,
             api1 FANDANGO_API (zip_params zip_code (request_date today date))
             = api2 FANDANGO_API (zip_params zip_code (request_date today date))) ->
         get_theater_showtimes today float_repr str_repr api1 site1 soup_select
                               theater_id date
         = get_theater_showtimes today float_repr str_repr api2 site2 soup_select
                                 theater_id date).
Proof.
  split; [|split; [|split]].
  - intros api1 api2 location date page E.
    rewrite !get_showtimes_request, E. reflexivity.
  - intros location date page. unfold showtimes_params. split.
    + rewrite dict_get_set_other by reflexivity. apply dict_get_set_same.
    + apply dict_get_set_same.
  - intros site1 site2 movie_url E.
    unfold get_movie_details, _fetch_html. cbv zeta. rewrite E. reflexivity.
  - intros api1 api2 site1 site2 theater_id date E Z.
    rewrite !get_theater_showtimes_request. cbv zeta. rewrite E.
    destruct (site2 (theater_url_of theater_id (request_date today date)))
      as [html|e]; [|reflexivity].
    unfold _parse_theater_page. destruct (find_zip html) as [m|]; [|reflexivity].
    unfold _fetch_theater_via_api, _fetch_json. rewrite Z. reflexivity.
Qed.

(** ** Concrete runs

    The theorems of the section hold for every remote site, clock and page.
    Here they are applied to the fixed inputs above, and the places where the
    code parts from the wording of its specification are run. *)

(** C1 on [demo_movie]: a Standard showing and an IMAX one. *)
Lemma simplify_movie_labels_witness :
  exists out,
    _simplify_movie demo_float_repr demo_str_repr demo_movie = Ok out
    /\ string_times demo_movie = true
    /\ py_index out "showtimes" = Ok (JArr [JStr "7:00p"; JStr "9:30p (IMAX)"]).
Proof.
  eexists. split; [reflexivity|]. split; [reflexivity|].
  exact (simplify_movie_labels demo_float_repr demo_str_repr demo_movie _
                               eq_refl eq_refl).
Defined.

(** C1 as worded fails on [stale_movie]: the ticketing date is an object
    without a local time, and the label is empty although the flat date-time
    is there. *)
Lemma showtime_time_counterexample :
  exists out,
    _simplify_movie demo_float_repr demo_str_repr stale_movie = Ok out
    /\ py_index out "showtimes" = Ok (JArr [JStr EmptyString])
    /\ labels_with demo_float_repr demo_str_repr claimed_time stale_movie
       = [JStr "19:00"].
Proof.
  eexists. split; [reflexivity|]. split; reflexivity.
Qed.

(** C3 as worded fails on 2026-1-5: it is not a strict YYYY-MM-DD string,
    and yet it is returned as given, not replaced by today's date. *)
Lemma validate_date_counterexample :
  strict_iso "2026-1-5" = false
  /\ _validate_date demo_today (Some "2026-1-5") = Ok "2026-1-5"
  /\ _validate_date demo_today (Some "2026-1-5") <> Ok demo_today.
Proof.
  split; [reflexivity|]. split; [reflexivity | discriminate].
Qed.

(** C4 on [empty_site]. *)
Lemma get_showtimes_no_results_witness :
  exists message out,
    get_showtimes demo_today demo_float_repr demo_str_repr empty_site
                  "10001" None 1 = Ok out
    /\ out = JObj [("location", JStr "10001");
                   ("date", JStr (request_date demo_today None));
                   ("theater_count", JInt 0); ("theaters", JArr []);
                   ("message", JStr message)]
    /\ message <> EmptyString
    /\ dict_get "error" (fields out) = None.
Proof.
  exact (get_showtimes_no_results demo_today demo_float_repr demo_str_repr
                                  empty_site "10001" None 1
                                  [("theaters", JArr [])] eq_refl
                                  (or_intror (or_intror eq_refl))).
Defined.

(** C5 as worded fails on [failing_api]: the HTTP status failure of the
    second fetch leaves no error string in the result. *)
Lemma second_fetch_counterexample :
  exists out,
    get_theater_showtimes demo_today demo_float_repr demo_str_repr failing_api
                          page_site no_select "amc-empire-25-aabcd" None = Ok out
    /\ failing_api FANDANGO_API (zip_params "10001" demo_today)
       = Raise (HTTPStatusError 500 "Internal Server Error")
    /\ dict_get "error" (fields out) = None
    /\ dict_get "message" (fields out) = Some dynamic_message.
Proof.
  eexists. split; [reflexivity|]. repeat split.
Qed.

(** C6 on the specification's example: structured data wins over the
    selector's title, after a block that does not load; the two directors
    come out with a comma and a space between them, and of the cast the
    entries that are objects. *)
Lemma movie_block_overrides_witness :
  exists res,
    _parse_movie_page movie_select movie_loads "<html>" "/x/movie-overview"
    = JObj res
    /\ dict_get "title" (selector_pass movie_select "<html>" "/x/movie-overview")
       = Some (JStr "Y")
    /\ dict_get "title" res = Some (JStr "X")
    /\ dict_get "genres" res = Some (JArr [JStr "Action"; JStr "Drama"])
    /\ dict_get "director" res = Some (JStr "Lana, Lilly")
    /\ dict_get "cast" res = Some (JArr [JStr "Keanu"; JStr "Carrie-Anne"]).
Proof.
  destruct (proj1 (movie_block_overrides movie_select movie_loads
                                         "<html>" "/x/movie-overview"
                                         [broken_script] movie_script [] movie_block
                                         eq_refl eq_refl eq_refl eq_refl)
                  eq_refl eq_refl)
    as (res & P & T & _ & G & D & C & _).
  exists res. split; [exact P|]. split; [reflexivity|]. split; [exact T|].
  split; [|split].
  - apply (G [JStr "Action"; JStr "Drama"] eq_refl). discriminate.
  - apply (D _ ["Lana"; "Lilly"] eq_refl); [discriminate | reflexivity].
  - apply (C _ eq_refl). discriminate.
Defined.

(** C6 as worded fails on [null_director_block]: the block loads and is
    typed Movie, and names the actor A; but a director has no name, the
    join raises, and the result keeps the cast B of the selectors and has
    no director. *)
Lemma null_director_counterexample :
  exists res,
    _parse_movie_page cast_select null_director_loads "<html>" "/x/movie-overview"
    = JObj res
    /\ load_script null_director_loads null_director_script
       = Ok (JObj null_director_block)
    /\ eq_str (get_or null_director_block "@type" JNull) "Movie" = true
    /\ get_or null_director_block "actor" JNull = JArr [JObj [("name", JStr "A")]]
    /\ dict_get "cast" res = Some (JArr [JStr "B"])
    /\ dict_get "director" res = None
    /\ dict_get "title" res = Some (JStr "X").
Proof.
  eexists. split; [reflexivity|]. repeat split.
Qed.

(** C7 on the identifier foo-bar, with blanks around it and a slash at
    its end. *)
Lemma url_and_slug_same_path_witness :
  theater_path " https://www.fandango.com/foo-bar/theater-page/ "
  = "/foo-bar/theater-page"
  /\ theater_path " /foo-bar/theater-page/ " = "/foo-bar/theater-page"
  /\ theater_path " foo-bar/ " = "/foo-bar/theater-page"
  /\ theater_path "https://www.fandango.com/foo-bar/theater-page"
     = "/foo-bar/theater-page"
  /\ theater_path "foo-bar" = "/foo-bar/theater-page".
Proof.
  assert (P : theater_path " https://www.fandango.com/foo-bar/theater-page/ "
              = "/foo-bar/theater-page"
              /\ theater_path " /foo-bar/theater-page/ " = "/foo-bar/theater-page"
              /\ ("foo-bar" <> "theater-page" ->
                  theater_path " foo-bar/ " = "/foo-bar/theater-page")).
  { refine (proj1 (url_and_slug_same_path
                     "foo-bar" "https://www.fandango.com" " " "/" " "
                     eq_refl _ eq_refl (or_introl eq_refl)
                     eq_refl eq_refl eq_refl)).
    discriminate. }
  destruct P as (P1 & P2 & P3).
  split; [exact P1|]. split; [exact P2|]. split; [apply P3; discriminate|].
  split; reflexivity.
Defined.

(** C7 as worded fails on two leading slashes and on a URL with a query:
    the path of //foo keeps both slashes, and a URL that has the suffix
    before its query gets the suffix once more. *)
Lemma leading_slash_counterexample :
  theater_path "//foo" = "//foo/theater-page"
  /\ single_leading_slash (theater_path "//foo") = false
  /\ theater_path "https://www.fandango.com/foo-bar/theater-page?date=2026-01-01"
     = "/foo-bar/theater-page?date=2026-01-01/theater-page"
  /\ theater_path "https://www.fandango.com/foo-bar/theater-page"
     = "/foo-bar/theater-page".
Proof.
  repeat split.
Qed.

(** C8 on [listing_api]: the second theater of the list is the one whose
    page URL has the requested slug. *)
Lemma theater_lookup_two_steps_witness :
  page_site (theater_url_of "amc-empire-25-aabcd" (request_date demo_today None))
  = Ok zip_page
  /\ selected (target_slug_of
                 (theater_url_of "amc-empire-25-aabcd" (request_date demo_today None)))
              [other_theater; asked_theater]
     = asked_theater
  /\ get_theater_showtimes demo_today demo_float_repr demo_str_repr listing_api
                           page_site no_select "amc-empire-25-aabcd" None
     = _simplify_theater demo_float_repr demo_str_repr asked_theater.
Proof.
  split; [reflexivity|]. split; [reflexivity|].
  refine (proj1 (theater_lookup_two_steps demo_today demo_float_repr demo_str_repr
                                          listing_api page_site no_select
                                          "amc-empire-25-aabcd" None zip_page eq_refl)
                _ [("theaters", JArr [other_theater; asked_theater])]
                [other_theater; asked_theater] eq_refl eq_refl eq_refl _ eq_refl).
  discriminate.
Defined.

(** C8 as worded fails on the identifier page: the slug of AMC Empire 25
    does not hold it and the slug of Page Cinema does, but the test is on
    the whole detail URL, which ends with /theater-page for every theater,
    and the first of the list is returned. *)
Lemma slug_substring_counterexample :
  target_slug_of (theater_url_of "page" (request_date demo_today None)) = "page"
  /\ detail_slug asked_theater = "amc-empire-25-aabcd"
  /\ slug_claimed "page" asked_theater = false
  /\ claimed_selected "page" [asked_theater; page_cinema] = page_cinema
  /\ selected "page" [asked_theater; page_cinema] = asked_theater
  /\ get_theater_showtimes demo_today demo_float_repr demo_str_repr
                           page_listing_api page_site no_select "page" None
     = _simplify_theater demo_float_repr demo_str_repr asked_theater.
Proof.
  repeat split.
Qed.

(** C9 on [asked_theater]: the distance 3.14159 comes out as 3.14. *)
Lemma distance_miles_rounded_witness :
  exists out,
    _simplify_theater demo_float_repr demo_str_repr asked_theater = Ok out
    /\ py_index out "distance_miles" = Ok (JFloat (float_of_decimal 314 2))
    /\ exists v,
         py_index out "distance_miles" = Ok v
         /\ rounded_distance (get_or (fields asked_theater) "distance" JNull) v.
Proof.
  eexists. split; [reflexivity|]. split; [vm_compute; reflexivity|].
  exact (proj1 (distance_miles_rounded demo_float_repr demo_str_repr
                                       asked_theater _ eq_refl)).
Defined.

(** X1 on the ZIP code 10001 between blanks. *)
Lemma parse_location_zip_padded_witness :
  zip_form "10001" = true
  /\ _parse_location "  10001 " = Ok [("zipCode", JStr "10001")].
Proof.
  split; [reflexivity|].
  exact (parse_location_zip_padded "10001" "  " " " eq_refl eq_refl eq_refl).
Defined.

(** X5 on a date that is none: today's date comes back, and is kept when
    checked again. *)
Lemma validate_date_settles_witness :
  accepts demo_today = true
  /\ exists d,
       _validate_date demo_today (Some "tomorrow") = Ok d
       /\ accepts d = true
       /\ _validate_date demo_today (Some d) = Ok d.
Proof.
  split; [reflexivity|].
  exact (validate_date_settles demo_today (Some "tomorrow") eq_refl).
Defined.

(** X7 on [demo_movie]: two variants, one showing each. *)
Lemma simplify_movie_counts_witness :
  exists out,
    _simplify_movie demo_float_repr demo_str_repr demo_movie = Ok out
    /\ exists labels variants,
         py_index out "showtimes" = Ok (JArr labels)
         /\ py_index out "variants" = Ok (JArr variants)
         /\ List.length labels
            = list_sum (map (fun v => List.length (raw_showtimes v))
                            (raw_variants demo_movie))
         /\ List.length variants = List.length (raw_variants demo_movie).
Proof.
  eexists. split; [reflexivity|].
  exact (simplify_movie_counts demo_float_repr demo_str_repr demo_movie _ eq_refl).
Defined.

(** X8 on an IMAX showing whose date-time is the number 1900. *)
Lemma simplify_movie_time_type_error_witness :
  has_suffix (JStr "IMAX") = true
  /\ time_part [("dateTime", JInt 1900)] = JInt 1900
  /\ _simplify_movie demo_float_repr demo_str_repr
                     (one_showing (JStr "IMAX") [("dateTime", JInt 1900)])
     = Raise TypeError.
Proof.
  split; [reflexivity|]. split; [reflexivity|].
  exact (simplify_movie_time_type_error demo_float_repr demo_str_repr
                                        (JStr "IMAX") [("dateTime", JInt 1900)]
                                        eq_refl I).
Defined.

(** X9 on an IMAX showing whose date-time is a list of one string: the
    characters of the suffix are appended to the list. *)
Lemma simplify_movie_list_time_witness :
  exists out showtime,
    _simplify_movie demo_float_repr demo_str_repr
                    (one_showing (JStr "IMAX") [("dateTime", JArr [JStr "7:00p"])])
    = Ok out
    /\ py_index out "showtimes"
       = Ok (JArr [JArr [JStr "7:00p"; JStr " "; JStr "("; JStr "I"; JStr "M";
                         JStr "A"; JStr "X"; JStr ")"]])
    /\ py_index out "variants"
       = Ok (JArr [JObj [("format", JStr "IMAX");
                         ("showtimes", JArr [showtime])]])
    /\ py_index showtime "time"
       = Ok (JArr [JStr "7:00p"; JStr " "; JStr "("; JStr "I"; JStr "M";
                   JStr "A"; JStr "X"; JStr ")"]).
Proof.
  exact (simplify_movie_list_time demo_float_repr demo_str_repr (JStr "IMAX")
                                  [("dateTime", JArr [JStr "7:00p"])]
                                  [JStr "7:00p"] eq_refl eq_refl).
Defined.

(** X10 on [demo_movie]. *)
Lemma simplify_movie_fields_witness :
  exists out,
    _simplify_movie demo_float_repr demo_str_repr demo_movie = Ok out
    /\ py_index out "title" = Ok (JStr "Dune")
    /\ py_index out "genres" = Ok (JArr [])
    /\ py_index out "poster" = Ok JNull
    /\ py_index out "fandango_url" = Ok JNull.
Proof.
  eexists. split; [reflexivity|].
  exact (simplify_movie_fields demo_float_repr demo_str_repr demo_movie _ eq_refl).
Defined.

(** X11 on [asked_theater]. *)
Lemma simplify_theater_fields_witness :
  exists out,
    _simplify_theater demo_float_repr demo_str_repr asked_theater = Ok out
    /\ py_index out "name" = Ok (JStr "AMC Empire 25")
    /\ py_index out "address" = Ok (JStr EmptyString)
    /\ py_index out "date" = Ok JNull
    /\ py_index out "fandango_url"
       = Ok (JStr "https://www.fandango.com/AMC-Empire-25-aabcd/theater-page").
Proof.
  eexists. split; [reflexivity|].
  exact (simplify_theater_fields demo_float_repr demo_str_repr asked_theater _
                                 eq_refl).
Defined.

(** X12 on a theater whose distance is the string 3.1. *)
Lemma simplify_theater_distance_type_error_witness :
  _simplify_theater demo_float_repr demo_str_repr
                    (JObj [("distance", JStr "3.1")])
  = Raise TypeError.
Proof.
  exact (simplify_theater_distance_type_error demo_float_repr demo_str_repr
                                              [("distance", JStr "3.1")]
                                              (JStr "3.1") eq_refl eq_refl I).
Defined.

(** X13 on [asked_theater]. *)
Lemma simplify_theater_wf_witness :
  wf_theater asked_theater = true
  /\ exists out,
       _simplify_theater demo_float_repr demo_str_repr asked_theater = Ok out.
Proof.
  split; [reflexivity|].
  exact (simplify_theater_wf demo_float_repr demo_str_repr asked_theater eq_refl).
Defined.

(** X14 on [zip_page]. *)
Lemma find_zip_five_digits_witness :
  exists m,
    find_zip zip_page = Some m
    /\ group1 m = "10001"
    /\ String.length (group1 m) = 5
    /\ all_digits (group1 m) = true
    /\ zip_form (group1 m) = true.
Proof.
  eexists. split; [reflexivity|]. split; [reflexivity|].
  exact (find_zip_five_digits zip_page _ eq_refl).
Defined.

(** X16 on [listing_api]: both theaters of the payload are listed. *)
Lemma get_showtimes_listing_witness :
  exists theaters,
    mapM (_simplify_theater demo_float_repr demo_str_repr)
         [other_theater; asked_theater] = Ok theaters
    /\ List.length theaters = 2
    /\ get_showtimes demo_today demo_float_repr demo_str_repr listing_api
                     "10001" None 3
       = Ok (JObj [("location", JStr "10001");
                   ("date", JStr demo_today);
                   ("page", JInt 3);
                   ("total_pages", JInt 1);
                   ("theater_count", JInt 2);
                   ("theaters", JArr theaters)]).
Proof.
  refine (get_showtimes_listing demo_today demo_float_repr demo_str_repr
                                listing_api "10001" None 3
                                [("theaters", JArr [other_theater; asked_theater])]
                                [other_theater; asked_theater]
                                eq_refl eq_refl _ eq_refl eq_refl).
  discriminate.
Defined.

(** X17 on [empty_site]: the location comes back with its blanks. *)
Lemma get_showtimes_echo_witness :
  exists out,
    get_showtimes demo_today demo_float_repr demo_str_repr empty_site
                  " 10001 " (Some "2026-12-24") 1 = Ok out
    /\ dict_get "error" (fields out) = None
    /\ py_index out "location" = Ok (JStr " 10001 ")
    /\ py_index out "date" = Ok (JStr "2026-12-24").
Proof.
  eexists. split; [reflexivity|]. split; [reflexivity|].
  exact (get_showtimes_echo demo_today demo_float_repr demo_str_repr empty_site
                            " 10001 " (Some "2026-12-24") 1 _ eq_refl eq_refl).
Defined.

(** X18 on [text_site]: the answer is a string. *)
Lemma payload_not_object_raises_witness :
  get_showtimes demo_today demo_float_repr demo_str_repr text_site
                "10001" None 1 = Raise AttributeError
  /\ get_theater_showtimes demo_today demo_float_repr demo_str_repr text_site
                           page_site no_select "amc-empire-25-aabcd" None
     = Raise AttributeError.
Proof.
  split.
  - exact (proj1 (payload_not_object_raises
                    demo_today demo_float_repr demo_str_repr text_site page_site
                    no_select (JStr "maintenance") eq_refl eq_refl)
                 "10001" None 1%Z eq_refl).
  - exact (proj2 (payload_not_object_raises
                    demo_today demo_float_repr demo_str_repr text_site page_site
                    no_select (JStr "maintenance") eq_refl eq_refl)
                 "amc-empire-25-aabcd" None zip_page _ eq_refl eq_refl eq_refl).
Defined.

(** X19 on [undecodable_site]: the ValueError of the decoder comes out of
    [get_showtimes]. *)
Lemma other_failures_propagate_witness :
  get_showtimes demo_today demo_float_repr demo_str_repr undecodable_site
                "10001" None 1 = Raise ValueError.
Proof.
  refine (proj1 (other_failures_propagate
                   demo_today demo_float_repr demo_str_repr undecodable_site
                   page_site no_select movie_loads ValueError _ _)
                "10001" None 1%Z eq_refl);
    intros; discriminate.
Defined.

(** X20 on [empty_site]: the page gives the ZIP code, the query no theater. *)
Lemma theater_lookup_empty_listing_witness :
  exists out,
    get_theater_showtimes demo_today demo_float_repr demo_str_repr empty_site
                          page_site no_select "amc-empire-25-aabcd" None
    = Ok (JObj out)
    /\ out = [("url", JStr "https://www.fandango.com/amc-empire-25-aabcd/theater-page?date=2026-11-05");
              ("date", JStr "2026-11-05");
              ("message", dynamic_message)]
    /\ dict_get "message" out = Some dynamic_message
    /\ dict_get "url" out
       = Some (JStr "https://www.fandango.com/amc-empire-25-aabcd/theater-page?date=2026-11-05")
    /\ dict_get "date" out = Some (JStr "2026-11-05")
    /\ dict_get "error" out = None.
Proof.
  exact (theater_lookup_empty_listing
           demo_today demo_float_repr demo_str_repr empty_site page_site no_select
           "amc-empire-25-aabcd" None zip_page _ [("theaters", JArr [])]
           eq_refl eq_refl eq_refl (or_intror (or_intror eq_refl))).
Defined.

(** X22 on a slug: the record of the parsed page has the full address. *)
Lemma get_movie_details_url_witness :
  exists out,
    get_movie_details page_site movie_select movie_loads "dune-2021-222222"
    = Ok out
    /\ py_index out "url"
       = Ok (JStr "https://www.fandango.com/dune-2021-222222/movie-overview").
Proof.
  eexists. split; [reflexivity|].
  exact (get_movie_details_url page_site movie_select movie_loads
                               "dune-2021-222222" _ eq_refl).
Defined.

(** X23 on [broken_select]: the only block does not load. *)
Lemma scripts_passed_over_witness :
  forallb (passed_over movie_loads) (broken_select "<html>" ld_selector) = true
  /\ _parse_movie_page broken_select movie_loads "<html>" "/x/movie-overview"
     = JObj [("url", JStr "/x/movie-overview"); ("title", JStr "Unknown")].
Proof.
  split; [reflexivity|].
  exact (scripts_passed_over broken_select movie_loads "<html>"
                             "/x/movie-overview" eq_refl).
Defined.

(** X24 on [partial_block]: the title and the synopsis are replaced, the
    cast is not, and the loop does not stop. *)
Lemma movie_block_partial_witness :
  exists res',
    ld_step partial_loads movie_script [("title", JStr "Y")] = (res', false)
    /\ ld_loop partial_loads [movie_script] [("title", JStr "Y")]
       = ld_loop partial_loads [] res'
    /\ dict_get "title" res' = Some (JStr "X")
    /\ (forall key out,
           In (key, out) overridden ->
           truthy (get_or partial_block key JNull) = true ->
           dict_get out res' = Some (get_or partial_block key JNull))
    /\ dict_get "cast" res' = None.
Proof.
  refine (movie_block_partial partial_loads movie_script [] partial_block
                              [("title", JStr "Y")] 3
                              eq_refl eq_refl eq_refl eq_refl _).
  discriminate.
Defined.

(** X25 on [demo_title]: the name is what stands before the suffix. *)
Lemma clean_name_prefix_witness :
  clean_name demo_title = "AMC Empire 25"
  /\ mem_char newline demo_title = false
  /\ clean_name demo_title <> EmptyString
  /\ trimmed (clean_name demo_title)
  /\ prefix (clean_name demo_title) demo_title = true
  /\ (clean_name demo_title = demo_title
      \/ mem_char "|" (clean_name demo_title) = false).
Proof.
  split; [reflexivity|]. split; [reflexivity|].
  refine (clean_name_prefix demo_title (strip_trimmed demo_title) eq_refl _).
  discriminate.
Defined.

(** X26 on the leap day of 2028. *)
Lemma accepted_date_is_calendar_day_witness :
  accepts "2028-02-29" = true
  /\ exists y m d,
       ("2028-02-29" = y ++ "-" ++ m ++ "-" ++ d
        \/ "2028-02-29" = y ++ "-" ++ m ++ "- " ++ d)
       /\ String.length y = 4
       /\ all_digits y = true
       /\ short_number m = true
       /\ short_number d = true
       /\ valid_date (decimal y) (decimal m) (decimal d) = true
       /\ _validate_date demo_today (Some "2028-02-29") = Ok "2028-02-29".
Proof.
  split; [reflexivity|].
  exact (accepted_date_is_calendar_day demo_today "2028-02-29" eq_refl).
Defined.
